(** * policymaker: spreadsheet rows to NSX-T policy documents

    A shallow embedding of the three scripts of the repository:
    [policymaker.py] (one policy per run), [optum_policy_maker.py] (one
    policy per sheet, sequence numbers shared over the run) and
    [ipset_maker.py] (IP sets as HCL locals).

    Modelling choices.
    - A spreadsheet cell is a Python scalar: [None], a [bool], an [int],
      a [float] or a [str] ([pyval]).  A row is a finite map from column
      names to cells ([Series.get] is a lookup with a default).
    - A [str] is a [string]; its characters are the code points below 256.
      [lower] and [upper] change the ASCII letters only: the other code
      points never become ASCII letters under Python's case mappings, so
      every comparison with an ASCII literal made by the scripts has the
      value Python gives it.
    - An [int] is a [Z].  A [float] is NaN, an infinity or a rational.
    - An exception is its class and its message; a computation that may
      raise returns an [outcome].  The [while] loop of the sequence-number
      allocation runs on fuel; [OutOfFuel] is what is left when the fuel
      is gone, and [next_unused_total] shows that this never happens.
    - Of the debug log of [create_rule] the model keeps the lines written
      ([logged]); the log file itself, the console and the files written
      by the [main] functions are not modelled, nor is the interpreter's
      limit on the number of digits of an [int]/[str] conversion. *)

From Stdlib Require Import ZArith QArith Qround String Ascii List Bool Lia.
From stdpp Require Import base option list gmap strings pretty.

Set Warnings "-register-all,-clear-no-such-hyp".

Local Open Scope string_scope.
Local Open Scope Z_scope.

(** ** Python strings *)

Module PyStr.

Definition code (c : ascii) : N := N_of_ascii c.

(** [str.isspace] on the code points below 256. *)
Definition is_whitespace (c : ascii) : bool :=
  let n := code c in
  ((9 <=? n) && (n <=? 13) || (28 <=? n) && (n <=? 32)
   || (n =? 133) || (n =? 160))%N.

Definition is_ascii_upper (c : ascii) : bool :=
  ((65 <=? code c) && (code c <=? 90))%N.

Definition is_ascii_lower (c : ascii) : bool :=
  ((97 <=? code c) && (code c <=? 122))%N.

Definition is_digit (c : ascii) : bool :=
  ((48 <=? code c) && (code c <=? 57))%N.

Definition lower_char (c : ascii) : ascii :=
  if is_ascii_upper c then ascii_of_N (code c + 32) else c.

Definition upper_char (c : ascii) : ascii :=
  if is_ascii_lower c then ascii_of_N (code c - 32) else c.

Fixpoint map_chars (f : ascii -> ascii) (s : string) : string :=
  match s with
  | EmptyString => EmptyString
  | String c r => String (f c) (map_chars f r)
  end.

(** [s.lower()] and [s.upper()]. *)
Definition lower : string -> string := map_chars lower_char.
Definition upper : string -> string := map_chars upper_char.

(** [s.startswith(p)]. *)
Fixpoint startswith (p s : string) : bool :=
  match p, s with
  | EmptyString, _ => true
  | String a p', String b s' => Ascii.eqb a b && startswith p' s'
  | String _ _, EmptyString => false
  end.

(** [s.endswith(p)]. *)
Fixpoint endswith (p s : string) : bool :=
  String.eqb s p ||
  match s with
  | EmptyString => false
  | String _ s' => endswith p s'
  end.

Fixpoint lstrip_with (sp : ascii -> bool) (s : string) : string :=
  match s with
  | EmptyString => EmptyString
  | String c r => if sp c then lstrip_with sp r else s
  end.

Fixpoint rstrip_with (sp : ascii -> bool) (s : string) : string :=
  match s with
  | EmptyString => EmptyString
  | String c r =>
      match rstrip_with sp r with
      | EmptyString => if sp c then EmptyString else String c EmptyString
      | r' => String c r'
      end
  end.

Definition strip_with (sp : ascii -> bool) (s : string) : string :=
  rstrip_with sp (lstrip_with sp s).

(** [s.strip()]. *)
Definition strip : string -> string := strip_with is_whitespace.

(** [s.split(sep)] for a separator of one character: never the empty
    list, one more element than there are separators. *)
Fixpoint split (sep : ascii) (s : string) : list string :=
  match s with
  | EmptyString => [EmptyString]
  | String c r =>
      if Ascii.eqb c sep then EmptyString :: split sep r
      else match split sep r with
           | h :: t => String c h :: t
           | [] => [String c EmptyString]
           end
  end.

(** [sep.join(l)]. *)
Fixpoint join (sep : string) (l : list string) : string :=
  match l with
  | [] => EmptyString
  | [x] => x
  | x :: r => x ++ sep ++ join sep r
  end.

End PyStr.

(** ** Python scalars *)

Inductive pyfloat :=
| FNaN
| FInf (negative : bool)
| FFin (q : Q).

Inductive pyval :=
| PNone
| PBool (b : bool)
| PInt (z : Z)
| PFloat (f : pyfloat)
| PStr (s : string).

(** What [str(x)] prints for a finite float (the shortest decimal that
    reads back as [x]) is the interpreter's business. *)
Class FloatRepr := repr_finite : Q -> string.

Inductive exn_class :=
  ValueError | TypeError | AttributeError | OverflowError | KeyError | SystemExit.

(** An exception: its class and its message.  The messages of the
    exceptions raised by built-ins are the interpreter's, without the
    operand they quote. *)
Record exn := Exn { exn_cls : exn_class; exn_msg : string }.

Inductive outcome (A : Type) :=
| Ok (a : A)
| Raise (e : exn)
| OutOfFuel.
Arguments Ok {A} a.
Arguments Raise {A} e.
Arguments OutOfFuel {A}.

Global Instance outcome_bind : MBind outcome := fun A B k m =>
  match m with
  | Ok a => k a
  | Raise e => Raise e
  | OutOfFuel => OutOfFuel
  end.

(** A computation of the scripts: the lines it appends to
    [logs/debug.log], then how it ends.  Once an exception is raised
    nothing more is run. *)
Record logged (A : Type) := Logged { log_of : list string; result_of : outcome A }.
Arguments Logged {A} log_of result_of.
Arguments log_of {A} l.
Arguments result_of {A} l.

Global Instance logged_ret : MRet logged := fun A a => Logged [] (Ok a).

Global Instance logged_bind : MBind logged := fun A B k m =>
  match result_of m with
  | Ok a => Logged (log_of m ++ log_of (k a)) (result_of (k a))
  | Raise e => Logged (log_of m) (Raise e)
  | OutOfFuel => Logged (log_of m) OutOfFuel
  end.

Definition lift {A} (o : outcome A) : logged A := Logged [] o.

Definition tell (line : string) : logged unit := Logged [line] (Ok tt).

(** [[f(x) for x in l]]: left to right, the first exception ends it. *)
Fixpoint map_logged {A B} (f : A -> logged B) (l : list A) : logged (list B) :=
  match l with
  | [] => mret []
  | x :: r => y ← f x; ys ← map_logged f r; mret (y :: ys)
  end.

Module Py.
Import PyStr.

(** [pd.isna(v)] on a scalar. *)
Definition isna (v : pyval) : bool :=
  match v with
  | PNone | PFloat FNaN => true
  | _ => false
  end.

Definition notna (v : pyval) : bool := negb (isna v).

(** The number a numeric scalar stands for; [bool] is a subclass of
    [int]. *)
Definition num_of (v : pyval) : option pyfloat :=
  match v with
  | PBool b => Some (FFin (inject_Z (if b then 1 else 0)))
  | PInt z => Some (FFin (inject_Z z))
  | PFloat f => Some f
  | PNone | PStr _ => None
  end.

Definition float_eqb (f g : pyfloat) : bool :=
  match f, g with
  | FFin p, FFin q => Qeq_bool p q
  | FInf a, FInf b => Bool.eqb a b
  | _, _ => false
  end.

(** [v == w]: numbers by value (NaN equals nothing), strings by
    content, and a number never equals a string or [None]. *)
Definition eqb (v w : pyval) : bool :=
  match num_of v, num_of w with
  | Some f, Some g => float_eqb f g
  | None, None =>
      match v, w with
      | PNone, PNone => true
      | PStr s, PStr t => String.eqb s t
      | _, _ => false
      end
  | _, _ => false
  end.

(** [isinstance(v, str)] and [isinstance(v, (int, float))]. *)
Definition is_str (v : pyval) : bool :=
  match v with PStr _ => true | _ => false end.

Definition is_number (v : pyval) : bool :=
  match v with PBool _ | PInt _ | PFloat _ => true | _ => false end.

(** Truth value of a list: [if l:]. *)
Definition truthy_list {A} (l : list A) : bool :=
  match l with [] => false | _ => true end.

(** *** [int(v)] *)

(** The blanks [int] skips around a literal: the C ones, and the
    non-ASCII spaces, which it first turns into blanks. *)
Definition is_int_blank (c : ascii) : bool :=
  let n := code c in
  ((9 <=? n) && (n <=? 13) || (n =? 32) || (n =? 133) || (n =? 160))%N.

Definition digit_value (c : ascii) : Z := Z.of_N (code c) - 48.

(** Digits, with single underscores between them. *)
Fixpoint parse_digits (acc : Z) (after_underscore : bool) (s : string)
  : option Z :=
  match s with
  | EmptyString => if after_underscore then None else Some acc
  | String c r =>
      if is_digit c then parse_digits (10 * acc + digit_value c) false r
      else if Ascii.eqb c "_" then
        if after_underscore then None else parse_digits acc true r
      else None
  end.

Definition parse_unsigned (s : string) : option Z :=
  match s with
  | String c _ => if is_digit c then parse_digits 0 false s else None
  | EmptyString => None
  end.

Definition parse_int (s : string) : option Z :=
  match strip_with is_int_blank s with
  | String "-" r => Z.opp <$> parse_unsigned r
  | String "+" r => parse_unsigned r
  | t => parse_unsigned t
  end.

(** Rounding towards zero. *)
Definition trunc (q : Q) : Z := Z.quot (Qnum q) (Zpos (Qden q)).

Definition int (v : pyval) : outcome Z :=
  match v with
  | PBool b => Ok (if b then 1 else 0)
  | PInt z => Ok z
  | PFloat FNaN =>
      Raise (Exn ValueError "cannot convert float NaN to integer")
  | PFloat (FInf _) =>
      Raise (Exn OverflowError "cannot convert float infinity to integer")
  | PFloat (FFin q) => Ok (trunc q)
  | PStr s =>
      match parse_int s with
      | Some z => Ok z
      | None => Raise (Exn ValueError "invalid literal for int() with base 10")
      end
  | PNone =>
      Raise (Exn TypeError
        "int() argument must be a string, a bytes-like object or a real number, not 'NoneType'")
  end.

(** *** [str(v)] *)

Definition str_float `{FloatRepr} (f : pyfloat) : string :=
  match f with
  | FNaN => "nan"
  | FInf false => "inf"
  | FInf true => "-inf"
  | FFin q => repr_finite q
  end.

Definition str `{FloatRepr} (v : pyval) : string :=
  match v with
  | PNone => "None"
  | PBool true => "True"
  | PBool false => "False"
  | PInt z => pretty z
  | PFloat f => str_float f
  | PStr s => s
  end.

(** The name of the type in an [AttributeError]. *)
Definition type_name (v : pyval) : string :=
  match v with
  | PNone => "NoneType"
  | PBool _ => "bool"
  | PInt _ => "int"
  | PFloat _ => "float"
  | PStr _ => "str"
  end.

End Py.

(** ** Rows and documents *)

(** A row of a sheet: column name to cell. *)
Abbreviation row := (gmap string pyval).

(** [r.get(key, default)]. *)
Definition get (r : row) (key : string) (dflt : pyval) : pyval :=
  default dflt (r !! key).

(** What the scripts build and hand to [json.dump]: scalars, lists, and
    dicts in insertion order. *)
Inductive pyobj :=
| Scalar (v : pyval)
| PyList (l : list pyobj)
| PyDict (d : list (string * pyobj)).

Definition dict := list (string * pyobj).

(** [d[key]], when the key is there. *)
Fixpoint dict_get (d : dict) (key : string) : option pyobj :=
  match d with
  | [] => None
  | (k, v) :: r => if String.eqb k key then Some v else dict_get r key
  end.

(** [d[key] = v]: a key already there keeps its place. *)
Fixpoint dict_set (d : dict) (key : string) (v : pyobj) : dict :=
  match d with
  | [] => [(key, v)]
  | (k, w) :: r =>
      if String.eqb k key then (k, v) :: r else (k, w) :: dict_set r key v
  end.

(** [d.update(other)]: the items of [other], one after the other. *)
Definition dict_update (d other : dict) : dict :=
  fold_left (fun d item => dict_set d item.1 item.2) other d.

Definition str_list (l : list string) : pyobj :=
  PyList (map (fun s => Scalar (PStr s)) l).

Definition nl : string := String "010"%char EmptyString.

(** The double quote, and a text between double quotes. *)
Definition quote : string := String "034"%char EmptyString.

Definition quoted (s : string) : string := quote ++ s ++ quote.

(** ** Code shared by the two policy makers

    [convert_to_bool] and [validate_category] have the same text in
    [policymaker.py] and in [optum_policy_maker.py]. *)

Definition convert_to_bool (value : pyval) : bool :=
  match value with
  | PBool b => b
  | PStr s => String.eqb (PyStr.upper s) "TRUE"
  | PInt _ | PFloat _ =>
      Py.eqb value (PInt 1) || Py.eqb value (PFloat (FFin 1))
  | PNone => false
  end.

Definition valid_categories : list (string * string) :=
  [("application", "Application");
   ("infrastructure", "Infrastructure");
   ("environment", "Environment")].

Fixpoint assoc (l : list (string * string)) (key : string) : option string :=
  match l with
  | [] => None
  | (k, v) :: r => if String.eqb k key then Some v else assoc r key
  end.

Definition category_error (category : string) : exn :=
  Exn ValueError
    ("Category must be one of: " ++ PyStr.join ", " (map snd valid_categories)
     ++ ". Got: " ++ category).

Definition validate_category (category : pyval) : outcome string :=
  match category with
  | PStr c =>
      let category_lower := PyStr.lower c in
      match assoc valid_categories category_lower with
      | None => Raise (category_error c)
      | Some proper => Ok proper
      end
  | _ =>
      Raise (Exn AttributeError
        ("'" ++ Py.type_name category ++ "' object has no attribute 'lower'"))
  end.

(** The console: the lines typed that are still to be read, and what
    has been written to the screen, piece by piece. *)
Record console := Console { typed : list string; printed : list string }.

Definition overwrite_prompt (filepath : string) : string :=
  "The file '" ++ filepath
  ++ "' already exists. Do you want to overwrite it? (yes/no): ".

(** The [while True] loop of [check_and_confirm_overwrite].  Each round
    [input] writes the prompt and reads one line, so the loop runs on
    the lines typed; when none is left [input] raises [EOFError], which
    is [None] here. *)
Fixpoint confirm_loop (filepath : string) (lines shown : list string)
  : option bool * console :=
  match lines with
  | [] => (None, Console [] (shown ++ [overwrite_prompt filepath])%list)
  | line :: rest =>
      let shown := (shown ++ [overwrite_prompt filepath])%list in
      let response := PyStr.lower (PyStr.strip line) in
      if existsb (String.eqb response) ["yes"; "y"; ""] then
        (Some true, Console rest shown)
      else if existsb (String.eqb response) ["no"; "n"] then
        (Some false, Console rest shown)
      else
        confirm_loop filepath rest
          (shown ++ [("Please answer 'yes' or 'no'" ++ nl)%string])%list
  end.

(** [file_exists] is what [os.path.exists(filepath)] answers. *)
Definition check_and_confirm_overwrite (file_exists : bool) (filepath : string)
    (c : console) : option bool * console :=
  if file_exists then confirm_loop filepath (typed c) (printed c)
  else (Some true, c).

(** ** policymaker.py *)

Module Policymaker.

Definition construct_variable_reference
    (type_str name : string) (category : option string) : string :=
  if String.eqb type_str "service" then
    if PyStr.startswith "SVCG_" name then
      "${var.services_path." ++ name ++ "}"
    else if PyStr.endswith "_path" name then
      "${var.default_services_path." ++ name ++ "}"
    else name
  else
    match category with
    | Some c =>
        if String.eqb c "" then name
        else if String.eqb c "Infrastructure" then
          "${var.infra_groups_path." ++ name ++ "_path}"
        else if String.eqb c "Environment" then
          "${var.env_groups_path." ++ name ++ "_path}"
        else if String.eqb c "Application" then
          "${var.app_groups_path." ++ name ++ "_path}"
        else name
    | None => name
    end.

Section Rules.
Context `{FloatRepr}.

(** The helper local to [create_rule]; [category] is the one of the
    enclosing call. *)
Definition process_groups (category : string) (value : pyval) : list string :=
  if Py.isna value || Py.eqb value (PStr "") || Py.eqb value (PStr "any")
     || negb (Py.is_str value)
  then []
  else
    match value with
    | PStr s =>
        map (fun group =>
               construct_variable_reference "group" (PyStr.strip group)
                 (Some category))
            (PyStr.split "," s)
    | _ => []
    end.

Definition create_rule (rule_row : row) (category : string) : logged dict :=
  _ ← tell (nl ++ "Processing rule: "
             ++ Py.str (get rule_row "display_name" PNone) ++ nl);
  sequence_number ← lift (Py.int (get rule_row "sequence_number" (PInt 0)));
  let rule : dict :=
    [("action", Scalar (get rule_row "action" (PStr "ALLOW")));
     ("description", Scalar (PStr ""));
     ("destination_groups", PyList []);
     ("destinations_excluded",
       Scalar (PBool (convert_to_bool
         (get rule_row "destinations_excluded (Negate)" (PBool false)))));
     ("direction", Scalar (get rule_row "direction" (PStr "IN_OUT")));
     ("disabled",
       Scalar (PBool (convert_to_bool
         (get rule_row "Rule Disabled" (PBool false)))));
     ("display_name",
       Scalar (PStr (Py.str (get rule_row "display_name" (PStr "")))));
     ("ip_version", Scalar (get rule_row "ip_version" (PStr "IPV4_IPV6")));
     ("log_label", Scalar (PStr ""));
     ("logged",
       Scalar (PBool (convert_to_bool (get rule_row "logged" (PBool false)))));
     ("notes", Scalar (PStr ""));
     ("sequence_number", Scalar (PInt sequence_number));
     ("services", PyList []);
     ("source_groups", PyList []);
     ("sources_excluded",
       Scalar (PBool (convert_to_bool
         (get rule_row "sources_excluded (Negate)" (PBool false)))));
     ("scope", PyList [])] in
  let rule := dict_set rule "destination_groups"
    (str_list (process_groups category (get rule_row "destination_groups" PNone))) in
  let services := get rule_row "services" PNone in
  let rule :=
    if Py.notna services && Py.is_str services
       && negb (Py.eqb services (PStr ""))
       && negb (Py.eqb services (PStr "any"))
    then
      match services with
      | PStr services =>
          let services_list := PyStr.split "," services in
          dict_set rule "services"
            (str_list (map (fun service =>
               construct_variable_reference "service"
                 (PyStr.strip service) None)
               services_list))
      | _ => rule
      end
    else rule in
  let rule := dict_set rule "source_groups"
    (str_list (process_groups category (get rule_row "source_groups" PNone))) in
  let scope := get rule_row "scope (Applied To)" PNone in
  let rule :=
    if Py.notna scope && Py.is_str scope
       && negb (Py.eqb scope (PStr ""))
       && negb (Py.eqb scope (PStr "any"))
    then
      match scope with
      | PStr scope =>
          let scope_groups := PyStr.split "," scope in
          dict_set rule "scope"
            (str_list (map (fun group =>
               construct_variable_reference "group"
                 (PyStr.strip group) (Some category))
               scope_groups))
      | _ => rule
      end
    else rule in
  mret rule.

Definition blank_if_na (v : pyval) : pyval :=
  if Py.isna v then PStr "" else v.

Definition create_policy (policy_row : row) (rules : list row) : logged pyobj :=
  let policy_name :=
    get policy_row "Terraform Policy File"
      (get policy_row "Application" (PStr "default-policy")) in
  let raw_category := get policy_row "category" (PStr "Infrastructure") in
  validated_category ← lift (validate_category raw_category);
  rules_with_category ←
    map_logged (fun rule_row => create_rule rule_row validated_category) rules;
  let sequence_number := get policy_row "sequence_number" (PInt 0) in
  let sequence_number :=
    if Py.eqb sequence_number (PInt 0) then PStr "" else sequence_number in
  mret (PyDict
    [("resource", PyList [PyDict
       [("nsxt_policy_security_policy", PyDict
          [(Py.str policy_name, PyDict
             [("nsx_id", Scalar (PStr ""));
              ("display_name", Scalar policy_name);
              ("category", Scalar (PStr validated_category));
              ("comments", Scalar (blank_if_na (get policy_row "comments" PNone)));
              ("description",
                Scalar (blank_if_na (get policy_row "description" PNone)));
              ("domain", Scalar (get policy_row "domain" (PStr "default")));
              ("locked",
                Scalar (PBool (convert_to_bool
                  (get policy_row "locked" (PBool false)))));
              ("sequence_number", Scalar sequence_number);
              ("rule", PyList (map PyDict rules_with_category))])])]])]).

End Rules.

End Policymaker.

(** ** optum_policy_maker.py *)

Module Optum.

Definition construct_variable_reference
    (type_str name : string) (category : option string) : string :=
  if String.eqb type_str "service" then
    if PyStr.startswith "SVCG_" name then
      "${var.services_path." ++ name ++ "}"
    else if PyStr.endswith "_path" name then
      "${var.services_base_path}/" ++ name
    else "${var.services_base_path}/" ++ name
  else
    match category with
    | Some c =>
        if String.eqb c "" then "${var.groups_base_path}/" ++ name
        else if String.eqb c "Infrastructure" then
          "${var.infra_groups_path." ++ name ++ "_path}"
        else if String.eqb c "Environment" then
          "${var.env_groups_path." ++ name ++ "_path}"
        else if String.eqb c "Application" then
          "${var.groups_base_path}/" ++ name
        else "${var.groups_base_path}/" ++ name
    | None => "${var.groups_base_path}/" ++ name
    end.

(** [while str(n) in existing_sequences: n += 1], on fuel. *)
Fixpoint first_unused (fuel : nat) (existing_sequences : gset string) (n : Z)
  : outcome Z :=
  match fuel with
  | O => OutOfFuel
  | S fuel' =>
      if decide (pretty n ∈ existing_sequences)
      then first_unused fuel' existing_sequences (n + 1)
      else Ok n
  end.

(** One more round than the set has elements is always enough. *)
Definition next_unused (existing_sequences : gset string) (n : Z) : outcome Z :=
  first_unused (S (size existing_sequences)) existing_sequences n.

Section Rules.
Context `{FloatRepr}.

Definition process_groups (category : string) (value : pyval) : list string :=
  if Py.isna value || Py.eqb value (PStr "") || Py.eqb value (PStr "any")
     || negb (Py.is_str value)
  then []
  else
    match value with
    | PStr s =>
        map (fun group =>
               construct_variable_reference "group" (PyStr.strip group)
                 (Some category))
            (PyStr.split "," s)
    | _ => []
    end.

Definition create_rule (rule_row : row) (category : string) : logged dict :=
  _ ← tell (nl ++ "Processing rule: "
             ++ Py.str (get rule_row "rule_display_name" PNone) ++ nl);
  sequence_number ← lift (Py.int (get rule_row "sequence_number" (PInt 0)));
  let rule : dict :=
    [("display_name",
       Scalar (PStr (Py.str (get rule_row "rule_display_name" (PStr "")))));
     ("action", Scalar (get rule_row "action" (PStr "ALLOW")));
     ("sequence_number", Scalar (PInt sequence_number));
     ("description", Scalar (PStr ""));
     ("source_groups", PyList []);
     ("sources_excluded",
       Scalar (PBool (convert_to_bool
         (get rule_row "sources_excluded (Negate)" (PBool false)))));
     ("destination_groups", PyList []);
     ("destinations_excluded",
       Scalar (PBool (convert_to_bool
         (get rule_row "destinations_excluded (Negate)" (PBool false)))));
     ("services", PyList []);
     ("scope", PyList []);
     ("disabled",
       Scalar (PBool (convert_to_bool
         (get rule_row "Rule Disabled" (PBool false)))));
     ("logged",
       Scalar (PBool (convert_to_bool (get rule_row "logged" (PBool false)))));
     ("direction", Scalar (get rule_row "direction" (PStr "IN_OUT")));
     ("ip_version", Scalar (get rule_row "ip_version" (PStr "IPV4_IPV6")));
     ("log_label", Scalar (PStr ""));
     ("notes", Scalar (PStr ""))] in
  let rule := dict_set rule "destination_groups"
    (str_list (process_groups category (get rule_row "destination_groups" PNone))) in
  let services := get rule_row "services" PNone in
  let rule :=
    if Py.notna services && Py.is_str services
       && negb (Py.eqb services (PStr ""))
       && negb (Py.eqb services (PStr "any"))
    then
      match services with
      | PStr services =>
          let services_list := PyStr.split "," services in
          dict_set rule "services"
            (str_list (map (fun service =>
               construct_variable_reference "service"
                 (PyStr.strip service) None)
               services_list))
      | _ => rule
      end
    else rule in
  let rule := dict_set rule "source_groups"
    (str_list (process_groups category (get rule_row "source_groups" PNone))) in
  let scope := get rule_row "scope (Applied To)" PNone in
  let rule :=
    if Py.notna scope && Py.is_str scope
       && negb (Py.eqb scope (PStr ""))
       && negb (Py.eqb scope (PStr "any"))
    then
      match scope with
      | PStr scope =>
          let scope_groups := PyStr.split "," scope in
          dict_set rule "scope"
            (str_list (map (fun group =>
               construct_variable_reference "group"
                 (PyStr.strip group) (Some category))
               scope_groups))
      | _ => rule
      end
    else rule in
  mret rule.

Definition str_unless_na (v : pyval) : string :=
  if Py.isna v then "" else Py.str v.

(** The set is changed in place: the result carries it as it is left. *)
Definition create_policy (policy_row : row) (rules : list row)
    (existing_sequences : option (gset string))
  : logged (pyobj * gset string) :=
  let existing_sequences := default ∅ existing_sequences in
  let policy_name :=
    get policy_row "policy_display_name"
      (get policy_row "Application" (PStr "default-policy")) in
  let raw_category := get policy_row "category" (PStr "Infrastructure") in
  validated_category ← lift (validate_category raw_category);
  let sequence_number := get policy_row "sequence_number" (PInt 0) in
  '(sequence_number, existing_sequences) ←
    (if Py.is_number sequence_number then
       n ← lift (Py.int sequence_number);
       n ← lift (next_unused existing_sequences n);
       mret (PInt n, {[ Py.str (PInt n) ]} ∪ existing_sequences)
     else mret (sequence_number, existing_sequences));
  rules_with_category ←
    map_logged (fun rule_row => create_rule rule_row validated_category) rules;
  mret (PyDict
    [("nsxt_policy_security_policy", PyDict
       [(Py.str policy_name, PyDict
          [("nsx_id", Scalar (PStr ""));
           ("display_name", Scalar policy_name);
           ("category", Scalar (PStr validated_category));
           ("comments",
             Scalar (PStr (str_unless_na (get policy_row "comments" PNone))));
           ("description",
             Scalar (PStr (str_unless_na (get policy_row "description" PNone))));
           ("domain", Scalar (get policy_row "domain" (PStr "default")));
           ("locked",
             Scalar (PBool (convert_to_bool
               (get policy_row "locked" (PBool false)))));
           ("sequence_number", Scalar (PStr (Py.str sequence_number)));
           ("rule", PyList (map PyDict rules_with_category))])])],
    existing_sequences).

Definition create_single_policy (policy_row : row) (rules : list row)
    (existing_sequences : option (gset string))
  : logged (pyobj * gset string) :=
  create_policy policy_row rules existing_sequences.

(** The loop of [main] over the sheets, from the set as it stands:
    the policies in the order of the sheets, and the set at the end. *)
Fixpoint main_loop (policy_rules_pairs : list (row * list row))
    (existing_sequences : gset string)
  : logged (list pyobj * gset string) :=
  match policy_rules_pairs with
  | [] => mret ([], existing_sequences)
  | (policy_row, rules) :: rest =>
      '(policy, existing_sequences) ←
        create_single_policy policy_row rules (Some existing_sequences);
      '(policies, existing_sequences) ← main_loop rest existing_sequences;
      mret (policy :: policies, existing_sequences)
  end.

(** [main], from the sheets read to the policies it writes, one file
    each.  The name of the output directory is cut out of the first
    policy's name before the loop starts from
    [existing_sequences = set()]. *)
Definition main (policy_rules_pairs : list (row * list row))
  : logged (list pyobj) :=
  match policy_rules_pairs with
  | [] => lift (Raise (Exn SystemExit "1"))
  | (first_row, _) :: _ =>
      match get first_row "policy_display_name" (PStr "default-application") with
      | PStr _ =>
          '(policies, _) ← main_loop policy_rules_pairs ∅;
          mret policies
      | v =>
          lift (Raise (Exn AttributeError
            ("'" ++ Py.type_name v ++ "' object has no attribute 'split'")))
      end
  end.

(** The loop of [create_combined_policies], from the policies gathered
    so far under [result["resource"][0]["nsxt_policy_security_policy"]].
    [create_policy] is called without a set, so with a new one each
    time, which is dropped.  What it returns always has the key that is
    looked up, with a dict under it: the other cases of the subscript
    and of [update] are there for the types only. *)
Fixpoint combined_loop (policy_rules_pairs : list (row * list row))
    (policies : dict) : logged dict :=
  match policy_rules_pairs with
  | [] => mret policies
  | (policy_row, rules) :: rest =>
      '(policy, _) ← create_policy policy_row rules None;
      match policy with
      | PyDict d =>
          match dict_get d "nsxt_policy_security_policy" with
          | Some (PyDict policy_content) =>
              combined_loop rest (dict_update policies policy_content)
          | Some _ =>
              lift (Raise (Exn TypeError "'dict' object is required"))
          | None =>
              lift (Raise (Exn KeyError "nsxt_policy_security_policy"))
          end
      | _ => lift (Raise (Exn TypeError "object is not subscriptable"))
      end
  end.

Definition create_combined_policies (policy_rules_pairs : list (row * list row))
  : logged pyobj :=
  policies ← combined_loop policy_rules_pairs [];
  mret (PyDict
    [("resource", PyList [PyDict
       [("nsxt_policy_security_policy", PyDict policies)]])]).

(** [formatted_policy], the document [write_policy_to_file] hands to
    [json.dump]; the subscript raises [KeyError] on a dict without the
    key. *)
Definition formatted_policy (policy : pyobj) : outcome pyobj :=
  match policy with
  | PyDict d =>
      match dict_get d "nsxt_policy_security_policy" with
      | Some policy_content =>
          Ok (PyDict
            [("resource", PyList [PyDict
               [("nsxt_policy_security_policy", policy_content)]])])
      | None => Raise (Exn KeyError "nsxt_policy_security_policy")
      end
  | _ => Raise (Exn TypeError "object is not subscriptable")
  end.

End Rules.

End Optum.

(** ** ipset_maker.py *)

Module Ipset.

(** [row[key]]: a [KeyError] when the sheet has no such column. *)
Definition getitem (r : row) (key : string) : outcome pyval :=
  match r !! key with
  | Some v => Ok v
  | None => Raise (Exn KeyError key)
  end.

Definition clean_ip_addresses (csv_str : pyval) : outcome (list string) :=
  if Py.isna csv_str then Ok []
  else
    match csv_str with
    | PStr s =>
        let ips := map PyStr.strip (PyStr.split "," s) in
        Ok (filter (fun ip => ip ≠ "") ips)
    | v =>
        Raise (Exn AttributeError
          ("'" ++ Py.type_name v ++ "' object has no attribute 'split'"))
    end.

(** [groups_data]: a dict keyed by cells, in insertion order. *)
Definition groups := list (pyval * list string).

(** [groups_data[key] = v]; keys are compared with [==]. *)
Fixpoint groups_set (d : groups) (key : pyval) (v : list string) : groups :=
  match d with
  | [] => [(key, v)]
  | (k, w) :: r =>
      if Py.eqb k key then (k, v) :: r else (k, w) :: groups_set r key v
  end.

(** The character class [a-zA-Z0-9_-]. *)
Definition in_class (c : ascii) : bool :=
  PyStr.is_ascii_lower c || PyStr.is_ascii_upper c || PyStr.is_digit c
  || Ascii.eqb c "_" || Ascii.eqb c "-".

(** [re.sub(r'[^a-zA-Z0-9_-]', '_', s)]: every match is one character. *)
Fixpoint re_sub_outside_class (repl : string) (s : string) : string :=
  match s with
  | EmptyString => EmptyString
  | String c r =>
      if in_class c then String c (re_sub_outside_class repl r)
      else repl ++ re_sub_outside_class repl r
  end.

Definition hex_digit (n : N) : ascii :=
  if (n <? 10)%N then ascii_of_N (48 + n) else ascii_of_N (87 + n).

(** [json.dumps] of one character of a string, [ensure_ascii] on. *)
Definition json_escape_char (c : ascii) : string :=
  let n := PyStr.code c in
  if Ascii.eqb c "034" then "\" ++ quote
  else if Ascii.eqb c "\" then "\\"
  else if (n =? 10)%N then "\n"
  else if (n =? 13)%N then "\r"
  else if (n =? 9)%N then "\t"
  else if (n =? 12)%N then "\f"
  else if (n =? 8)%N then "\b"
  else if ((32 <=? n) && (n <=? 126))%N then String c EmptyString
  else "\u00" ++ String (hex_digit (n / 16)) (String (hex_digit (n mod 16)) EmptyString).

Fixpoint json_escape (s : string) : string :=
  match s with
  | EmptyString => EmptyString
  | String c r => json_escape_char c ++ json_escape r
  end.

Definition json_dumps_str (s : string) : string :=
  quote ++ json_escape s ++ quote.

(** [json.dumps] of a list of strings, with the default separators. *)
Definition json_dumps (l : list string) : string :=
  "[" ++ PyStr.join ", " (map json_dumps_str l) ++ "]".

Definition sanitize_name (group_name : pyval) : outcome string :=
  match group_name with
  | PStr s => Ok (re_sub_outside_class "_" s)
  | v =>
      Raise (Exn TypeError
        ("expected string or bytes-like object, got '" ++ Py.type_name v ++ "'"))
  end.

Section Emit.
Context `{FloatRepr}.

(** The [for] loop of [generate_hcl_locals], appending to
    [locals_block]. *)
Fixpoint locals_entries (items : groups) (locals_block : list string)
  : outcome (list string) :=
  match items with
  | [] => Ok locals_block
  | (group_name, ip_addresses) :: rest =>
      clean_name ← sanitize_name group_name;
      let ip_list := json_dumps ip_addresses in
      locals_entries rest
        (locals_block ++
         ["    " ++ clean_name ++ " = {";
          "      name = " ++ quote ++ Py.str group_name ++ quote;
          "      addresses = " ++ ip_list;
          "    }"])
  end.

Definition generate_hcl_locals (groups_data : groups) : outcome string :=
  locals_block ← locals_entries groups_data ["locals {"; "  ip_sets = {"];
  Ok (PyStr.join nl (locals_block ++ ["  }"; "}"; ""])).

Definition generate_hcl_resource : string :=
  PyStr.join nl
    ["resource " ++ quoted "nsxt_policy_group" ++ " " ++ quoted "ip_sets" ++ " {";
     "  for_each = local.ip_sets";
     "";
     "  display_name = each.value.name";
     "  description  = " ++ quoted "IP Set for ${each.value.name}";
     "  nsx_id       = each.value.name";
     "";
     "  criteria {";
     "    ipaddress_expression {";
     "      ip_addresses = each.value.addresses";
     "    }";
     "  }";
     "}";
     ""].

(** The loop of [convert_xlsx_to_hcl] over the rows of the sheet. *)
Fixpoint collect_groups (rows : list row) (groups_data : groups)
  : outcome groups :=
  match rows with
  | [] => Ok groups_data
  | r :: rest =>
      group_name ← getitem r "group_name";
      if Py.isna group_name then collect_groups rest groups_data
      else
        csv ← getitem r "csv";
        ip_addresses ← clean_ip_addresses csv;
        if Py.truthy_list ip_addresses
        then collect_groups rest (groups_set groups_data group_name ip_addresses)
        else collect_groups rest groups_data
  end.

(** What [convert_xlsx_to_hcl] writes to the output file; any
    exception on the way ends the program with status 1. *)
Definition convert_xlsx_to_hcl (rows : list row) : outcome string :=
  match
    groups_data ← collect_groups rows [];
    locals ← generate_hcl_locals groups_data;
    Ok (locals ++ generate_hcl_resource)
  with
  | Ok text => Ok text
  | Raise _ => Raise (Exn SystemExit "1")
  | OutOfFuel => OutOfFuel
  end.

End Emit.

End Ipset.

(** * Readings of the claims

    What the claims speak of, written out: the definitions the theorems
    compare the scripts with, and the way into the documents they
    build. *)

(** ** Running the functions *)

(** A printer of finite floats to run the functions with: the fraction
    as it stands is good enough where no float is printed. *)
Definition fraction_repr : FloatRepr :=
  fun q => pretty (Qnum q) ++ "/" ++ pretty (Zpos (Qden q)).

(** ** Strings, whatever the case *)

(** Two characters that are the same letter, whatever the case. *)
Definition same_letter (a b : ascii) : bool :=
  Ascii.eqb (PyStr.lower_char a) (PyStr.lower_char b).

(** Equality of strings, case-insensitively. *)
Fixpoint equal_ignoring_case (s t : string) : bool :=
  match s, t with
  | EmptyString, EmptyString => true
  | String a s', String b t' => same_letter a b && equal_ignoring_case s' t'
  | _, _ => false
  end.

(** ** What a built-in may raise *)

(** The exceptions [int] may raise. *)
Definition int_errors : list exn :=
  [Exn ValueError "cannot convert float NaN to integer";
   Exn OverflowError "cannot convert float infinity to integer";
   Exn ValueError "invalid literal for int() with base 10";
   Exn TypeError
     "int() argument must be a string, a bytes-like object or a real number, not 'NoneType'"].

(** ** The fields of a rule *)

(** The list of a group field: one reference per comma-separated
    element, empty ones included. *)
Definition group_refs (resolve : string -> string -> option string -> string)
    (category : string) (v : pyval) : list string :=
  match v with
  | PStr s =>
      if String.eqb s "" || String.eqb s "any" then []
      else map (fun g => resolve "group" (PyStr.strip g) (Some category))
               (PyStr.split "," s)
  | _ => []
  end.

Definition service_refs (resolve : string -> string -> option string -> string)
    (v : pyval) : list string :=
  match v with
  | PStr s =>
      if String.eqb s "" || String.eqb s "any" then []
      else map (fun g => resolve "service" (PyStr.strip g) None)
               (PyStr.split "," s)
  | _ => []
  end.

(** The claim's reading: the elements that are empty once trimmed are
    dropped before the resolver is applied. *)
Definition spec_group_refs (resolve : string -> string -> option string -> string)
    (category : string) (v : pyval) : list string :=
  match v with
  | PStr s =>
      if String.eqb s "" || String.eqb s "any" then []
      else map (fun g => resolve "group" g (Some category))
               (filter (fun g => g ≠ "") (map PyStr.strip (PyStr.split "," s)))
  | _ => []
  end.

Fixpoint count_char (c : ascii) (s : string) : nat :=
  match s with
  | EmptyString => O
  | String a r => (if Ascii.eqb a c then 1 else 0) + count_char c r
  end.

(** The group fields of a rule, with the columns they are read from. *)
Definition group_fields : list (string * string) :=
  [("source_groups", "source_groups");
   ("destination_groups", "destination_groups");
   ("scope", "scope (Applied To)")].

(** The boolean fields of a rule, with the columns they are read from. *)
Definition rule_flags : list (string * string) :=
  [("disabled", "Rule Disabled");
   ("logged", "logged");
   ("sources_excluded", "sources_excluded (Negate)");
   ("destinations_excluded", "destinations_excluded (Negate)")].

(** The claim's reading of the coercion: a boolean as it is, a string
    when it is [TRUE] whatever the case, a number when it is one, and
    nothing else. *)
Definition spec_bool (v : pyval) : bool :=
  match v with
  | PBool b => b
  | PStr s => equal_ignoring_case s "TRUE"
  | PInt z => z =? 1
  | PFloat (FFin q) => Qeq_bool q 1
  | PFloat _ | PNone => false
  end.

(** A reference into a namespace of variables, by key. *)
Definition keyed_reference (namespace key : string) : string :=
  "${var." ++ namespace ++ "." ++ key ++ "}".

Section Readings.
Context `{FloatRepr}.

Definition flag (rule_row : row) (column : string) : pyobj :=
  Scalar (PBool (convert_to_bool (get rule_row column (PBool false)))).

(** The rule [policymaker.py] returns once [int] has accepted the
    sequence number. *)
Definition policymaker_rule (rule_row : row) (category : string) (n : Z) : dict :=
  let resolve := Policymaker.construct_variable_reference in
  [("action", Scalar (get rule_row "action" (PStr "ALLOW")));
   ("description", Scalar (PStr ""));
   ("destination_groups",
     str_list (group_refs resolve category (get rule_row "destination_groups" PNone)));
   ("destinations_excluded", flag rule_row "destinations_excluded (Negate)");
   ("direction", Scalar (get rule_row "direction" (PStr "IN_OUT")));
   ("disabled", flag rule_row "Rule Disabled");
   ("display_name", Scalar (PStr (Py.str (get rule_row "display_name" (PStr "")))));
   ("ip_version", Scalar (get rule_row "ip_version" (PStr "IPV4_IPV6")));
   ("log_label", Scalar (PStr ""));
   ("logged", flag rule_row "logged");
   ("notes", Scalar (PStr ""));
   ("sequence_number", Scalar (PInt n));
   ("services", str_list (service_refs resolve (get rule_row "services" PNone)));
   ("source_groups",
     str_list (group_refs resolve category (get rule_row "source_groups" PNone)));
   ("sources_excluded", flag rule_row "sources_excluded (Negate)");
   ("scope",
     str_list (group_refs resolve category (get rule_row "scope (Applied To)" PNone)))].

(** The same for [optum_policy_maker.py]. *)
Definition optum_rule (rule_row : row) (category : string) (n : Z) : dict :=
  let resolve := Optum.construct_variable_reference in
  [("display_name",
     Scalar (PStr (Py.str (get rule_row "rule_display_name" (PStr "")))));
   ("action", Scalar (get rule_row "action" (PStr "ALLOW")));
   ("sequence_number", Scalar (PInt n));
   ("description", Scalar (PStr ""));
   ("source_groups",
     str_list (group_refs resolve category (get rule_row "source_groups" PNone)));
   ("sources_excluded", flag rule_row "sources_excluded (Negate)");
   ("destination_groups",
     str_list (group_refs resolve category (get rule_row "destination_groups" PNone)));
   ("destinations_excluded", flag rule_row "destinations_excluded (Negate)");
   ("services", str_list (service_refs resolve (get rule_row "services" PNone)));
   ("scope",
     str_list (group_refs resolve category (get rule_row "scope (Applied To)" PNone)));
   ("disabled", flag rule_row "Rule Disabled");
   ("logged", flag rule_row "logged");
   ("direction", Scalar (get rule_row "direction" (PStr "IN_OUT")));
   ("ip_version", Scalar (get rule_row "ip_version" (PStr "IPV4_IPV6")));
   ("log_label", Scalar (PStr ""));
   ("notes", Scalar (PStr ""))].

Definition rule_log_line (name_column : string) (rule_row : row) : string :=
  nl ++ "Processing rule: " ++ Py.str (get rule_row name_column PNone) ++ nl.

End Readings.

(** ** Policies in the documents *)

(** [policy["nsxt_policy_security_policy"]]: the fields of the one
    policy in it. *)
Definition policy_body (policy : pyobj) : option dict :=
  match policy with
  | PyDict d =>
      match dict_get d "nsxt_policy_security_policy" with
      | Some (PyDict [(_, PyDict body)]) => Some body
      | _ => None
      end
  | _ => None
  end.

(** [doc["resource"][0]["nsxt_policy_security_policy"]], likewise. *)
Definition document_body (doc : pyobj) : option dict :=
  match doc with
  | PyDict d =>
      match dict_get d "resource" with
      | Some (PyList (policy :: _)) => policy_body policy
      | _ => None
      end
  | _ => None
  end.

(** The sequence number a policy carries in the document. *)
Definition policy_sequence_number (policy : pyobj) : option pyobj :=
  body ← policy_body policy; dict_get body "sequence_number".

(** The candidate of a header row, and whether it is a number. *)
Definition candidate (policy_row : row) : pyval :=
  get policy_row "sequence_number" (PInt 0).

Definition numeric (policy_row : row) : bool := Py.is_number (candidate policy_row).

(** A cell that equals zero: the number 0 as an [int] or a [float], and
    [False], which Python counts as 0. *)
Definition is_zero (v : pyval) : bool :=
  match v with
  | PInt z => z =? 0
  | PBool b => negb b
  | PFloat (FFin q) => Qeq_bool q 0
  | PFloat _ | PNone | PStr _ => false
  end.

(** The claim's test: the category, whatever its case, is one of the
    three names. *)
Definition one_of_the_categories (c : string) : bool :=
  existsb (equal_ignoring_case c) ["application"; "infrastructure"; "environment"].

(** The error of the validation, among the exceptions. *)
Definition is_validation_error (e : exn) : bool :=
  match exn_cls e with
  | ValueError => PyStr.startswith "Category must be one of: " (exn_msg e)
  | _ => false
  end.

(** ** IP sets *)

(** A [csv] cell with no address in it: nothing, or text whose elements
    are all empty once trimmed. *)
Definition no_address (csv : pyval) : bool :=
  match csv with
  | PStr s => forallb (fun e => String.eqb (PyStr.strip e) "") (PyStr.split "," s)
  | v => Py.isna v
  end.

(** A row the claim leaves out: its group name is missing, or its [csv]
    cell has no address. *)
Definition contributes_nothing (r : row) : bool :=
  match r !! "group_name" with
  | Some group_name =>
      Py.isna group_name ||
      match r !! "csv" with
      | Some csv => no_address csv
      | None => false
      end
  | None => false
  end.

Definition nonempty_addresses (d : Ipset.groups) : Prop :=
  Forall (fun entry => entry.2 ≠ [] /\ Forall (fun ip => ip ≠ "") entry.2) d.

(** The characters of an identifier, [A-Za-z0-9_-]. *)
Definition identifier_chars : list ascii :=
  list_ascii_of_string
    "ABCDEFGHIJKLMNOPQRSTUVWXYZabcdefghijklmnopqrstuvwxyz0123456789_-".

(** The key of the claim: the group name with every other character
    replaced by an underscore. *)
Definition identifier_key (group_name : string) : string :=
  PyStr.map_chars
    (fun c => if bool_decide (c ∈ identifier_chars) then c else "_"%char)
    group_name.

(** The addresses of the claim: the group's cell split on commas, each
    element trimmed, the empty ones dropped. *)
Definition cleaned_addresses (csv : string) : list string :=
  filter (fun ip => ip ≠ "") (map PyStr.strip (PyStr.split "," csv)).

(** The four lines of a group in the locals block. *)
Definition locals_entry (group_name : string) (ip_addresses : list string)
  : list string :=
  ["    " ++ identifier_key group_name ++ " = {";
   "      name = " ++ quote ++ group_name ++ quote;
   "      addresses = " ++ Ipset.json_dumps ip_addresses;
   "    }"].

(** ** Reading a JSON array of strings

    What an array literal denotes, to say what [json.dumps] wrote. *)

(** The value of a hexadecimal digit. *)
Definition hex_value (c : ascii) : option N :=
  let n := PyStr.code c in
  if PyStr.is_digit c then Some (n - 48)%N
  else if ((97 <=? n) && (n <=? 102))%N then Some (n - 87)%N
  else if ((65 <=? n) && (n <=? 70))%N then Some (n - 55)%N
  else None.

(** The character an escape of one letter stands for. *)
Definition unescape (c : ascii) : option ascii :=
  if Ascii.eqb c "034" then Some "034"%char
  else if Ascii.eqb c "\" then Some "\"%char
  else if Ascii.eqb c "/" then Some "/"%char
  else if Ascii.eqb c "n" then Some (ascii_of_N 10)
  else if Ascii.eqb c "r" then Some (ascii_of_N 13)
  else if Ascii.eqb c "t" then Some (ascii_of_N 9)
  else if Ascii.eqb c "f" then Some (ascii_of_N 12)
  else if Ascii.eqb c "b" then Some (ascii_of_N 8)
  else None.

Definition code_point (h1 h2 h3 h4 : ascii) : option ascii :=
  a ← hex_value h1; b ← hex_value h2; c ← hex_value h3; d ← hex_value h4;
  let n := (((a * 16 + b) * 16 + c) * 16 + d)%N in
  if (n <? 256)%N then Some (ascii_of_N n) else None.

Definition and_then (c : option ascii) (rest : option (string * string))
  : option (string * string) :=
  c ← c; '(text, after) ← rest; Some (String c text, after).

(** A string from behind its opening quote: its text, and what follows
    the closing quote. *)
Fixpoint read_json_string (s : string) : option (string * string) :=
  match s with
  | EmptyString => None
  | String c r =>
      if Ascii.eqb c "034" then Some (EmptyString, r)
      else if Ascii.eqb c "\" then
        match r with
        | String e r' =>
            if Ascii.eqb e "u" then
              match r' with
              | String h1 (String h2 (String h3 (String h4 r''))) =>
                  and_then (code_point h1 h2 h3 h4) (read_json_string r'')
              | _ => None
              end
            else and_then (unescape e) (read_json_string r')
        | EmptyString => None
        end
      else if (PyStr.code c <? 32)%N then None
      else and_then (Some c) (read_json_string r)
  end.

Definition is_json_blank (c : ascii) : bool :=
  let n := PyStr.code c in ((n =? 32) || (n =? 9) || (n =? 10) || (n =? 13))%N.

Definition skip_blanks : string -> string := PyStr.lstrip_with is_json_blank.

(** The elements of an array from its first element on, up to the end
    of the text. *)
Fixpoint read_json_items (fuel : nat) (s : string) : option (list string) :=
  match fuel with
  | O => None
  | S fuel' =>
      match skip_blanks s with
      | String c r =>
          if Ascii.eqb c "034" then
            '(x, after) ← read_json_string r;
            match skip_blanks after with
            | String d after' =>
                if Ascii.eqb d "," then cons x <$> read_json_items fuel' after'
                else if Ascii.eqb d "]" then
                  if String.eqb (skip_blanks after') "" then Some [x] else None
                else None
            | EmptyString => None
            end
          else None
      | EmptyString => None
      end
  end.

Definition read_json_array (s : string) : option (list string) :=
  match skip_blanks s with
  | String c r =>
      if Ascii.eqb c "[" then
        match skip_blanks r with
        | String d r' =>
            if Ascii.eqb d "]" then
              if String.eqb (skip_blanks r') "" then Some [] else None
            else read_json_items (String.length r) r
        | EmptyString => None
        end
      else None
  | EmptyString => None
  end.

(** ** The documents, whole *)

(** The three categories as the documents spell them. *)
Definition proper_categories : list string :=
  ["Application"; "Infrastructure"; "Environment"].

Section Documents.
Context `{FloatRepr}.

(** The name [policymaker.py] gives a policy. *)
Definition policymaker_name (policy_row : row) : pyval :=
  get policy_row "Terraform Policy File"
    (get policy_row "Application" (PStr "default-policy")).

(** The name [optum_policy_maker.py] gives a policy. *)
Definition optum_name (policy_row : row) : pyval :=
  get policy_row "policy_display_name"
    (get policy_row "Application" (PStr "default-policy")).

(** The document of [policymaker.py], given the category as validated
    and the rules as normalized. *)
Definition policymaker_document (policy_row : row) (category : string)
    (rules : list dict) : pyobj :=
  PyDict
    [("resource", PyList [PyDict
       [("nsxt_policy_security_policy", PyDict
          [(Py.str (policymaker_name policy_row), PyDict
             [("nsx_id", Scalar (PStr ""));
              ("display_name", Scalar (policymaker_name policy_row));
              ("category", Scalar (PStr category));
              ("comments",
                Scalar (Policymaker.blank_if_na (get policy_row "comments" PNone)));
              ("description",
                Scalar (Policymaker.blank_if_na (get policy_row "description" PNone)));
              ("domain", Scalar (get policy_row "domain" (PStr "default")));
              ("locked", flag policy_row "locked");
              ("sequence_number",
                Scalar (if is_zero (get policy_row "sequence_number" (PInt 0))
                        then PStr ""
                        else get policy_row "sequence_number" (PInt 0)));
              ("rule", PyList (map PyDict rules))])])]])].

(** The policy of [optum_policy_maker.py], given also the sequence
    number as printed. *)
Definition optum_policy (policy_row : row) (category sequence_number : string)
    (rules : list dict) : pyobj :=
  PyDict
    [("nsxt_policy_security_policy", PyDict
       [(Py.str (optum_name policy_row), PyDict
          [("nsx_id", Scalar (PStr ""));
           ("display_name", Scalar (optum_name policy_row));
           ("category", Scalar (PStr category));
           ("comments",
             Scalar (PStr (Optum.str_unless_na (get policy_row "comments" PNone))));
           ("description",
             Scalar (PStr (Optum.str_unless_na (get policy_row "description" PNone))));
           ("domain", Scalar (get policy_row "domain" (PStr "default")));
           ("locked", flag policy_row "locked");
           ("sequence_number", Scalar (PStr sequence_number));
           ("rule", PyList (map PyDict rules))])])].

End Documents.

(** The key under which a policy stands in
    [policy["nsxt_policy_security_policy"]]. *)
Definition policy_key (policy : pyobj) : option string :=
  match policy with
  | PyDict d =>
      match dict_get d "nsxt_policy_security_policy" with
      | Some (PyDict [(key, _)]) => Some key
      | _ => None
      end
  | _ => None
  end.

Definition document_key (doc : pyobj) : option string :=
  match doc with
  | PyDict d =>
      match dict_get d "resource" with
      | Some (PyList (policy :: _)) => policy_key policy
      | _ => None
      end
  | _ => None
  end.

(** The rules of a policy, as the list the document holds. *)
Definition body_rules (body : dict) : option (list pyobj) :=
  match dict_get body "rule" with
  | Some (PyList rules) => Some rules
  | _ => None
  end.

(** ** Cells that are no number to count from *)

(** A float that [int] refuses: NaN, which is how an empty cell is
    read, and the infinities. *)
Definition not_finite (v : pyval) : bool :=
  match v with
  | PFloat FNaN | PFloat (FInf _) => true
  | _ => false
  end.

(** A rule row whose [sequence_number] cell [int] accepts. *)
Definition countable (rule_row : row) : Prop :=
  exists n, Py.int (get rule_row "sequence_number" (PInt 0)) = Ok n.

(** ** Answers at the prompt *)

(** What a line typed says, once trimmed and whatever the case. *)
Definition says (word line : string) : bool :=
  equal_ignoring_case (PyStr.strip line) word.

(** Yes, also by the Enter key alone; and no. *)
Definition says_yes (line : string) : bool :=
  says "yes" line || says "y" line || says "" line.

Definition says_no (line : string) : bool := says "no" line || says "n" line.

(** What the screen shows for a line that says neither. *)
Definition asked_again (filepath : string) (lines : list string) : list string :=
  flat_map (fun _ => [overwrite_prompt filepath;
                      "Please answer 'yes' or 'no'" ++ nl]) lines.

(** ** Characters that can be printed *)

(** The ASCII characters from the space to the tilde. *)
Definition printable (c : ascii) : bool :=
  ((32 <=? PyStr.code c) && (PyStr.code c <=? 126))%N.

(** ** Groups by name *)

(** [groups_data[key]], when the key is there. *)
Fixpoint groups_get (d : Ipset.groups) (key : pyval) : option (list string) :=
  match d with
  | [] => None
  | (k, v) :: r => if Py.eqb k key then Some v else groups_get r key
  end.

(** No two keys of the dict are equal. *)
Fixpoint distinct_keys (d : Ipset.groups) : bool :=
  match d with
  | [] => true
  | (k, _) :: r => forallb (fun e => negb (Py.eqb k e.1)) r && distinct_keys r
  end.

(** A row of the group named [g]. *)
Definition named (g : string) (r : row) : bool :=
  match r !! "group_name" with
  | Some (PStr s) => String.eqb s g
  | _ => false
  end.

(** ** Sheets that can be converted *)

(** A row [convert_xlsx_to_hcl] gets through: it has a [group_name]
    cell and, unless that is empty, a [csv] cell that is empty or text;
    and when the [csv] cell has an address in it, the name is text. *)
Definition acceptable (r : row) : bool :=
  match r !! "group_name" with
  | None => false
  | Some group_name =>
      Py.isna group_name ||
      match r !! "csv" with
      | None => false
      | Some csv =>
          Py.isna csv ||
          (Py.is_str csv && (no_address csv || Py.is_str group_name))
      end
  end.

(** The names of the groups are all text. *)
Definition text_keys (d : Ipset.groups) : bool :=
  forallb (fun entry => Py.is_str entry.1) d.

(** * Properties *)

(** ** Unit checks *)

Example strip_ex : PyStr.strip "  10.0.0.2 " = "10.0.0.2".
Proof. reflexivity. Qed.

Example split_ex : PyStr.split "," "a,,b," = ["a"; ""; "b"; ""].
Proof. reflexivity. Qed.

Example split_empty_ex : PyStr.split "," "" = [""].
Proof. reflexivity. Qed.

Example endswith_ex : PyStr.endswith "_path" "HTTPS_path" = true.
Proof. reflexivity. Qed.

Example lower_ex : PyStr.lower "InfraStructure" = "infrastructure".
Proof. reflexivity. Qed.

Example int_ex1 : Py.int (PStr " -1_000 ") = Ok (-1000).
Proof. reflexivity. Qed.

Example int_ex2 : Py.int (PFloat (FFin (-7 # 2))) = Ok (-3).
Proof. reflexivity. Qed.

Example int_ex3 : Py.parse_int "1__0" = None /\ Py.parse_int "_1" = None
  /\ Py.parse_int "1_" = None /\ Py.parse_int "" = None
  /\ Py.parse_int "+ 1" = None /\ Py.parse_int "007" = Some 7.
Proof. repeat split; reflexivity. Qed.

Example eqb_ex : Py.eqb (PBool false) (PInt 0) = true
  /\ Py.eqb (PFloat (FFin (2 # 2))) (PInt 1) = true
  /\ Py.eqb (PStr "0") (PInt 0) = false
  /\ Py.eqb (PFloat FNaN) (PFloat FNaN) = false.
Proof. repeat split; reflexivity. Qed.

Example str_ex : forall `{FloatRepr}, Py.str (PInt (-12)) = "-12".
Proof. intros. vm_compute. reflexivity. Qed.

Example validate_ex1 : validate_category (PStr "infraSTRUCTURE") = Ok "Infrastructure".
Proof. reflexivity. Qed.

Example validate_ex2 : validate_category (PStr "Foo") =
  Raise (Exn ValueError
    "Category must be one of: Application, Infrastructure, Environment. Got: Foo").
Proof. reflexivity. Qed.

(** ** Characters and strings *)

Ltac each_char c :=
  destruct c as [[] [] [] [] [] [] [] []]; try reflexivity.

Lemma append_assoc (a b c : string) : (a ++ b) ++ c = a ++ b ++ c.
Proof.
  induction a as [|x a IH]; [reflexivity|].
  change (String x ((a ++ b) ++ c) = String x (a ++ b ++ c)). now rewrite IH.
Qed.

Lemma upper_char_T c : Ascii.eqb (PyStr.upper_char c) "T" = same_letter c "T".
Proof. each_char c. Qed.

Lemma upper_char_R c : Ascii.eqb (PyStr.upper_char c) "R" = same_letter c "R".
Proof. each_char c. Qed.

Lemma upper_char_U c : Ascii.eqb (PyStr.upper_char c) "U" = same_letter c "U".
Proof. each_char c. Qed.

Lemma upper_char_E c : Ascii.eqb (PyStr.upper_char c) "E" = same_letter c "E".
Proof. each_char c. Qed.

Lemma upper_is_TRUE s :
  String.eqb (PyStr.upper s) "TRUE" = equal_ignoring_case s "TRUE".
Proof.
  destruct s as [|c1 [|c2 [|c3 [|c4 [|c5 s]]]]];
    cbn [PyStr.upper PyStr.map_chars String.eqb equal_ignoring_case];
    rewrite <- ?upper_char_T, <- ?upper_char_R, <- ?upper_char_U, <- ?upper_char_E;
    repeat match goal with
           | |- context [Ascii.eqb ?a ?b] => destruct (Ascii.eqb a b)
           end; reflexivity.
Qed.

(** ** Dicts *)

Lemma dict_get_set d key v key' :
  dict_get (dict_set d key v) key' =
  if String.eqb key key' then Some v else dict_get d key'.
Proof.
  induction d as [|[k w] d IH]; cbn [dict_set dict_get].
  - reflexivity.
  - destruct (String.eqb k key) eqn:Hk; cbn [dict_get].
    + apply String.eqb_eq in Hk as ->.
      destruct (String.eqb key key'); reflexivity.
    + destruct (String.eqb k key') eqn:Hk'; [|exact IH].
      apply String.eqb_eq in Hk' as ->. rewrite String.eqb_sym, Hk. reflexivity.
Qed.

(** ** Computations *)

Lemma bind_Ok {A B} (m : logged A) (k : A -> logged B) l b :
  m ≫= k = Logged l (Ok b) ->
  exists a l1 l2, m = Logged l1 (Ok a) /\ k a = Logged l2 (Ok b) /\ l = (l1 ++ l2)%list.
Proof.
  destruct m as [l1 [a| |]]; unfold mbind, logged_bind; cbn; intros E;
    try discriminate.
  destruct (k a) as [l2 r] eqn:Hk. cbn in E. injection E as <- ->.
  exists a, l1, l2. auto.
Qed.

Lemma bind_lift_Ok {A B} (a : A) (k : A -> logged B) : lift (Ok a) ≫= k = k a.
Proof. unfold mbind, logged_bind, lift; cbn. destruct (k a); reflexivity. Qed.

Lemma bind_lift_Raise {A B} e (k : A -> logged B) :
  lift (Raise e) ≫= k = Logged [] (Raise e).
Proof. reflexivity. Qed.

Lemma bind_lift_OutOfFuel {A B} (k : A -> logged B) :
  lift OutOfFuel ≫= k = Logged [] OutOfFuel.
Proof. reflexivity. Qed.

Lemma int_not_OutOfFuel v : Py.int v ≠ OutOfFuel.
Proof.
  destruct v as [| | |[]|s]; cbn; try discriminate.
  destruct (Py.parse_int s); discriminate.
Qed.

Lemma int_Raise v e : Py.int v = Raise e -> e ∈ int_errors.
Proof.
  unfold int_errors.
  destruct v as [|b|z|[|neg|q]|s]; cbn; intros E; try discriminate;
    try (injection E as <-; set_solver).
  destruct (Py.parse_int s); [discriminate|]. injection E as <-. set_solver.
Qed.

(** ** Rule normalization, field by field *)

Lemma policymaker_process_groups c v :
  Policymaker.process_groups c v =
  group_refs Policymaker.construct_variable_reference c v.
Proof.
  unfold Policymaker.process_groups, group_refs.
  destruct v as [| | |[]|s]; try reflexivity.
  cbn. rewrite orb_false_r. destruct (_ || _); reflexivity.
Qed.

Lemma optum_process_groups c v :
  Optum.process_groups c v = group_refs Optum.construct_variable_reference c v.
Proof.
  unfold Optum.process_groups, group_refs.
  destruct v as [| | |[]|s]; try reflexivity.
  cbn. rewrite orb_false_r. destruct (_ || _); reflexivity.
Qed.

(** The tests in front of the [services] and [scope] comprehensions. *)
Lemma list_field_guard v :
  Py.notna v && Py.is_str v && negb (Py.eqb v (PStr ""))
    && negb (Py.eqb v (PStr "any"))
  = match v with
    | PStr s => negb (String.eqb s "" || String.eqb s "any")
    | _ => false
    end.
Proof.
  destruct v as [| | |[]|s]; try reflexivity.
  cbn. destruct (String.eqb s ""), (String.eqb s "any"); reflexivity.
Qed.

Section RuleFields.
Context `{FloatRepr}.

(** A guarded comprehension over a field that starts as [[]]. *)
Lemma guarded_update (rule : dict) key v (f : string -> string) refs :
  dict_set rule key (str_list []) = rule ->
  refs = match v with
         | PStr s => if String.eqb s "" || String.eqb s "any" then []
                     else map f (PyStr.split "," s)
         | _ => []
         end ->
  (if Py.notna v && Py.is_str v && negb (Py.eqb v (PStr ""))
      && negb (Py.eqb v (PStr "any"))
   then match v with
        | PStr s => dict_set rule key (str_list (map f (PyStr.split "," s)))
        | _ => rule
        end
   else rule)
  = dict_set rule key (str_list refs).
Proof.
  intros Hrule ->. rewrite list_field_guard.
  destruct v as [| | |[]|s]; try (symmetry; exact Hrule).
  destruct (String.eqb s "" || String.eqb s "any"); cbn [negb];
    [symmetry; exact Hrule|reflexivity].
Qed.

Lemma policymaker_create_rule rule_row category :
  Policymaker.create_rule rule_row category =
  Logged [rule_log_line "display_name" rule_row]
    (n ← Py.int (get rule_row "sequence_number" (PInt 0));
     Ok (policymaker_rule rule_row category n)).
Proof.
  unfold Policymaker.create_rule, rule_log_line, policymaker_rule, flag.
  rewrite !policymaker_process_groups.
  destruct (Py.int _) as [n|e|]; [|reflexivity..].
  generalize (get rule_row "services" PNone) as services.
  generalize (get rule_row "scope (Applied To)" PNone) as scope.
  generalize (group_refs Policymaker.construct_variable_reference category
                (get rule_row "destination_groups" PNone)) as dst.
  generalize (group_refs Policymaker.construct_variable_reference category
                (get rule_row "source_groups" PNone)) as src.
  intros src dst scope services.
  unfold mbind at 1 2. unfold logged_bind, tell, lift, mret, logged_ret.
  cbn [result_of log_of outcome_bind mbind app]. f_equal. f_equal.
  rewrite (guarded_update _ "services" services _
             (service_refs Policymaker.construct_variable_reference services))
    by reflexivity.
  rewrite (guarded_update _ "scope" scope _
             (group_refs Policymaker.construct_variable_reference category scope))
    by reflexivity.
  reflexivity.
Qed.

Lemma optum_create_rule rule_row category :
  Optum.create_rule rule_row category =
  Logged [rule_log_line "rule_display_name" rule_row]
    (n ← Py.int (get rule_row "sequence_number" (PInt 0));
     Ok (optum_rule rule_row category n)).
Proof.
  unfold Optum.create_rule, rule_log_line, optum_rule, flag.
  rewrite !optum_process_groups.
  destruct (Py.int _) as [n|e|]; [|reflexivity..].
  generalize (get rule_row "services" PNone) as services.
  generalize (get rule_row "scope (Applied To)" PNone) as scope.
  generalize (group_refs Optum.construct_variable_reference category
                (get rule_row "destination_groups" PNone)) as dst.
  generalize (group_refs Optum.construct_variable_reference category
                (get rule_row "source_groups" PNone)) as src.
  intros src dst scope services.
  unfold mbind at 1 2. unfold logged_bind, tell, lift, mret, logged_ret.
  cbn [result_of log_of outcome_bind mbind app]. f_equal. f_equal.
  rewrite (guarded_update _ "services" services _
             (service_refs Optum.construct_variable_reference services))
    by reflexivity.
  rewrite (guarded_update _ "scope" scope _
             (group_refs Optum.construct_variable_reference category scope))
    by reflexivity.
  reflexivity.
Qed.

End RuleFields.

(** ** Policy assembly *)

Lemma map_logged_Ok {A B} (f : A -> logged B) l log ys :
  map_logged f l = Logged log (Ok ys) ->
  Forall2 (fun x y => result_of (f x) = Ok y) l ys /\
  log = concat (map (fun x => log_of (f x)) l).
Proof.
  revert log ys. induction l as [|x l IH]; cbn [map_logged]; intros log ys E.
  - injection E as <- <-. split; [constructor|reflexivity].
  - apply bind_Ok in E as (y & l1 & l2 & Ex & E & ->).
    apply bind_Ok in E as (ys' & l3 & l4 & Eys & E & ->).
    injection E as <- <-. apply IH in Eys as [IH1 ->].
    split.
    + constructor; [rewrite Ex; reflexivity|exact IH1].
    + cbn [map concat]. rewrite Ex. cbn [log_of]. rewrite app_nil_r. reflexivity.
Qed.

Section PolicyAssembly.
Context `{FloatRepr}.

Lemma policymaker_create_policy_Ok policy_row rules log doc :
  Policymaker.create_policy policy_row rules = Logged log (Ok doc) ->
  exists category rules_with_category body,
    validate_category (get policy_row "category" (PStr "Infrastructure"))
      = Ok category /\
    map_logged (fun r => Policymaker.create_rule r category) rules
      = Logged log (Ok rules_with_category) /\
    document_body doc = Some body /\
    dict_get body "category" = Some (Scalar (PStr category)) /\
    dict_get body "locked" =
      Some (Scalar (PBool (convert_to_bool (get policy_row "locked" (PBool false))))) /\
    dict_get body "sequence_number" =
      Some (Scalar (if Py.eqb (get policy_row "sequence_number" (PInt 0)) (PInt 0)
                    then PStr "" else get policy_row "sequence_number" (PInt 0))) /\
    dict_get body "rule" = Some (PyList (map PyDict rules_with_category)).
Proof.
  unfold Policymaker.create_policy. intros E.
  apply bind_Ok in E as (c & l1 & l2 & Ec & E & ->).
  apply bind_Ok in E as (rs & l3 & l4 & Ers & E & ->).
  injection E as <- <-.
  destruct (validate_category _) as [c'| |]; try discriminate.
  injection Ec as <- ->. rewrite app_nil_r in *. cbn [app].
  exists c, rs. eexists. split; [reflexivity|]. split; [exact Ers|].
  cbn. repeat split; reflexivity.
Qed.

End PolicyAssembly.

(** ** The allocation of sequence numbers *)

Lemma first_unused_Ok fuel (existing : gset string) n r :
  Optum.first_unused fuel existing n = Ok r ->
  n <= r /\ (pretty r ∉ existing) /\ forall m, n <= m < r -> pretty m ∈ existing.
Proof.
  revert n. induction fuel as [|fuel IH]; cbn [Optum.first_unused]; intros n E.
  - discriminate.
  - destruct (decide (pretty n ∈ existing)) as [Hin|Hout].
    + apply IH in E as (Hle & Hr & Hbelow). split; [lia|]. split; [exact Hr|].
      intros m Hm. destruct (decide (m = n)) as [->|Hne]; [exact Hin|].
      apply Hbelow. lia.
    + injection E as <-. split; [lia|]. split; [exact Hout|]. intros m Hm. lia.
Qed.

Lemma first_unused_no_Raise fuel (existing : gset string) n e :
  Optum.first_unused fuel existing n ≠ Raise e.
Proof.
  revert n. induction fuel as [|fuel IH]; cbn [Optum.first_unused]; intros n.
  - discriminate.
  - destruct (decide _); [apply IH|discriminate].
Qed.

Lemma first_unused_OutOfFuel fuel (existing : gset string) n :
  Optum.first_unused fuel existing n = OutOfFuel ->
  forall m, n <= m < n + Z.of_nat fuel -> pretty m ∈ existing.
Proof.
  revert n. induction fuel as [|fuel IH]; cbn [Optum.first_unused]; intros n E m Hm.
  - lia.
  - destruct (decide (pretty n ∈ existing)) as [Hin|Hout]; [|discriminate].
    destruct (decide (m = n)) as [->|Hne]; [exact Hin|].
    apply (IH _ E). lia.
Qed.

(** The loop ends: a set of [k] strings cannot hold the [k + 1] numerals
    from [n] on. *)
Lemma next_unused_total (existing : gset string) n :
  exists r, Optum.next_unused existing n = Ok r.
Proof.
  unfold Optum.next_unused.
  destruct (Optum.first_unused _ existing n) as [r|e|] eqn:E.
  - exists r. reflexivity.
  - exfalso. exact (first_unused_no_Raise _ _ _ _ E).
  - exfalso.
    pose proof (first_unused_OutOfFuel _ _ _ E) as Hall.
    set (l := (pretty <$> seqZ n (Z.of_nat (S (size existing)))) : list string).
    assert (Hnd : NoDup l).
    { apply (NoDup_fmap_2 _), NoDup_seqZ. }
    assert (Hsub : (list_to_set l : gset string) ⊆ existing).
    { intros s Hs. apply elem_of_list_to_set in Hs.
      apply list_elem_of_fmap in Hs as (m & -> & Hm).
      apply elem_of_seqZ in Hm. apply Hall. lia. }
    apply subseteq_size in Hsub.
    rewrite (size_list_to_set l Hnd) in Hsub.
    unfold l in Hsub. rewrite length_fmap, length_seqZ in Hsub. lia.
Qed.

Lemma next_unused_Ok (existing : gset string) n r :
  Optum.next_unused existing n = Ok r ->
  n <= r /\ (pretty r ∉ existing) /\ forall m, n <= m < r -> pretty m ∈ existing.
Proof. apply first_unused_Ok. Qed.

Example next_unused_ex :
  Optum.next_unused {[ "5"; "6"; "8" ]} 5 = Ok 7.
Proof. vm_compute. reflexivity. Qed.

Section Batch.
Context `{FloatRepr}.

Lemma optum_create_policy_Ok policy_row rules (existing : gset string) log policy
    (existing' : gset string) :
  Optum.create_policy policy_row rules (Some existing)
    = Logged log (Ok (policy, existing')) ->
  exists category rules_with_category body,
    validate_category (get policy_row "category" (PStr "Infrastructure"))
      = Ok category /\
    map_logged (fun r => Optum.create_rule r category) rules
      = Logged log (Ok rules_with_category) /\
    policy_body policy = Some body /\
    dict_get body "locked" =
      Some (Scalar (PBool (convert_to_bool (get policy_row "locked" (PBool false))))) /\
    dict_get body "rule" = Some (PyList (map PyDict rules_with_category)) /\
    if numeric policy_row then
      exists n r,
        Py.int (candidate policy_row) = Ok n /\
        Optum.next_unused existing n = Ok r /\
        dict_get body "sequence_number" = Some (Scalar (PStr (pretty r))) /\
        existing' = {[ pretty r ]} ∪ existing
    else
      dict_get body "sequence_number"
        = Some (Scalar (PStr (Py.str (candidate policy_row)))) /\
      existing' = existing.
Proof.
  unfold Optum.create_policy, numeric, candidate. cbn [default]. intros E.
  apply bind_Ok in E as (c & l1 & l2 & Ec & E & ->).
  destruct (validate_category _) as [c'| |]; try discriminate.
  injection Ec as <- ->. cbn [app].
  apply bind_Ok in E as ([sn ex] & l3 & l4 & Esn & E & ->).
  apply bind_Ok in E as (rs & l5 & l6 & Ers & E & ->).
  injection E as <- <- <-. rewrite app_nil_r.
  exists c, rs. eexists. split; [reflexivity|].
  destruct (Py.is_number _) eqn:Hnum.
  - apply bind_Ok in Esn as (n & l7 & l8 & En & Esn & ->).
    apply bind_Ok in Esn as (r & l9 & l10 & Er & Esn & ->).
    injection Esn as <- <- <-.
    unfold lift in En, Er. simplify_eq. cbn [app] in *.
    split; [exact Ers|].
    split; [reflexivity|]. split; [reflexivity|]. split; [reflexivity|].
    exists n, r. repeat split; first [assumption|reflexivity].
  - injection Esn as <- <- <-. cbn [app] in *.
    split; [exact Ers|].
    split; [reflexivity|]. split; [reflexivity|]. split; [reflexivity|].
    split; reflexivity.
Qed.

(** What the loop of [main] keeps true, from any set it starts with. *)
Lemma main_loop_invariant pairs (existing : gset string) log policies
    (existing' : gset string) :
  Optum.main_loop pairs existing = Logged log (Ok (policies, existing')) ->
  length policies = length pairs /\
  existing ⊆ existing' /\
  (forall i h p,
      pairs !! i = Some h -> policies !! i = Some p -> numeric h.1 = true ->
      exists r : Z, policy_sequence_number p = Some (Scalar (PStr (pretty r))) /\
                (pretty r : string) ∈ existing' /\ (pretty r : string) ∉ existing) /\
  (forall i j hi hj pi pj,
      i ≠ j ->
      pairs !! i = Some hi -> pairs !! j = Some hj ->
      policies !! i = Some pi -> policies !! j = Some pj ->
      numeric hi.1 = true -> numeric hj.1 = true ->
      policy_sequence_number pi ≠ policy_sequence_number pj).
Proof.
  revert existing log policies existing'.
  induction pairs as [|[h rules] pairs IH]; cbn [Optum.main_loop];
    intros existing log policies existing' E.
  - injection E as <- <- <-. split; [reflexivity|]. split; [set_solver|].
    split; intros; simplify_list_eq.
  - apply bind_Ok in E as ([p ex1] & l1 & l2 & Ep & E & ->).
    apply bind_Ok in E as ([ps ex2] & l3 & l4 & Eps & E & ->).
    injection E as <- <- <-.
    apply IH in Eps as (Hlen & Hsub & Hin & Hdist).
    apply optum_create_policy_Ok in Ep
      as (c & rs & body & _ & _ & Hbody & _ & _ & Hseq).
    assert (Hstep : existing ⊆ ex1 /\
              (numeric h = true ->
               exists r : Z, policy_sequence_number p = Some (Scalar (PStr (pretty r))) /\
                         (pretty r : string) ∈ ex1 /\ (pretty r : string) ∉ existing)).
    { destruct (numeric h).
      - destruct Hseq as (n & r & _ & Hr & Hsn & ->).
        apply next_unused_Ok in Hr as (_ & Hout & _).
        split; [set_solver|]. intros _. exists r.
        unfold policy_sequence_number. rewrite Hbody. cbn.
        split; [exact Hsn|]. split; [set_solver|exact Hout].
      - destruct Hseq as [_ ->]. split; [set_solver|]. discriminate. }
    destruct Hstep as [Hsub1 Hfirst].
    split; [cbn; lia|]. split; [set_solver|]. split.
    + intros [|i] h' p' Hh Hp Hnum; cbn in Hh, Hp.
      * injection Hh as <-. injection Hp as <-.
        destruct (Hfirst Hnum) as (r & Hr & Hr1 & Hr0).
        exists r. split; [exact Hr|]. split; [set_solver|exact Hr0].
      * destruct (Hin i h' p' Hh Hp Hnum) as (r & Hr & Hr2 & Hr1).
        exists r. split; [exact Hr|]. split; [exact Hr2|set_solver].
    + intros [|i] [|j] hi hj pi pj Hij Hhi Hhj Hpi Hpj Hni Hnj;
        cbn in Hhi, Hhj, Hpi, Hpj; try congruence.
      * injection Hhi as <-. injection Hpi as <-.
        destruct (Hfirst Hni) as (r & Hr & Hr1 & _).
        destruct (Hin j hj pj Hhj Hpj Hnj) as (r' & Hr' & _ & Hout).
        rewrite Hr, Hr'. intros Heq. injection Heq as Heq.
        rewrite <- Heq in Hout. contradiction.
      * injection Hhj as <-. injection Hpj as <-.
        destruct (Hfirst Hnj) as (r & Hr & Hr1 & _).
        destruct (Hin i hi pi Hhi Hpi Hni) as (r' & Hr' & _ & Hout).
        rewrite Hr, Hr'. intros Heq. injection Heq as Heq.
        rewrite Heq in Hout. contradiction.
      * apply (Hdist i j hi hj pi pj); auto.
Qed.

End Batch.

(** * The claims *)

(** ** C1: the reference of a plain service name *)

(** C1, counterexample.  The claim wants the default service path for
    every plain name in both scripts; for the plain name [HTTPS],
    [policymaker.py] returns the bare name, and the two scripts differ. *)
Lemma service_reference_bare_name :
  PyStr.startswith "SVCG_" "HTTPS" = false /\
  PyStr.endswith "_path" "HTTPS" = false /\
  Policymaker.construct_variable_reference "service" "HTTPS" None = "HTTPS" /\
  Optum.construct_variable_reference "service" "HTTPS" None
    = "${var.services_base_path}/HTTPS" /\
  "HTTPS" ≠ "${var.services_base_path}/HTTPS".
Proof. repeat split; try reflexivity. discriminate. Qed.

(** C1, as amended.  For a service name [n] that neither starts with
    [SVCG_] nor ends with [_path], whatever the category:
    [optum_policy_maker.py] returns the default service path, the base
    path variable followed by [n]; [policymaker.py] returns [n] itself. *)
Theorem service_reference_default (n : string) (category : option string) :
  PyStr.startswith "SVCG_" n = false ->
  PyStr.endswith "_path" n = false ->
  Optum.construct_variable_reference "service" n category
    = "${var.services_base_path}/" ++ n /\
  Policymaker.construct_variable_reference "service" n category = n.
Proof.
  intros Hpre Hsuf.
  unfold Optum.construct_variable_reference,
    Policymaker.construct_variable_reference.
  cbn [String.eqb Ascii.eqb Bool.eqb]. rewrite Hpre, Hsuf. split; reflexivity.
Qed.

Lemma service_reference_default_witness :
  Optum.construct_variable_reference "service" "HTTPS" None
    = "${var.services_base_path}/" ++ "HTTPS" /\
  Policymaker.construct_variable_reference "service" "HTTPS" None = "HTTPS".
Proof. apply (service_reference_default "HTTPS" None); reflexivity. Defined.

(** ** C5: the key of a group reference *)

(** C5, counterexample.  The claim wants the Application key to be the
    bare name in both scripts; [policymaker.py] keys [Web] as
    [Web_path]. *)
Lemma application_key_has_suffix :
  Policymaker.construct_variable_reference "group" "Web" (Some "Application")
    = keyed_reference "app_groups_path" "Web_path" /\
  keyed_reference "app_groups_path" "Web_path"
    ≠ keyed_reference "app_groups_path" "Web".
Proof. split; [reflexivity|discriminate]. Qed.

(** C5, as amended.  For every group name [n]: Infrastructure and
    Environment key their namespace by [n_path] in both scripts; for
    Application, [optum_policy_maker.py] returns the base path followed
    by [n] alone, and [policymaker.py] keys [app_groups_path] by [n_path]
    as it does for the other two. *)
Theorem group_reference_keys (n : string) :
  (Policymaker.construct_variable_reference "group" n (Some "Infrastructure")
     = keyed_reference "infra_groups_path" (n ++ "_path") /\
   Optum.construct_variable_reference "group" n (Some "Infrastructure")
     = keyed_reference "infra_groups_path" (n ++ "_path")) /\
  (Policymaker.construct_variable_reference "group" n (Some "Environment")
     = keyed_reference "env_groups_path" (n ++ "_path") /\
   Optum.construct_variable_reference "group" n (Some "Environment")
     = keyed_reference "env_groups_path" (n ++ "_path")) /\
  (Policymaker.construct_variable_reference "group" n (Some "Application")
     = keyed_reference "app_groups_path" (n ++ "_path") /\
   Optum.construct_variable_reference "group" n (Some "Application")
     = "${var.groups_base_path}/" ++ n).
Proof.
  unfold Policymaker.construct_variable_reference,
    Optum.construct_variable_reference, keyed_reference.
  cbn [String.eqb Ascii.eqb Bool.eqb].
  repeat split; rewrite ?append_assoc; reflexivity.
Qed.

(** ** C6: boolean coercion *)

Lemma int_eqb_1 z : Qeq_bool (inject_Z z) (inject_Z 1) = (z =? 1).
Proof.
  unfold Qeq_bool, inject_Z. cbn [Qnum Qden]. rewrite !Z.mul_1_r. reflexivity.
Qed.

Lemma convert_to_bool_spec v : convert_to_bool v = spec_bool v.
Proof.
  destruct v as [|b|z|[|neg|q]|s]; cbn [convert_to_bool spec_bool];
    try reflexivity.
  - unfold Py.eqb. cbn [Py.num_of Py.float_eqb].
    change (Qeq_bool (inject_Z z) 1) with (Qeq_bool (inject_Z z) (inject_Z 1)).
    rewrite int_eqb_1. apply orb_diag.
  - unfold Py.eqb. cbn [Py.num_of Py.float_eqb]. apply orb_diag.
  - apply upper_is_TRUE.
Qed.

Section Coercion.
Context `{FloatRepr}.

Lemma policymaker_create_rule_Ok rule_row category rule :
  result_of (Policymaker.create_rule rule_row category) = Ok rule ->
  exists n, Py.int (get rule_row "sequence_number" (PInt 0)) = Ok n /\
            rule = policymaker_rule rule_row category n.
Proof.
  rewrite policymaker_create_rule. cbn [result_of].
  destruct (Py.int _) as [n| |]; try discriminate.
  intros E. injection E as <-. exists n. auto.
Qed.

Lemma optum_create_rule_Ok rule_row category rule :
  result_of (Optum.create_rule rule_row category) = Ok rule ->
  exists n, Py.int (get rule_row "sequence_number" (PInt 0)) = Ok n /\
            rule = optum_rule rule_row category n.
Proof.
  rewrite optum_create_rule. cbn [result_of].
  destruct (Py.int _) as [n| |]; try discriminate.
  intros E. injection E as <-. exists n. auto.
Qed.

(** C6.  [convert_to_bool] is the coercion of the claim: a boolean
    unchanged, a string true exactly when it is [TRUE] whatever the
    case, a number true exactly when it equals 1, anything else false
    (0, ["false"], the empty string and an absent value among them);
    and each boolean field of a rule and the [locked] field of a
    policy, in both scripts, is that coercion of its cell, [False]
    standing for a missing cell. *)
Theorem boolean_coercion :
  (forall v, convert_to_bool v = spec_bool v) /\
  (spec_bool (PBool true) = true /\ spec_bool (PStr "True") = true /\
   spec_bool (PInt 1) = true /\ spec_bool (PFloat (FFin 1)) = true /\
   spec_bool (PInt 0) = false /\ spec_bool (PStr "false") = false /\
   spec_bool (PStr "") = false /\ spec_bool PNone = false /\
   spec_bool (PFloat FNaN) = false /\
   forall r column, r !! column = None ->
     spec_bool (get r column (PBool false)) = false) /\
  (forall rule_row category key column rule,
      (key, column) ∈ rule_flags ->
      result_of (Policymaker.create_rule rule_row category) = Ok rule
      \/ result_of (Optum.create_rule rule_row category) = Ok rule ->
      dict_get rule key
        = Some (Scalar (PBool (spec_bool (get rule_row column (PBool false)))))) /\
  (forall policy_row rules log doc body,
      Policymaker.create_policy policy_row rules = Logged log (Ok doc) ->
      document_body doc = Some body ->
      dict_get body "locked"
        = Some (Scalar (PBool (spec_bool (get policy_row "locked" (PBool false)))))) /\
  (forall policy_row rules (existing existing' : gset string) log policy body,
      Optum.create_policy policy_row rules (Some existing)
        = Logged log (Ok (policy, existing')) ->
      policy_body policy = Some body ->
      dict_get body "locked"
        = Some (Scalar (PBool (spec_bool (get policy_row "locked" (PBool false)))))).
Proof.
  split; [exact convert_to_bool_spec|]. split.
  { repeat split; try reflexivity.
    intros r column Hnone. unfold get. rewrite Hnone. reflexivity. }
  split.
  { intros rule_row category key column rule Hin [E|E].
    - apply policymaker_create_rule_Ok in E as (n & _ & ->).
      unfold rule_flags in Hin. rewrite <- convert_to_bool_spec.
      repeat (apply elem_of_cons in Hin as [Hin|Hin];
              [injection Hin as -> ->; reflexivity|]).
      apply elem_of_nil in Hin as [].
    - apply optum_create_rule_Ok in E as (n & _ & ->).
      unfold rule_flags in Hin. rewrite <- convert_to_bool_spec.
      repeat (apply elem_of_cons in Hin as [Hin|Hin];
              [injection Hin as -> ->; reflexivity|]).
      apply elem_of_nil in Hin as []. }
  split.
  - intros policy_row rules log doc body E Hbody.
    apply policymaker_create_policy_Ok in E
      as (c & rs & body' & _ & _ & Hbody' & _ & Hlocked & _).
    rewrite Hbody in Hbody'. injection Hbody' as <-.
    rewrite Hlocked, convert_to_bool_spec. reflexivity.
  - intros policy_row rules existing existing' log policy body E Hbody.
    apply optum_create_policy_Ok in E
      as (c & rs & body' & _ & _ & Hbody' & Hlocked & _).
    rewrite Hbody in Hbody'. injection Hbody' as <-.
    rewrite Hlocked, convert_to_bool_spec. reflexivity.
Qed.

End Coercion.

Lemma boolean_coercion_witness :
  dict_get (policymaker_rule (H := fraction_repr)
              {[ "Rule Disabled" := PStr "true" ]} "Infrastructure" 0) "disabled"
  = Some (Scalar (PBool (spec_bool
      (get ({[ "Rule Disabled" := PStr "true" ]} : row) "Rule Disabled" (PBool false))))).
Proof.
  apply (proj1 (proj2 (proj2 (@boolean_coercion fraction_repr)))) with
    (rule_row := {[ "Rule Disabled" := PStr "true" ]}) (category := "Infrastructure").
  - unfold rule_flags. apply elem_of_cons. left. reflexivity.
  - left. vm_compute. reflexivity.
Defined.

(** ** C7: the sequence number of a single policy *)

Lemma eqb_zero v : Py.eqb v (PInt 0) = is_zero v.
Proof.
  destruct v as [|[]|z|[|neg|q]|s]; try reflexivity.
  unfold Py.eqb. cbn [Py.num_of Py.float_eqb is_zero].
  unfold Qeq_bool, inject_Z. cbn [Qnum Qden]. rewrite !Z.mul_1_r. reflexivity.
Qed.

Section SinglePolicy.
Context `{FloatRepr}.

(** C7.  When [policymaker.py] assembles a policy, the document's
    [sequence_number] is the empty string if the header's cell equals
    zero, and also if the header has no such cell (the default is 0);
    otherwise it is the cell itself, unchanged. *)
Theorem single_policy_sequence_number policy_row rules log doc :
  Policymaker.create_policy policy_row rules = Logged log (Ok doc) ->
  exists body,
    document_body doc = Some body /\
    (is_zero (get policy_row "sequence_number" (PInt 0)) = true ->
     dict_get body "sequence_number" = Some (Scalar (PStr ""))) /\
    (policy_row !! "sequence_number" = None ->
     dict_get body "sequence_number" = Some (Scalar (PStr ""))) /\
    (is_zero (get policy_row "sequence_number" (PInt 0)) = false ->
     dict_get body "sequence_number"
       = Some (Scalar (get policy_row "sequence_number" (PInt 0)))).
Proof.
  intros E.
  apply policymaker_create_policy_Ok in E
    as (c & rs & body & _ & _ & Hbody & _ & _ & Hseq & _).
  exists body. split; [exact Hbody|]. rewrite eqb_zero in Hseq.
  split; [|split].
  - intros Hz. rewrite Hz in Hseq. exact Hseq.
  - intros Hnone. unfold get in Hseq. rewrite Hnone in Hseq. exact Hseq.
  - intros Hz. rewrite Hz in Hseq. exact Hseq.
Qed.

End SinglePolicy.

Lemma single_policy_sequence_number_witness :
  exists body,
    document_body
      (PyDict [("resource", PyList [PyDict [("nsxt_policy_security_policy", PyDict
         [("default-policy", PyDict
            [("nsx_id", Scalar (PStr ""));
             ("display_name", Scalar (PStr "default-policy"));
             ("category", Scalar (PStr "Environment"));
             ("comments", Scalar (PStr ""));
             ("description", Scalar (PStr ""));
             ("domain", Scalar (PStr "default"));
             ("locked", Scalar (PBool false));
             ("sequence_number", Scalar (PInt 7));
             ("rule", PyList [])])])]])]) = Some body /\
    (is_zero (get ({[ "category" := PStr "environment";
                      "sequence_number" := PInt 7 ]} : row)
                "sequence_number" (PInt 0)) = true ->
     dict_get body "sequence_number" = Some (Scalar (PStr ""))) /\
    (({[ "category" := PStr "environment";
         "sequence_number" := PInt 7 ]} : row) !! "sequence_number" = None ->
     dict_get body "sequence_number" = Some (Scalar (PStr ""))) /\
    (is_zero (get ({[ "category" := PStr "environment";
                      "sequence_number" := PInt 7 ]} : row)
                "sequence_number" (PInt 0)) = false ->
     dict_get body "sequence_number"
       = Some (Scalar (get ({[ "category" := PStr "environment";
                               "sequence_number" := PInt 7 ]} : row)
                         "sequence_number" (PInt 0)))).
Proof.
  apply (@single_policy_sequence_number fraction_repr
           {[ "category" := PStr "environment"; "sequence_number" := PInt 7 ]}
           [] []).
  vm_compute. reflexivity.
Defined.

(** ** C2: the list-valued fields of a rule *)

(** C2, counterexample.  After a trailing comma the scripts keep the
    empty element and build a reference from the empty name, where the
    claim has one reference only. *)
Lemma trailing_comma_keeps_empty_name :
  Policymaker.process_groups "Infrastructure" (PStr "A,")
    = ["${var.infra_groups_path.A_path}";
       Policymaker.construct_variable_reference "group" "" (Some "Infrastructure")] /\
  Optum.process_groups "Infrastructure" (PStr "A,")
    = ["${var.infra_groups_path.A_path}";
       Optum.construct_variable_reference "group" "" (Some "Infrastructure")] /\
  spec_group_refs Policymaker.construct_variable_reference "Infrastructure" (PStr "A,")
    = ["${var.infra_groups_path.A_path}"] /\
  spec_group_refs Optum.construct_variable_reference "Infrastructure" (PStr "A,")
    = ["${var.infra_groups_path.A_path}"].
Proof. repeat split; reflexivity. Qed.

Lemma split_length sep s : length (PyStr.split sep s) = S (count_char sep s).
Proof.
  induction s as [|a s IH]; [reflexivity|].
  cbn [PyStr.split count_char]. destruct (Ascii.eqb a sep).
  - cbn [length]. rewrite IH. reflexivity.
  - destruct (PyStr.split sep s) as [|h t]; [discriminate|exact IH].
Qed.

Section GroupFields.
Context `{FloatRepr}.

(** C2, as amended.  In both scripts each of the fields
    [source_groups], [destination_groups] and [scope] of a rule is
    [group_refs] of its cell: the empty list when the cell is absent,
    the empty string, exactly [any], or not text; otherwise the text is
    split on commas, every element is trimmed and every element, an
    empty one included, is passed through the resolver with kind
    [group] and the rule's category, so that there is one reference
    more than there are commas. *)
Theorem group_fields_normalization (category : string) :
  (forall v,
      Policymaker.process_groups category v
        = group_refs Policymaker.construct_variable_reference category v /\
      Optum.process_groups category v
        = group_refs Optum.construct_variable_reference category v) /\
  (forall resolve v,
      Py.isna v = true \/ v = PStr "" \/ v = PStr "any" \/ Py.is_str v = false ->
      group_refs resolve category v = []) /\
  (forall resolve s,
      s ≠ "" -> s ≠ "any" ->
      group_refs resolve category (PStr s)
        = map (fun g => resolve "group" (PyStr.strip g) (Some category))
              (PyStr.split "," s) /\
      length (group_refs resolve category (PStr s)) = S (count_char "," s)) /\
  (forall rule_row key column rule,
      (key, column) ∈ group_fields ->
      (result_of (Policymaker.create_rule rule_row category) = Ok rule ->
       dict_get rule key
         = Some (str_list (group_refs Policymaker.construct_variable_reference
                             category (get rule_row column PNone)))) /\
      (result_of (Optum.create_rule rule_row category) = Ok rule ->
       dict_get rule key
         = Some (str_list (group_refs Optum.construct_variable_reference
                             category (get rule_row column PNone))))).
Proof.
  split.
  { intros v. split;
      [apply policymaker_process_groups|apply optum_process_groups]. }
  split.
  { intros resolve v [Hna|[->|[->|Hstr]]]; try reflexivity;
      destruct v as [| | |[]|s]; try reflexivity; discriminate. }
  split.
  { intros resolve s Hne Hany. unfold group_refs.
    apply String.eqb_neq in Hne, Hany. rewrite Hne, Hany. cbn [orb].
    split; [reflexivity|]. rewrite length_map. apply split_length. }
  intros rule_row key column rule Hin. unfold group_fields in Hin. split.
  - intros E. apply policymaker_create_rule_Ok in E as (n & _ & ->).
    repeat (apply elem_of_cons in Hin as [Hin|Hin];
            [injection Hin as -> ->; reflexivity|]).
    apply elem_of_nil in Hin as [].
  - intros E. apply optum_create_rule_Ok in E as (n & _ & ->).
    repeat (apply elem_of_cons in Hin as [Hin|Hin];
            [injection Hin as -> ->; reflexivity|]).
    apply elem_of_nil in Hin as [].
Qed.

End GroupFields.

Lemma group_fields_normalization_witness :
  group_refs Optum.construct_variable_reference "Infrastructure" (PStr "A, B,C")
    = map (fun g => Optum.construct_variable_reference "group" (PyStr.strip g)
                      (Some "Infrastructure"))
          (PyStr.split "," "A, B,C") /\
  length (group_refs Optum.construct_variable_reference "Infrastructure" (PStr "A, B,C"))
    = S (count_char "," "A, B,C").
Proof.
  apply (proj1 (proj2 (proj2 (@group_fields_normalization fraction_repr "Infrastructure"))));
    discriminate.
Defined.

Example group_refs_ex :
  group_refs Optum.construct_variable_reference "Infrastructure" (PStr "A, B,C")
  = ["${var.infra_groups_path.A_path}"; "${var.infra_groups_path.B_path}";
     "${var.infra_groups_path.C_path}"].
Proof. reflexivity. Qed.

(** ** C9: what makes rule normalization fail *)

Section RuleFailure.
Context `{FloatRepr}.

(** C9.  Rule normalization does fail: [int] is applied to the
    [sequence_number] cell as it comes.  A cell holding the text [abc]
    raises [ValueError], and so does an empty cell, which is read as
    NaN, in both scripts; more generally [create_rule] raises exactly
    what [int] raises on that cell, and returns a rule whenever [int]
    accepts it. *)
Theorem create_rule_sequence_number (category : string) :
  (result_of (Policymaker.create_rule
                {[ "display_name" := PStr "r1"; "sequence_number" := PStr "abc" ]}
                category)
     = Raise (Exn ValueError "invalid literal for int() with base 10") /\
   result_of (Optum.create_rule
                {[ "rule_display_name" := PStr "r1"; "sequence_number" := PStr "abc" ]}
                category)
     = Raise (Exn ValueError "invalid literal for int() with base 10")) /\
  (result_of (Policymaker.create_rule
                {[ "display_name" := PStr "r1"; "sequence_number" := PFloat FNaN ]}
                category)
     = Raise (Exn ValueError "cannot convert float NaN to integer") /\
   result_of (Optum.create_rule
                {[ "rule_display_name" := PStr "r1"; "sequence_number" := PFloat FNaN ]}
                category)
     = Raise (Exn ValueError "cannot convert float NaN to integer")) /\
  (forall rule_row e,
      (result_of (Policymaker.create_rule rule_row category) = Raise e <->
       Py.int (get rule_row "sequence_number" (PInt 0)) = Raise e) /\
      (result_of (Optum.create_rule rule_row category) = Raise e <->
       Py.int (get rule_row "sequence_number" (PInt 0)) = Raise e)) /\
  (forall rule_row n,
      Py.int (get rule_row "sequence_number" (PInt 0)) = Ok n ->
      result_of (Policymaker.create_rule rule_row category)
        = Ok (policymaker_rule rule_row category n) /\
      result_of (Optum.create_rule rule_row category)
        = Ok (optum_rule rule_row category n)).
Proof.
  split; [split; rewrite ?policymaker_create_rule, ?optum_create_rule;
          reflexivity|].
  split; [split; rewrite ?policymaker_create_rule, ?optum_create_rule;
          reflexivity|].
  split.
  - intros rule_row e.
    rewrite policymaker_create_rule, optum_create_rule. cbn [result_of].
    destruct (Py.int _) as [n|e'|]; cbn; split; split; congruence.
  - intros rule_row n Hint.
    rewrite policymaker_create_rule, optum_create_rule, Hint. split; reflexivity.
Qed.

End RuleFailure.

(** ** C3: category validation *)

Lemma equal_ignoring_case_lower s t :
  equal_ignoring_case s t = String.eqb (PyStr.lower s) (PyStr.lower t).
Proof.
  revert t. induction s as [|a s IH]; intros [|b t]; try reflexivity.
  cbn [equal_ignoring_case PyStr.lower PyStr.map_chars String.eqb].
  unfold same_letter. fold (PyStr.lower s) (PyStr.lower t). rewrite IH.
  destruct (Ascii.eqb _ _); reflexivity.
Qed.

Lemma validate_category_text c :
  validate_category (PStr c) =
  if one_of_the_categories c
  then match assoc valid_categories (PyStr.lower c) with
       | Some proper => Ok proper
       | None => Raise (category_error c)
       end
  else Raise (category_error c).
Proof.
  unfold one_of_the_categories. cbn [existsb validate_category].
  rewrite !equal_ignoring_case_lower.
  change (PyStr.lower "application") with "application".
  change (PyStr.lower "infrastructure") with "infrastructure".
  change (PyStr.lower "environment") with "environment".
  unfold valid_categories. cbn [assoc].
  rewrite !(String.eqb_sym (PyStr.lower c)).
  destruct (String.eqb "application" _); [reflexivity|].
  destruct (String.eqb "infrastructure" _); [reflexivity|].
  destruct (String.eqb "environment" _); reflexivity.
Qed.

Lemma validate_category_Ok c :
  one_of_the_categories c = true -> exists proper, validate_category (PStr c) = Ok proper.
Proof.
  intros Hc. rewrite validate_category_text, Hc.
  revert Hc. unfold one_of_the_categories. cbn [existsb].
  rewrite !equal_ignoring_case_lower.
  change (PyStr.lower "application") with "application".
  change (PyStr.lower "infrastructure") with "infrastructure".
  change (PyStr.lower "environment") with "environment".
  unfold valid_categories. cbn [assoc].
  rewrite !(String.eqb_sym (PyStr.lower c)).
  destruct (String.eqb "application" _); [eauto|].
  destruct (String.eqb "infrastructure" _); [eauto|].
  destruct (String.eqb "environment" _); [eauto|discriminate].
Qed.

Lemma int_errors_not_validation e : e ∈ int_errors -> is_validation_error e = false.
Proof.
  unfold int_errors. intros Hin.
  repeat (apply elem_of_cons in Hin as [->|Hin]; [reflexivity|]).
  apply elem_of_nil in Hin as [].
Qed.

Lemma bind_Raise {A B} (m : logged A) (k : A -> logged B) e :
  result_of (m ≫= k) = Raise e ->
  result_of m = Raise e \/ exists a, result_of m = Ok a /\ result_of (k a) = Raise e.
Proof.
  unfold mbind, logged_bind. destruct (result_of m) as [a|e'|]; cbn [result_of].
  - intros E. right. exists a. auto.
  - intros E. left. injection E as ->. reflexivity.
  - discriminate.
Qed.

Lemma map_logged_Raise {A B} (f : A -> logged B) l e :
  result_of (map_logged f l) = Raise e -> exists x, x ∈ l /\ result_of (f x) = Raise e.
Proof.
  induction l as [|x l IH]; cbn [map_logged]; intros E.
  - discriminate.
  - apply bind_Raise in E as [E|(y & _ & E)].
    + exists x. split; [left|exact E].
    + apply bind_Raise in E as [E|(ys & _ & E)]; [|discriminate].
      destruct (IH E) as (x' & Hin & Hx'). exists x'. split; [right; exact Hin|exact Hx'].
Qed.

(** C3, counterexample.  A header whose category cell is empty (NaN
    once read) is not one of the three categories, yet assembly does not
    fail with the validation error: [lower] is called on a float, and an
    [AttributeError] comes out of both scripts. *)
Lemma category_cell_not_text :
  Policymaker.create_policy (H := fraction_repr) {[ "category" := PFloat FNaN ]} []
    = Logged [] (Raise (Exn AttributeError "'float' object has no attribute 'lower'")) /\
  Optum.create_policy (H := fraction_repr) {[ "category" := PFloat FNaN ]} [] (Some ∅)
    = Logged [] (Raise (Exn AttributeError "'float' object has no attribute 'lower'")) /\
  is_validation_error (Exn AttributeError "'float' object has no attribute 'lower'")
    = false.
Proof. repeat split; vm_compute; reflexivity. Qed.

Section CategoryValidation.
Context `{FloatRepr}.

Lemma policymaker_create_rule_Raise rule_row category e :
  result_of (Policymaker.create_rule rule_row category) = Raise e -> e ∈ int_errors.
Proof.
  rewrite policymaker_create_rule. cbn [result_of].
  destruct (Py.int _) as [n|e'|] eqn:Hint; try discriminate.
  intros E. injection E as <-. exact (int_Raise _ _ Hint).
Qed.

Lemma optum_create_rule_Raise rule_row category e :
  result_of (Optum.create_rule rule_row category) = Raise e -> e ∈ int_errors.
Proof.
  rewrite optum_create_rule. cbn [result_of].
  destruct (Py.int _) as [n|e'|] eqn:Hint; try discriminate.
  intros E. injection E as <-. exact (int_Raise _ _ Hint).
Qed.

Lemma policymaker_create_policy_Raise policy_row rules proper e :
  validate_category (get policy_row "category" (PStr "Infrastructure")) = Ok proper ->
  result_of (Policymaker.create_policy policy_row rules) = Raise e ->
  e ∈ int_errors.
Proof.
  unfold Policymaker.create_policy. intros -> E. rewrite bind_lift_Ok in E.
  apply bind_Raise in E as [E|(rs & _ & E)]; [|discriminate].
  apply map_logged_Raise in E as (r & _ & E).
  exact (policymaker_create_rule_Raise _ _ _ E).
Qed.

Lemma optum_create_policy_Raise policy_row rules existing proper e :
  validate_category (get policy_row "category" (PStr "Infrastructure")) = Ok proper ->
  result_of (Optum.create_policy policy_row rules existing) = Raise e ->
  e ∈ int_errors.
Proof.
  unfold Optum.create_policy. intros -> E. rewrite bind_lift_Ok in E.
  apply bind_Raise in E as [E|([sn ex] & _ & E)].
  - destruct (Py.is_number _); [|discriminate].
    apply bind_Raise in E as [E|(n & _ & E)].
    + exact (int_Raise _ _ E).
    + apply bind_Raise in E as [E|(r & _ & E)]; [|discriminate].
      exfalso. exact (first_unused_no_Raise _ _ _ _ E).
  - apply bind_Raise in E as [E|(rs & _ & E)]; [|discriminate].
    apply map_logged_Raise in E as (r & _ & E).
    exact (optum_create_rule_Raise _ _ _ E).
Qed.

(** C3, as amended.  For a header whose category cell is text, or is
    missing and then counts as [Infrastructure]: if the text,
    whatever its case, is not one of application, infrastructure and
    environment, both scripts fail with the validation error, and
    nothing has been logged, that is, no rule row has been processed,
    whatever the rule rows are; if it is one of them, no exception
    that assembly may still raise is the validation error. *)
Theorem category_validation policy_row rules (existing : option (gset string)) c :
  get policy_row "category" (PStr "Infrastructure") = PStr c ->
  (one_of_the_categories c = false ->
   Policymaker.create_policy policy_row rules
     = Logged [] (Raise (category_error c)) /\
   Optum.create_policy policy_row rules existing
     = Logged [] (Raise (category_error c)) /\
   is_validation_error (category_error c) = true) /\
  (one_of_the_categories c = true ->
   forall e,
     result_of (Policymaker.create_policy policy_row rules) = Raise e \/
     result_of (Optum.create_policy policy_row rules existing) = Raise e ->
     is_validation_error e = false).
Proof.
  intros Hcat. split.
  - intros Hc.
    unfold Policymaker.create_policy, Optum.create_policy.
    rewrite Hcat, validate_category_text, Hc, !bind_lift_Raise.
    repeat split; reflexivity.
  - intros Hc e He. apply int_errors_not_validation.
    destruct (validate_category_Ok c Hc) as [proper Hproper].
    rewrite <- Hcat in Hproper. destruct He as [He|He].
    + exact (policymaker_create_policy_Raise _ _ _ _ Hproper He).
    + exact (optum_create_policy_Raise _ _ _ _ _ Hproper He).
Qed.

End CategoryValidation.

Lemma category_validation_witness :
  Policymaker.create_policy (H := fraction_repr) {[ "category" := PStr "Foo" ]}
      [ {[ "sequence_number" := PStr "abc" ]} ]
    = Logged [] (Raise (category_error "Foo")) /\
  Optum.create_policy (H := fraction_repr) {[ "category" := PStr "Foo" ]}
      [ {[ "sequence_number" := PStr "abc" ]} ] (Some ∅)
    = Logged [] (Raise (category_error "Foo")) /\
  is_validation_error (category_error "Foo") = true.
Proof.
  refine (proj1 (@category_validation fraction_repr {[ "category" := PStr "Foo" ]}
                   [ {[ "sequence_number" := PStr "abc" ]} ] (Some ∅) "Foo" _) _);
    reflexivity.
Defined.

Example category_accepted_ex :
  one_of_the_categories "InfraSTRUCTURE" = true /\
  one_of_the_categories "Foo" = false /\
  validate_category (PStr "InfraSTRUCTURE") = Ok "Infrastructure".
Proof. repeat split; reflexivity. Qed.

(** ** C4: sequence numbers over a batch *)

Section BatchClaim.
Context `{FloatRepr}.

Lemma main_Ok pairs log policies :
  Optum.main pairs = Logged log (Ok policies) ->
  exists existing' : gset string,
    Optum.main_loop pairs ∅ = Logged log (Ok (policies, existing')).
Proof.
  unfold Optum.main. destruct pairs as [|[first_row rules] rest]; [discriminate|].
  destruct (get first_row "policy_display_name" _); try discriminate.
  intros E. apply bind_Ok in E as ([ps ex] & l1 & l2 & Eloop & E & ->).
  injection E as <- <-. rewrite app_nil_r. exists ex. exact Eloop.
Qed.

Lemma bind_no_fuel {A B} (m : logged A) (k : A -> logged B) :
  result_of m ≠ OutOfFuel ->
  (forall a, result_of (k a) ≠ OutOfFuel) ->
  result_of (m ≫= k) ≠ OutOfFuel.
Proof.
  intros Hm Hk. unfold mbind, logged_bind.
  destruct (result_of m) as [a|e|]; cbn [result_of];
    [apply Hk|discriminate|contradiction].
Qed.

Lemma map_logged_no_fuel {A B} (f : A -> logged B) l :
  (forall x, result_of (f x) ≠ OutOfFuel) ->
  result_of (map_logged f l) ≠ OutOfFuel.
Proof.
  intros Hf. induction l as [|x l IH]; cbn [map_logged]; [discriminate|].
  apply bind_no_fuel; [apply Hf|]. intros y.
  apply bind_no_fuel; [exact IH|]. discriminate.
Qed.

Lemma optum_create_rule_no_fuel rule_row category :
  result_of (Optum.create_rule rule_row category) ≠ OutOfFuel.
Proof.
  rewrite optum_create_rule. cbn [result_of].
  destruct (Py.int _) as [n|e|] eqn:Hint; try discriminate.
  exfalso. exact (int_not_OutOfFuel _ Hint).
Qed.

Lemma validate_category_no_fuel v : validate_category v ≠ OutOfFuel.
Proof.
  destruct v as [| | |[]|s]; try discriminate.
  cbn [validate_category].
  destruct (assoc valid_categories (PyStr.lower s)); discriminate.
Qed.

Lemma optum_create_policy_no_fuel policy_row rules existing :
  result_of (Optum.create_policy policy_row rules existing) ≠ OutOfFuel.
Proof.
  unfold Optum.create_policy.
  apply bind_no_fuel; [apply validate_category_no_fuel|]. intros c.
  apply bind_no_fuel.
  - destruct (Py.is_number _); [|discriminate].
    apply bind_no_fuel; [apply int_not_OutOfFuel|]. intros n.
    apply bind_no_fuel; [|discriminate].
    cbn [lift result_of].
    destruct (next_unused_total (default ∅ existing) n) as [r ->]. discriminate.
  - intros [sn ex]. apply bind_no_fuel; [|discriminate].
    apply map_logged_no_fuel. intros r. apply optum_create_rule_no_fuel.
Qed.

(** The loop of [main] always ends: the fuel is never used up. *)
Lemma main_loop_not_OutOfFuel pairs (existing : gset string) :
  result_of (Optum.main_loop pairs existing) ≠ OutOfFuel.
Proof.
  revert existing. induction pairs as [|[h rules] pairs IH]; intros existing;
    cbn [Optum.main_loop]; [discriminate|].
  apply bind_no_fuel; [apply optum_create_policy_no_fuel|]. intros [p ex].
  apply bind_no_fuel; [apply IH|]. intros [ps ex']. discriminate.
Qed.

End BatchClaim.

Section BatchTheorem.
Context `{FloatRepr}.

Lemma create_single_policy_numeric policy_row rules (existing existing' : gset string)
    log policy :
  Optum.create_single_policy policy_row rules (Some existing)
    = Logged log (Ok (policy, existing')) ->
  numeric policy_row = true ->
  exists n r : Z,
    Py.int (candidate policy_row) = Ok n /\
    n <= r /\
    (forall m, n <= m < r -> (pretty m : string) ∈ existing) /\
    ((pretty r : string) ∉ existing) /\
    policy_sequence_number policy = Some (Scalar (PStr (pretty r))) /\
    existing' = {[ pretty r ]} ∪ existing.
Proof.
  unfold Optum.create_single_policy. intros E Hnum.
  apply optum_create_policy_Ok in E as (c & rs & body & _ & _ & Hbody & _ & _ & Hseq).
  rewrite Hnum in Hseq. destruct Hseq as (n & r & Hint & Hnext & Hsn & ->).
  apply next_unused_Ok in Hnext as (Hle & Hout & Hbelow).
  exists n, r. unfold policy_sequence_number. rewrite Hbody. cbn [mbind option_bind].
  repeat split; auto.
Qed.

Lemma two_policies_both_five h1 rules1 h2 rules2 log policies :
  Optum.main [(h1, rules1); (h2, rules2)] = Logged log (Ok policies) ->
  candidate h1 = PInt 5 -> candidate h2 = PInt 5 ->
  exists p1 p2,
    policies = [p1; p2] /\
    policy_sequence_number p1 = Some (Scalar (PStr "5")) /\
    policy_sequence_number p2 = Some (Scalar (PStr "6")).
Proof.
  intros E H1 H2. apply main_Ok in E as [ex E]. cbn [Optum.main_loop] in E.
  apply bind_Ok in E as ([p1 ex1] & l1 & l2 & E1 & E & ->).
  apply bind_Ok in E as ([ps ex2] & l3 & l4 & E2 & E & ->).
  injection E as <- <- <-.
  apply bind_Ok in E2 as ([p2 ex3] & l5 & l6 & E2 & E & ->).
  apply bind_Ok in E as ([ps' ex4] & l7 & l8 & E3 & E & ->).
  injection E3 as <- <- <-. injection E as <- <- <-.
  apply create_single_policy_numeric in E1
    as (n1 & r1 & Hint1 & Hle1 & Hbelow1 & Hout1 & Hsn1 & ->);
    [|unfold numeric; rewrite H1; reflexivity].
  apply create_single_policy_numeric in E2
    as (n2 & r2 & Hint2 & Hle2 & Hbelow2 & Hout2 & Hsn2 & ->);
    [|unfold numeric; rewrite H2; reflexivity].
  rewrite H1 in Hint1. rewrite H2 in Hint2.
  injection Hint1 as <-. injection Hint2 as <-.
  assert (r1 = 5) as ->.
  { destruct (decide (r1 = 5)) as [|Hne]; [assumption|].
    exfalso. assert (Hin : (pretty 5 : string) ∈ (∅ : gset string))
      by (apply Hbelow1; lia).
    set_solver. }
  assert (r2 = 6) as ->.
  { assert (r2 ≠ 5) by (intros ->; set_solver).
    destruct (decide (r2 = 6)) as [|Hne]; [assumption|].
    exfalso. assert (Hin : (pretty 6 : string) ∈ ({[ pretty 5 ]} ∪ ∅ : gset string))
      by (apply Hbelow2; lia).
    apply elem_of_union in Hin as [Hin|Hin]; [|set_solver].
    apply elem_of_singleton in Hin. apply (inj pretty) in Hin. discriminate. }
  exists p1, p2. split; [reflexivity|]. split; assumption.
Qed.

(** C4.  In a batch, [main] threads one set through the policies.  For
    a policy whose candidate is a number, the sequence number it gets
    is the first value from its (integer) candidate upwards whose
    numeral is not yet in the set, and that numeral is then recorded;
    so no two such policies of one run carry the same sequence number,
    and two policies that both ask for 5 get 5 and 6.  The search
    always ends. *)
Theorem batch_sequence_numbers :
  (forall policy_row rules (existing existing' : gset string) log policy,
      Optum.create_single_policy policy_row rules (Some existing)
        = Logged log (Ok (policy, existing')) ->
      numeric policy_row = true ->
      exists n r : Z,
        Py.int (candidate policy_row) = Ok n /\
        n <= r /\
        (forall m, n <= m < r -> (pretty m : string) ∈ existing) /\
        ((pretty r : string) ∉ existing) /\
        policy_sequence_number policy = Some (Scalar (PStr (pretty r))) /\
        existing' = {[ pretty r ]} ∪ existing) /\
  (forall pairs log policies,
      Optum.main pairs = Logged log (Ok policies) ->
      length policies = length pairs /\
      forall i j hi hj pi pj,
        i ≠ j ->
        pairs !! i = Some hi -> pairs !! j = Some hj ->
        policies !! i = Some pi -> policies !! j = Some pj ->
        numeric hi.1 = true -> numeric hj.1 = true ->
        policy_sequence_number pi ≠ policy_sequence_number pj) /\
  (forall h1 rules1 h2 rules2 log policies,
      Optum.main [(h1, rules1); (h2, rules2)] = Logged log (Ok policies) ->
      candidate h1 = PInt 5 -> candidate h2 = PInt 5 ->
      exists p1 p2,
        policies = [p1; p2] /\
        policy_sequence_number p1 = Some (Scalar (PStr "5")) /\
        policy_sequence_number p2 = Some (Scalar (PStr "6"))) /\
  (forall (existing : gset string) n, exists r, Optum.next_unused existing n = Ok r) /\
  (forall pairs, result_of (Optum.main pairs) ≠ OutOfFuel).
Proof.
  split; [exact create_single_policy_numeric|].
  split.
  { intros pairs log policies E. apply main_Ok in E as [ex E].
    apply main_loop_invariant in E as (Hlen & _ & _ & Hdist).
    split; [exact Hlen|exact Hdist]. }
  split; [exact two_policies_both_five|].
  split; [exact next_unused_total|].
  intros pairs. unfold Optum.main.
  destruct pairs as [|[first_row rules] rest]; [discriminate|].
  destruct (get first_row "policy_display_name" _); try discriminate.
  apply bind_no_fuel; [apply main_loop_not_OutOfFuel|]. intros [ps ex].
  discriminate.
Qed.

End BatchTheorem.

Lemma batch_sequence_numbers_witness :
  exists p1 p2,
    [PyDict [("nsxt_policy_security_policy", PyDict
       [("web", PyDict
          [("nsx_id", Scalar (PStr ""));
           ("display_name", Scalar (PStr "web"));
           ("category", Scalar (PStr "Application"));
           ("comments", Scalar (PStr ""));
           ("description", Scalar (PStr ""));
           ("domain", Scalar (PStr "default"));
           ("locked", Scalar (PBool false));
           ("sequence_number", Scalar (PStr "5"));
           ("rule", PyList [])])])];
     PyDict [("nsxt_policy_security_policy", PyDict
       [("db", PyDict
          [("nsx_id", Scalar (PStr ""));
           ("display_name", Scalar (PStr "db"));
           ("category", Scalar (PStr "Application"));
           ("comments", Scalar (PStr ""));
           ("description", Scalar (PStr ""));
           ("domain", Scalar (PStr "default"));
           ("locked", Scalar (PBool false));
           ("sequence_number", Scalar (PStr "6"));
           ("rule", PyList [])])])]] = [p1; p2] /\
    policy_sequence_number p1 = Some (Scalar (PStr "5")) /\
    policy_sequence_number p2 = Some (Scalar (PStr "6")).
Proof.
  apply (proj1 (proj2 (proj2 (@batch_sequence_numbers fraction_repr)))
           {[ "policy_display_name" := PStr "web"; "category" := PStr "application";
              "sequence_number" := PInt 5 ]} []
           {[ "policy_display_name" := PStr "db"; "category" := PStr "application";
              "sequence_number" := PInt 5 ]} [] []).
  - vm_compute. reflexivity.
  - reflexivity.
  - reflexivity.
Defined.

(** ** C10: rows that contribute no IP set *)

Lemma filter_nonempty_nil (l : list string) :
  forallb (fun e => String.eqb e "") l = true -> filter (fun ip => ip ≠ "") l = [].
Proof.
  induction l as [|x l IH]; cbn [forallb]; [reflexivity|].
  intros Hall. apply andb_prop in Hall as [Hx Hl]. apply String.eqb_eq in Hx as ->.
  rewrite filter_cons_False by (intros Hne; apply Hne; reflexivity). exact (IH Hl).
Qed.

Lemma clean_ip_addresses_no_address csv :
  no_address csv = true -> Ipset.clean_ip_addresses csv = Ok [].
Proof.
  unfold Ipset.clean_ip_addresses, no_address.
  destruct csv as [| | |[]|s]; try discriminate; try reflexivity.
  cbn [Py.isna]. intros Hall. f_equal. apply filter_nonempty_nil.
  rewrite forallb_forall in *. intros e He. apply in_map_iff in He as (e' & <- & He').
  exact (Hall e' He').
Qed.

Lemma clean_ip_addresses_Ok csv ips :
  Ipset.clean_ip_addresses csv = Ok ips -> Forall (fun ip => ip ≠ "") ips.
Proof.
  unfold Ipset.clean_ip_addresses.
  destruct csv as [| | |[]|s]; cbn [Py.isna]; intros E; try discriminate;
    injection E as <-; try constructor.
  apply Forall_forall. intros ip Hin. apply list_elem_of_filter in Hin as [Hne _].
  exact Hne.
Qed.

Lemma groups_set_nonempty d key ips :
  nonempty_addresses d -> ips ≠ [] -> Forall (fun ip => ip ≠ "") ips ->
  nonempty_addresses (Ipset.groups_set d key ips).
Proof.
  unfold nonempty_addresses. intros Hd Hne Hips.
  induction d as [|[k w] d IH]; cbn [Ipset.groups_set].
  - constructor; [split; assumption|constructor].
  - inversion Hd as [|? ? Hkw Hd']; subst. destruct (Py.eqb k key).
    + constructor; [split; assumption|assumption].
    + constructor; [assumption|apply IH; assumption].
Qed.

Lemma collect_groups_nonempty rows d d' :
  Ipset.collect_groups rows d = Ok d' -> nonempty_addresses d -> nonempty_addresses d'.
Proof.
  revert d. induction rows as [|r rows IH]; cbn [Ipset.collect_groups]; intros d E Hd.
  - injection E as <-. exact Hd.
  - destruct (Ipset.getitem r "group_name") as [g| |]; cbn in E; try discriminate.
    destruct (Py.isna g); [exact (IH _ E Hd)|].
    destruct (Ipset.getitem r "csv") as [csv| |]; cbn in E; try discriminate.
    destruct (Ipset.clean_ip_addresses csv) as [ips| |] eqn:Hips; cbn in E;
      try discriminate.
    destruct ips as [|ip ips]; cbn [Py.truthy_list] in E; [exact (IH _ E Hd)|].
    apply (IH _ E). apply groups_set_nonempty; [exact Hd|discriminate|].
    exact (clean_ip_addresses_Ok _ _ Hips).
Qed.

Lemma collect_groups_skip r rows d :
  contributes_nothing r = true ->
  Ipset.collect_groups (r :: rows) d = Ipset.collect_groups rows d.
Proof.
  unfold contributes_nothing. cbn [Ipset.collect_groups]. unfold Ipset.getitem.
  destruct (r !! "group_name") as [g|]; [|discriminate]. cbn [mbind outcome_bind].
  destruct (Py.isna g); [reflexivity|]. cbn [orb].
  destruct (r !! "csv") as [csv|]; [|discriminate]. cbn [mbind outcome_bind].
  intros Hno. rewrite (clean_ip_addresses_no_address _ Hno). reflexivity.
Qed.

Lemma collect_groups_app rows1 rows2 d :
  Ipset.collect_groups (rows1 ++ rows2) d =
  Ipset.collect_groups rows1 d ≫= Ipset.collect_groups rows2.
Proof.
  revert d. induction rows1 as [|r rows1 IH]; intros d; [reflexivity|].
  cbn [app Ipset.collect_groups].
  destruct (Ipset.getitem r "group_name") as [g| |]; cbn [mbind outcome_bind];
    try reflexivity.
  destruct (Py.isna g); [apply IH|].
  destruct (Ipset.getitem r "csv") as [csv| |]; cbn [mbind outcome_bind];
    try reflexivity.
  destruct (Ipset.clean_ip_addresses csv) as [ips| |]; cbn [mbind outcome_bind];
    try reflexivity.
  destruct (Py.truthy_list ips); apply IH.
Qed.

Section NoAddress.
Context `{FloatRepr}.

Lemma json_dumps_not_empty ip_addresses :
  ip_addresses ≠ [] -> Ipset.json_dumps ip_addresses ≠ "[]".
Proof.
  intros Hne Heq. destruct ip_addresses as [|x [|y l]]; [contradiction|..];
    apply (f_equal (String.get 1)) in Heq; vm_compute in Heq; discriminate.
Qed.

(** C10.  A row whose group name is missing, or whose [csv] cell has
    no non-empty element once split on commas and trimmed, adds
    nothing: with or without it, wherever it stands among the rows,
    the groups collected and the file written are the same.  And every
    group collected has a non-empty list of non-empty addresses, so
    that no [addresses = []] is written. *)
Theorem rows_without_addresses :
  (forall rows1 r rows2,
      contributes_nothing r = true ->
      Ipset.collect_groups (rows1 ++ r :: rows2) []
        = Ipset.collect_groups (rows1 ++ rows2) [] /\
      Ipset.convert_xlsx_to_hcl (rows1 ++ r :: rows2)
        = Ipset.convert_xlsx_to_hcl (rows1 ++ rows2)) /\
  (forall rows groups_data,
      Ipset.collect_groups rows [] = Ok groups_data ->
      forall group_name ip_addresses,
        (group_name, ip_addresses) ∈ groups_data ->
        ip_addresses ≠ [] /\
        Forall (fun ip => ip ≠ "") ip_addresses /\
        Ipset.json_dumps ip_addresses ≠ "[]").
Proof.
  split.
  - intros rows1 r rows2 Hskip.
    assert (E : Ipset.collect_groups (rows1 ++ r :: rows2) []
                = Ipset.collect_groups (rows1 ++ rows2) []).
    { rewrite !collect_groups_app.
      destruct (Ipset.collect_groups rows1 []) as [d| |]; cbn [mbind outcome_bind];
        try reflexivity.
      apply collect_groups_skip, Hskip. }
    split; [exact E|]. unfold Ipset.convert_xlsx_to_hcl. rewrite E. reflexivity.
  - intros rows groups_data E group_name ip_addresses Hin.
    apply collect_groups_nonempty in E; [|constructor].
    unfold nonempty_addresses in E. rewrite Forall_forall in E.
    destruct (E _ Hin) as [Hne Hall]. cbn [snd] in Hne, Hall.
    split; [exact Hne|]. split; [exact Hall|]. apply json_dumps_not_empty, Hne.
Qed.

End NoAddress.

Lemma rows_without_addresses_witness :
  Ipset.collect_groups
    ([ {[ "group_name" := PStr "Web"; "csv" := PStr "10.0.0.1" ]} ]
     ++ {[ "group_name" := PStr "Empty"; "csv" := PStr " , " ]} :: []) []
    = Ipset.collect_groups
        ([ {[ "group_name" := PStr "Web"; "csv" := PStr "10.0.0.1" ]} ] ++ []) [] /\
  Ipset.convert_xlsx_to_hcl (H := fraction_repr)
    ([ {[ "group_name" := PStr "Web"; "csv" := PStr "10.0.0.1" ]} ]
     ++ {[ "group_name" := PStr "Empty"; "csv" := PStr " , " ]} :: [])
    = Ipset.convert_xlsx_to_hcl (H := fraction_repr)
        ([ {[ "group_name" := PStr "Web"; "csv" := PStr "10.0.0.1" ]} ] ++ []).
Proof.
  apply (proj1 (@rows_without_addresses fraction_repr)). reflexivity.
Defined.

Example missing_group_name_ex :
  contributes_nothing {[ "group_name" := PFloat FNaN; "csv" := PInt 7 ]} = true /\
  Ipset.collect_groups [ {[ "group_name" := PFloat FNaN; "csv" := PInt 7 ]} ] [] = Ok [].
Proof. split; reflexivity. Qed.

(** ** C8: the locals block *)

Lemma in_class_identifier_chars c :
  Ipset.in_class c = bool_decide (c ∈ identifier_chars).
Proof. destruct c as [[] [] [] [] [] [] [] []]; vm_compute; reflexivity. Qed.

Lemma re_sub_identifier_key s :
  Ipset.re_sub_outside_class "_" s = identifier_key s.
Proof.
  induction s as [|c s IH]; [reflexivity|].
  cbn [Ipset.re_sub_outside_class identifier_key PyStr.map_chars].
  rewrite in_class_identifier_chars, IH. destruct (bool_decide _); reflexivity.
Qed.

Example read_json_array_ex :
  read_json_array ("[" ++ quoted "10.0.0.1" ++ "," ++ quoted "10.0.0.2" ++ "]")
    = Some ["10.0.0.1"; "10.0.0.2"] /\
  read_json_array ("[" ++ quoted "10.0.0.1" ++ ", " ++ quoted "10.0.0.2" ++ "]")
    = Some ["10.0.0.1"; "10.0.0.2"] /\
  read_json_array ("[" ++ quoted "aA\n" ++ "]") = Some ["aA" ++ nl] /\
  read_json_array "[]" = Some [] /\
  read_json_array ("[" ++ quoted "a" ++ ",]") = None.
Proof. repeat split; reflexivity. Qed.

Lemma string_length_app (a b : string) :
  String.length (a ++ b) = (String.length a + String.length b)%nat.
Proof.
  induction a as [|x a IH]; [reflexivity|].
  change (S (String.length (a ++ b)) = S (String.length a + String.length b)).
  now rewrite IH.
Qed.

Lemma read_escape_char c t :
  read_json_string (Ipset.json_escape_char c ++ t)
  = and_then (Some c) (read_json_string t).
Proof. destruct c as [[] [] [] [] [] [] [] []]; reflexivity. Qed.

Lemma read_json_string_escape x rest :
  read_json_string (Ipset.json_escape x ++ quote ++ rest) = Some (x, rest).
Proof.
  induction x as [|c x IH]; [reflexivity|].
  cbn [Ipset.json_escape]. rewrite append_assoc, read_escape_char, IH. reflexivity.
Qed.

Lemma read_json_items_blank fuel s :
  read_json_items fuel (String " " s) = read_json_items fuel s.
Proof. destruct fuel; reflexivity. Qed.

Lemma read_json_items_dumps l : forall x fuel,
  (length l < fuel)%nat ->
  read_json_items fuel
    (PyStr.join ", " (map Ipset.json_dumps_str (x :: l)) ++ "]")
  = Some (x :: l).
Proof.
  induction l as [|y l IH]; intros x [|fuel] Hfuel; try (cbn in Hfuel; lia).
  - cbn [map PyStr.join]. unfold Ipset.json_dumps_str.
    rewrite !append_assoc.
    change (quote ++ ?t) with (String "034"%char t).
    cbn [read_json_items skip_blanks PyStr.lstrip_with].
    change (is_json_blank "034") with false. cbn iota.
    change (Ascii.eqb "034" "034") with true. cbn iota.
    rewrite read_json_string_escape. reflexivity.
  - change (map Ipset.json_dumps_str (x :: y :: l))
      with (Ipset.json_dumps_str x :: map Ipset.json_dumps_str (y :: l)).
    change (PyStr.join ", " (Ipset.json_dumps_str x :: map Ipset.json_dumps_str (y :: l)))
      with (Ipset.json_dumps_str x ++ ", "
            ++ PyStr.join ", " (map Ipset.json_dumps_str (y :: l))).
    unfold Ipset.json_dumps_str at 1. rewrite !append_assoc.
    change (quote ++ ?t) with (String "034"%char t).
    cbn [read_json_items skip_blanks PyStr.lstrip_with].
    change (is_json_blank "034") with false. cbn iota.
    change (Ascii.eqb "034" "034") with true. cbn iota.
    rewrite read_json_string_escape.
    change (", " ++ ?t) with (String ","%char (String " "%char t)).
    cbn [mbind option_bind skip_blanks PyStr.lstrip_with].
    change (is_json_blank ",") with false. cbn iota.
    change (Ascii.eqb "," ",") with true. cbn iota.
    rewrite read_json_items_blank, IH by (cbn in Hfuel; lia). reflexivity.
Qed.

Lemma join_dumps_length l : forall x,
  (length l < String.length
                (PyStr.join ", " (map Ipset.json_dumps_str (x :: l)) ++ "]"))%nat.
Proof.
  induction l as [|y l IH]; intros x.
  - cbn [map PyStr.join length]. rewrite string_length_app. cbn. lia.
  - change (map Ipset.json_dumps_str (x :: y :: l))
      with (Ipset.json_dumps_str x :: map Ipset.json_dumps_str (y :: l)).
    change (PyStr.join ", " (Ipset.json_dumps_str x :: map Ipset.json_dumps_str (y :: l)))
      with (Ipset.json_dumps_str x ++ ", "
            ++ PyStr.join ", " (map Ipset.json_dumps_str (y :: l))).
    rewrite !append_assoc, string_length_app, string_length_app.
    specialize (IH y). cbn [length]. cbn [String.length] in *. lia.
Qed.

(** What [json.dumps] writes for a list of strings is an array literal
    that reads back as the list. *)
Lemma read_json_dumps l : read_json_array (Ipset.json_dumps l) = Some l.
Proof.
  destruct l as [|x l]; [reflexivity|].
  unfold Ipset.json_dumps.
  pose proof (read_json_items_dumps l x _ (join_dumps_length l x)) as Hitems.
  assert (Hhead : exists t, PyStr.join ", " (map Ipset.json_dumps_str (x :: l)) ++ "]"
                            = String "034"%char t).
  { destruct l; cbn [map PyStr.join]; unfold Ipset.json_dumps_str at 1;
      rewrite !append_assoc; eexists; reflexivity. }
  set (body := PyStr.join ", " (map Ipset.json_dumps_str (x :: l)) ++ "]") in *.
  destruct Hhead as [t Ht].
  change ("[" ++ body) with (String "["%char body).
  unfold read_json_array. cbn [skip_blanks PyStr.lstrip_with].
  change (is_json_blank "[") with false. cbn iota.
  change (Ascii.eqb "[" "[") with true. cbn iota.
  replace (skip_blanks body) with (String "034"%char t)
    by (rewrite Ht; reflexivity).
  change (Ascii.eqb "034" "]") with false. cbn iota. exact Hitems.
Qed.

Section Locals.
Context `{FloatRepr}.

Lemma locals_entries_text (groups_data : list (string * list string)) :
  forall locals_block,
    Ipset.locals_entries (map (fun e => (PStr e.1, e.2)) groups_data) locals_block
    = Ok (locals_block
          ++ concat (map (fun e => locals_entry e.1 e.2) groups_data))%list.
Proof.
  induction groups_data as [|[name ips] groups_data IH]; intros locals_block.
  - cbn. rewrite app_nil_r. reflexivity.
  - cbn [map Ipset.locals_entries fst snd Ipset.sanitize_name mbind outcome_bind
           concat Py.str].
    rewrite IH, re_sub_identifier_key. unfold locals_entry.
    rewrite <- app_assoc. reflexivity.
Qed.

Lemma collect_one_group (r : row) group_name csv :
  r !! "group_name" = Some (PStr group_name) ->
  r !! "csv" = Some (PStr csv) ->
  cleaned_addresses csv ≠ [] ->
  Ipset.collect_groups [r] [] = Ok [(PStr group_name, cleaned_addresses csv)].
Proof.
  intros Hname Hcsv Hne. cbn [Ipset.collect_groups]. unfold Ipset.getitem.
  rewrite Hname, Hcsv. cbn [mbind outcome_bind Py.isna Ipset.clean_ip_addresses].
  fold (cleaned_addresses csv).
  destruct (cleaned_addresses csv); [contradiction|reflexivity].
Qed.

End Locals.

Section LocalsTheorem.
Context `{FloatRepr}.

(** C8.  For groups named by text, [generate_hcl_locals] writes, between
    the opening and the closing lines, four lines per group in order:
    the key, which is the name with every character outside
    [A-Za-z0-9_-] replaced by an underscore, the name, the addresses as
    the array literal [json.dumps] writes, which reads back as the very
    list, and the closing brace.  A sheet of one row with a name and
    addresses gives that entry for the cleaned addresses; for the row
    of DB Servers the key is [DB_Servers] and the array holds the two
    addresses, the empty element after the last comma dropped. *)
Theorem hcl_locals_block :
  (forall groups_data : list (string * list string),
      Ipset.generate_hcl_locals (map (fun e => (PStr e.1, e.2)) groups_data)
      = Ok (PyStr.join nl
              (["locals {"; "  ip_sets = {"]
               ++ concat (map (fun e => locals_entry e.1 e.2) groups_data)
               ++ ["  }"; "}"; ""]))) /\
  (forall ip_addresses,
      read_json_array (Ipset.json_dumps ip_addresses) = Some ip_addresses) /\
  (forall (r : row) group_name csv,
      r !! "group_name" = Some (PStr group_name) ->
      r !! "csv" = Some (PStr csv) ->
      cleaned_addresses csv ≠ [] ->
      Ipset.convert_xlsx_to_hcl [r]
      = Ok (PyStr.join nl
              (["locals {"; "  ip_sets = {"]
               ++ locals_entry group_name (cleaned_addresses csv)
               ++ ["  }"; "}"; ""])
            ++ Ipset.generate_hcl_resource)) /\
  (identifier_key "DB Servers" = "DB_Servers" /\
   cleaned_addresses "10.0.0.1, 10.0.0.2," = ["10.0.0.1"; "10.0.0.2"] /\
   locals_entry "DB Servers" (cleaned_addresses "10.0.0.1, 10.0.0.2,")
     = ["    DB_Servers = {";
        "      name = " ++ quoted "DB Servers";
        "      addresses = [" ++ quoted "10.0.0.1" ++ ", " ++ quoted "10.0.0.2" ++ "]";
        "    }"] /\
   read_json_array ("[" ++ quoted "10.0.0.1" ++ "," ++ quoted "10.0.0.2" ++ "]")
     = Some (cleaned_addresses "10.0.0.1, 10.0.0.2,")).
Proof.
  split.
  { intros groups_data. unfold Ipset.generate_hcl_locals.
    rewrite locals_entries_text. cbn [mbind outcome_bind].
    rewrite <- app_assoc. reflexivity. }
  split; [exact read_json_dumps|].
  split.
  { intros r group_name csv Hname Hcsv Hne. unfold Ipset.convert_xlsx_to_hcl.
    rewrite (collect_one_group r group_name csv Hname Hcsv Hne).
    cbn [mbind outcome_bind]. unfold Ipset.generate_hcl_locals.
    rewrite (locals_entries_text [(group_name, cleaned_addresses csv)]).
    cbn [mbind outcome_bind map concat fst snd]. rewrite app_nil_r, <- app_assoc.
    reflexivity. }
  repeat split; vm_compute; reflexivity.
Qed.

End LocalsTheorem.

Lemma hcl_locals_block_witness :
  Ipset.convert_xlsx_to_hcl (H := fraction_repr)
    [ {[ "group_name" := PStr "DB Servers"; "csv" := PStr "10.0.0.1, 10.0.0.2," ]} ]
  = Ok (PyStr.join nl
          (["locals {"; "  ip_sets = {"]
           ++ locals_entry "DB Servers" (cleaned_addresses "10.0.0.1, 10.0.0.2,")
           ++ ["  }"; "}"; ""])
        ++ Ipset.generate_hcl_resource).
Proof.
  apply (proj1 (proj2 (proj2 (@hcl_locals_block fraction_repr)))).
  - reflexivity.
  - reflexivity.
  - vm_compute. discriminate.
Defined.

(** * More of the scripts

    Properties of the code around the claims: the rest of the resolver,
    of rule normalization and of policy assembly, the batch, and the IP
    sets. *)

(** ** Assembly, as a whole *)

Section WholeDocuments.
Context `{FloatRepr}.

Lemma policymaker_rules_Ok rules category log rules_with_category :
  map_logged (fun r => Policymaker.create_rule r category) rules
    = Logged log (Ok rules_with_category) ->
  Forall2 (fun r rule =>
             exists n, Py.int (get r "sequence_number" (PInt 0)) = Ok n /\
                       rule = policymaker_rule r category n)
          rules rules_with_category /\
  log = map (rule_log_line "display_name") rules.
Proof.
  intros E. apply map_logged_Ok in E as [Hall ->]. split.
  - eapply Forall2_impl; [exact Hall|]. cbn beta.
    intros r rule Hr. exact (policymaker_create_rule_Ok _ _ _ Hr).
  - clear Hall. induction rules as [|r rules IH]; [reflexivity|].
    cbn [map concat]. rewrite IH, policymaker_create_rule. reflexivity.
Qed.

Lemma optum_rules_Ok rules category log rules_with_category :
  map_logged (fun r => Optum.create_rule r category) rules
    = Logged log (Ok rules_with_category) ->
  Forall2 (fun r rule =>
             exists n, Py.int (get r "sequence_number" (PInt 0)) = Ok n /\
                       rule = optum_rule r category n)
          rules rules_with_category /\
  log = map (rule_log_line "rule_display_name") rules.
Proof.
  intros E. apply map_logged_Ok in E as [Hall ->]. split.
  - eapply Forall2_impl; [exact Hall|]. cbn beta.
    intros r rule Hr. exact (optum_create_rule_Ok _ _ _ Hr).
  - clear Hall. induction rules as [|r rules IH]; [reflexivity|].
    cbn [map concat]. rewrite IH, optum_create_rule. reflexivity.
Qed.

Lemma policymaker_create_policy_document policy_row rules log doc :
  Policymaker.create_policy policy_row rules = Logged log (Ok doc) ->
  exists category rules_with_category,
    validate_category (get policy_row "category" (PStr "Infrastructure"))
      = Ok category /\
    map_logged (fun r => Policymaker.create_rule r category) rules
      = Logged log (Ok rules_with_category) /\
    doc = policymaker_document policy_row category rules_with_category.
Proof.
  unfold Policymaker.create_policy. intros E.
  apply bind_Ok in E as (c & l1 & l2 & Ec & E & ->).
  apply bind_Ok in E as (rs & l3 & l4 & Ers & E & ->).
  injection E as <- <-.
  destruct (validate_category _) as [c'| |]; try discriminate.
  injection Ec as <- ->. rewrite app_nil_r. cbn [app].
  exists c, rs. split; [reflexivity|]. split; [exact Ers|].
  unfold policymaker_document, policymaker_name, flag. rewrite eqb_zero. reflexivity.
Qed.

Lemma optum_create_policy_document policy_row rules (existing existing' : gset string)
    log policy :
  Optum.create_policy policy_row rules (Some existing)
    = Logged log (Ok (policy, existing')) ->
  exists category sequence_number rules_with_category,
    validate_category (get policy_row "category" (PStr "Infrastructure"))
      = Ok category /\
    map_logged (fun r => Optum.create_rule r category) rules
      = Logged log (Ok rules_with_category) /\
    policy = optum_policy policy_row category sequence_number rules_with_category /\
    if numeric policy_row then
      exists n r : Z,
        Py.int (candidate policy_row) = Ok n /\
        Optum.next_unused existing n = Ok r /\
        sequence_number = pretty r /\
        existing' = {[ pretty r ]} ∪ existing
    else
      sequence_number = Py.str (candidate policy_row) /\ existing' = existing.
Proof.
  unfold Optum.create_policy, numeric, candidate. cbn [default]. intros E.
  apply bind_Ok in E as (c & l1 & l2 & Ec & E & ->).
  destruct (validate_category _) as [c'| |]; try discriminate.
  injection Ec as <- ->. cbn [app].
  apply bind_Ok in E as ([sn ex] & l3 & l4 & Esn & E & ->).
  apply bind_Ok in E as (rs & l5 & l6 & Ers & E & ->).
  injection E as <- <- <-. rewrite app_nil_r.
  exists c, (Py.str sn), rs. split; [reflexivity|].
  destruct (Py.is_number _) eqn:Hnum.
  - apply bind_Ok in Esn as (n & l7 & l8 & En & Esn & ->).
    apply bind_Ok in Esn as (r & l9 & l10 & Er & Esn & ->).
    injection Esn as <- <- <-.
    unfold lift in En, Er. simplify_eq. cbn [app] in *.
    split; [exact Ers|]. split; [reflexivity|].
    exists n, r. repeat split; first [assumption|reflexivity].
  - injection Esn as <- <- <-. cbn [app] in *.
    split; [exact Ers|]. split; [reflexivity|]. split; reflexivity.
Qed.

End WholeDocuments.

(** ** The category, once validated *)

Lemma equal_ignoring_case_eq s t :
  equal_ignoring_case s t = true -> PyStr.lower s = PyStr.lower t.
Proof. rewrite equal_ignoring_case_lower. apply String.eqb_eq. Qed.

(** X1.  What [validate_category] accepts it returns in one of three
    spellings, which is the input up to case; validating the result
    again changes nothing, and any other spelling of the input is
    accepted with the same result. *)
Theorem validate_category_canonical c proper :
  validate_category (PStr c) = Ok proper ->
  proper ∈ proper_categories /\
  equal_ignoring_case c proper = true /\
  validate_category (PStr proper) = Ok proper /\
  forall c', equal_ignoring_case c' c = true ->
             validate_category (PStr c') = Ok proper.
Proof.
  unfold validate_category, valid_categories. cbn [assoc]. intros E.
  assert (Hcases :
    (PyStr.lower c = "application" /\ proper = "Application") \/
    (PyStr.lower c = "infrastructure" /\ proper = "Infrastructure") \/
    (PyStr.lower c = "environment" /\ proper = "Environment")).
  { destruct (String.eqb "application" _) eqn:E1.
    { apply String.eqb_eq in E1. injection E as <-. auto. }
    destruct (String.eqb "infrastructure" _) eqn:E2.
    { apply String.eqb_eq in E2. injection E as <-. auto. }
    destruct (String.eqb "environment" _) eqn:E3; [|discriminate].
    apply String.eqb_eq in E3. injection E as <-. auto. }
  assert (Hlower : forall c', equal_ignoring_case c' c = true ->
                              PyStr.lower c' = PyStr.lower c)
    by (intros c'; apply equal_ignoring_case_eq).
  unfold proper_categories.
  destruct Hcases as [[Hc ->]|[[Hc ->]|[Hc ->]]];
    (split; [set_solver|]);
    (split; [rewrite equal_ignoring_case_lower, Hc; reflexivity|]);
    (split; [reflexivity|]);
    intros c' Hc'; rewrite (Hlower c' Hc'), Hc; reflexivity.
Qed.

Lemma validate_category_canonical_witness :
  "Infrastructure" ∈ proper_categories /\
  equal_ignoring_case "infraSTRUCTURE" "Infrastructure" = true /\
  validate_category (PStr "Infrastructure") = Ok "Infrastructure" /\
  forall c', equal_ignoring_case c' "infraSTRUCTURE" = true ->
             validate_category (PStr c') = Ok "Infrastructure".
Proof. apply (validate_category_canonical "infraSTRUCTURE"). reflexivity. Defined.

(** ** The rules of a policy *)

Section RulesInOrder.
Context `{FloatRepr}.

(** X2.  A policy that is assembled holds one rule per rule row, in the
    order of the rows: the rule at each place is the one [create_rule]
    makes of the row at that place with the category as validated.  The
    debug log has gained one line per row, in the same order. *)
Theorem rules_in_order policy_row rules log :
  (forall doc,
      Policymaker.create_policy policy_row rules = Logged log (Ok doc) ->
      exists category body rules_with_category,
        validate_category (get policy_row "category" (PStr "Infrastructure"))
          = Ok category /\
        document_body doc = Some body /\
        body_rules body = Some (map PyDict rules_with_category) /\
        Forall2 (fun r rule =>
                   result_of (Policymaker.create_rule r category) = Ok rule)
                rules rules_with_category /\
        log = map (rule_log_line "display_name") rules) /\
  (forall (existing existing' : gset string) policy,
      Optum.create_policy policy_row rules (Some existing)
        = Logged log (Ok (policy, existing')) ->
      exists category body rules_with_category,
        validate_category (get policy_row "category" (PStr "Infrastructure"))
          = Ok category /\
        policy_body policy = Some body /\
        body_rules body = Some (map PyDict rules_with_category) /\
        Forall2 (fun r rule =>
                   result_of (Optum.create_rule r category) = Ok rule)
                rules rules_with_category /\
        log = map (rule_log_line "rule_display_name") rules).
Proof.
  split.
  - intros doc E.
    apply policymaker_create_policy_document in E as (c & rs & Hc & Hrs & ->).
    pose proof (policymaker_rules_Ok _ _ _ _ Hrs) as [_ Hlog].
    apply map_logged_Ok in Hrs as [Hall _].
    exists c. eexists. exists rs. split; [exact Hc|].
    split; [reflexivity|]. split; [reflexivity|]. split; assumption.
  - intros existing existing' policy E.
    apply optum_create_policy_document in E as (c & sn & rs & Hc & Hrs & -> & _).
    pose proof (optum_rules_Ok _ _ _ _ Hrs) as [_ Hlog].
    apply map_logged_Ok in Hrs as [Hall _].
    exists c. eexists. exists rs. split; [exact Hc|].
    split; [reflexivity|]. split; [reflexivity|]. split; assumption.
Qed.

End RulesInOrder.

Lemma rules_in_order_witness :
  exists category body rules_with_category,
    validate_category
      (get {[ "category" := PStr "application" ]} "category" (PStr "Infrastructure"))
      = Ok category /\
    document_body
      (policymaker_document (H := fraction_repr)
         {[ "category" := PStr "application" ]} "Application"
         [policymaker_rule (H := fraction_repr) {[ "display_name" := PStr "first" ]}
            "Application" 0;
          policymaker_rule (H := fraction_repr) {[ "display_name" := PStr "second" ]}
            "Application" 0]) = Some body /\
    body_rules body = Some (map PyDict rules_with_category) /\
    Forall2 (fun r rule =>
               result_of (Policymaker.create_rule (H := fraction_repr) r category)
                 = Ok rule)
            [{[ "display_name" := PStr "first" ]};
             {[ "display_name" := PStr "second" ]}] rules_with_category /\
    [nl ++ "Processing rule: first" ++ nl; nl ++ "Processing rule: second" ++ nl]
      = map (rule_log_line (H := fraction_repr) "display_name")
          [{[ "display_name" := PStr "first" ]};
           {[ "display_name" := PStr "second" ]}].
Proof.
  apply (proj1 (@rules_in_order fraction_repr
                  {[ "category" := PStr "application" ]}
                  [{[ "display_name" := PStr "first" ]};
                   {[ "display_name" := PStr "second" ]}]
                  [nl ++ "Processing rule: first" ++ nl;
                   nl ++ "Processing rule: second" ++ nl])
           (policymaker_document (H := fraction_repr)
              {[ "category" := PStr "application" ]} "Application"
              [policymaker_rule (H := fraction_repr)
                 {[ "display_name" := PStr "first" ]} "Application" 0;
               policymaker_rule (H := fraction_repr)
                 {[ "display_name" := PStr "second" ]} "Application" 0])).
  vm_compute. reflexivity.
Defined.

(** ** The services of a rule *)

Section Services.
Context `{FloatRepr}.

(** X3.  The [services] field of a rule, in both policy makers: a cell
    that is text other than the empty string and [any] gives one service
    reference per comma-separated element, each of the element trimmed,
    an empty element included, so one more than the text has commas;
    any other cell (missing, empty, a number, a boolean) gives the empty
    list.  The category of the policy plays no part. *)
Theorem services_field rule_row category rule resolve :
  (result_of (Policymaker.create_rule rule_row category) = Ok rule /\
   resolve = Policymaker.construct_variable_reference) \/
  (result_of (Optum.create_rule rule_row category) = Ok rule /\
   resolve = Optum.construct_variable_reference) ->
  exists refs,
    dict_get rule "services" = Some (str_list refs) /\
    match get rule_row "services" PNone with
    | PStr s =>
        if String.eqb s "" || String.eqb s "any" then refs = []
        else refs = map (fun service => resolve "service" (PyStr.strip service) None)
                        (PyStr.split "," s) /\
             length refs = S (count_char "," s)
    | _ => refs = []
    end.
Proof.
  intros [[E ->]|[E ->]].
  - apply policymaker_create_rule_Ok in E as (n & _ & ->).
    exists (service_refs Policymaker.construct_variable_reference
              (get rule_row "services" PNone)).
    split; [reflexivity|]. unfold service_refs.
    destruct (get rule_row "services" PNone) as [| | | |s]; try reflexivity.
    destruct (_ || _); [reflexivity|]. split; [reflexivity|].
    rewrite length_map. apply split_length.
  - apply optum_create_rule_Ok in E as (n & _ & ->).
    exists (service_refs Optum.construct_variable_reference
              (get rule_row "services" PNone)).
    split; [reflexivity|]. unfold service_refs.
    destruct (get rule_row "services" PNone) as [| | | |s]; try reflexivity.
    destruct (_ || _); [reflexivity|]. split; [reflexivity|].
    rewrite length_map. apply split_length.
Qed.

End Services.

Lemma services_field_witness :
  exists refs,
    dict_get (optum_rule (H := fraction_repr)
                {[ "services" := PStr "SVCG_web, https,"; "sequence_number" := PInt 7 ]}
                "Application" 7) "services" = Some (str_list refs) /\
    match get ({[ "services" := PStr "SVCG_web, https,";
                  "sequence_number" := PInt 7 ]} : row) "services" PNone with
    | PStr s =>
        if String.eqb s "" || String.eqb s "any" then refs = []
        else refs = map (fun service =>
                           Optum.construct_variable_reference "service"
                             (PyStr.strip service) None)
                        (PyStr.split "," s) /\
             length refs = S (count_char "," s)
    | _ => refs = []
    end.
Proof.
  apply (@services_field fraction_repr
           {[ "services" := PStr "SVCG_web, https,"; "sequence_number" := PInt 7 ]}
           "Application").
  right. split; [vm_compute; reflexivity|reflexivity].
Defined.

(** ** Sequence numbers that are not numbers *)

Section TextSequenceNumbers.
Context `{FloatRepr}.

(** X4.  In [optum_policy_maker.py] a header whose [sequence_number]
    cell is not a number (text, or [None]) keeps the cell as it is
    printed, and nothing is recorded in the set of used numbers.  So a
    policy that follows with the same number, as a number, finds it
    unused and carries the same sequence number: text cells are outside
    the allocation. *)
Theorem text_sequence_number_not_recorded h rules (existing existing' : gset string)
    log policy :
  numeric h = false ->
  Optum.create_single_policy h rules (Some existing)
    = Logged log (Ok (policy, existing')) ->
  policy_sequence_number policy = Some (Scalar (PStr (Py.str (candidate h)))) /\
  existing' = existing /\
  forall (n : Z) h2 rules2 log2 p2 (ex2 : gset string),
    candidate h = PStr (pretty n) ->
    candidate h2 = PInt n ->
    (pretty n : string) ∉ existing ->
    Optum.create_single_policy h2 rules2 (Some existing')
      = Logged log2 (Ok (p2, ex2)) ->
    policy_sequence_number p2 = policy_sequence_number policy.
Proof.
  intros Hnum E. unfold Optum.create_single_policy in E.
  apply optum_create_policy_Ok in E as (c & rs & body & _ & _ & Hbody & _ & _ & Hseq).
  rewrite Hnum in Hseq. destruct Hseq as [Hsn ->].
  assert (Hp : policy_sequence_number policy
               = Some (Scalar (PStr (Py.str (candidate h))))).
  { unfold policy_sequence_number. rewrite Hbody. exact Hsn. }
  split; [exact Hp|]. split; [reflexivity|].
  intros n h2 rules2 log2 p2 ex2 Hc Hc2 Hout E2.
  apply create_single_policy_numeric in E2
    as (n2 & r & Hint & Hle & Hbelow & _ & Hsn2 & _);
    [|unfold numeric; rewrite Hc2; reflexivity].
  rewrite Hc2 in Hint. injection Hint as <-.
  assert (r = n) as ->.
  { destruct (decide (r = n)) as [|Hne]; [assumption|].
    exfalso. apply Hout, Hbelow. lia. }
  rewrite Hp, Hsn2, Hc. reflexivity.
Qed.

End TextSequenceNumbers.

Lemma text_sequence_number_not_recorded_witness :
  policy_sequence_number
    (optum_policy (H := fraction_repr)
       {[ "policy_display_name" := PStr "web"; "sequence_number" := PStr "5" ]}
       "Infrastructure" "5" [])
    = Some (Scalar (PStr (Py.str (H := fraction_repr)
         (candidate {[ "policy_display_name" := PStr "web";
                       "sequence_number" := PStr "5" ]})))) /\
  ({[ "9" ]} : gset string) = {[ "9" ]} /\
  forall (n : Z) h2 rules2 log2 p2 (ex2 : gset string),
    candidate {[ "policy_display_name" := PStr "web"; "sequence_number" := PStr "5" ]}
      = PStr (pretty n) ->
    candidate h2 = PInt n ->
    (pretty n : string) ∉ ({[ "9" ]} : gset string) ->
    Optum.create_single_policy (H := fraction_repr) h2 rules2 (Some {[ "9" ]})
      = Logged log2 (Ok (p2, ex2)) ->
    policy_sequence_number p2 =
    policy_sequence_number
      (optum_policy (H := fraction_repr)
         {[ "policy_display_name" := PStr "web"; "sequence_number" := PStr "5" ]}
         "Infrastructure" "5" []).
Proof.
  apply (@text_sequence_number_not_recorded fraction_repr
           {[ "policy_display_name" := PStr "web"; "sequence_number" := PStr "5" ]}
           [] {[ "9" ]} {[ "9" ]} []).
  - reflexivity.
  - vm_compute. reflexivity.
Defined.

(** ** When a policy is assembled *)

Lemma bind_Ok_intro {A B} (m : logged A) (k : A -> logged B) l1 a l2 b :
  m = Logged l1 (Ok a) -> k a = Logged l2 (Ok b) ->
  m ≫= k = Logged (l1 ++ l2) (Ok b).
Proof. intros -> E. unfold mbind, logged_bind. cbn. rewrite E. reflexivity. Qed.

Lemma map_logged_succeeds {A B} (f : A -> logged B) l :
  (exists log ys, map_logged f l = Logged log (Ok ys)) <->
  Forall (fun x => exists y, result_of (f x) = Ok y) l.
Proof.
  induction l as [|x l IH]; cbn [map_logged].
  - split; [constructor|]. intros _. exists [], []. reflexivity.
  - split.
    + intros (log & ys & E).
      apply bind_Ok in E as (y & l1 & l2 & Ex & E & ->).
      apply bind_Ok in E as (ys' & l3 & l4 & Eys & _ & _).
      constructor; [exists y; rewrite Ex; reflexivity|].
      apply IH. eauto.
    + intros Hall. apply Forall_cons in Hall as [[y Hy] Hall].
      apply IH in Hall as (log & ys & E).
      destruct (f x) as [lx rx] eqn:Ex. cbn in Hy. subst rx.
      eexists _, _. eapply bind_Ok_intro; [reflexivity|].
      eapply bind_Ok_intro; [exact E|reflexivity].
Qed.

Section Succeeds.
Context `{FloatRepr}.

Lemma policymaker_rule_countable r c :
  (exists rule, result_of (Policymaker.create_rule r c) = Ok rule) <-> countable r.
Proof.
  rewrite policymaker_create_rule. cbn [result_of]. unfold countable.
  destruct (Py.int _) as [n| |]; cbn; split; intros [x Hx]; try discriminate; eauto.
Qed.

Lemma optum_rule_countable r c :
  (exists rule, result_of (Optum.create_rule r c) = Ok rule) <-> countable r.
Proof.
  rewrite optum_create_rule. cbn [result_of]. unfold countable.
  destruct (Py.int _) as [n| |]; cbn; split; intros [x Hx]; try discriminate; eauto.
Qed.

(** X5.  When [create_policy] returns a policy.  In [policymaker.py]:
    exactly when the category is accepted and [int] accepts the
    [sequence_number] cell of every rule row.  In
    [optum_policy_maker.py], whatever the set of used numbers: when,
    besides, the header's own [sequence_number] cell is not NaN (an empty
    cell) or an infinity, which pass the [isinstance] test and which
    [int] refuses. *)
Theorem create_policy_succeeds policy_row rules (existing : gset string) :
  ((exists log doc, Policymaker.create_policy policy_row rules = Logged log (Ok doc))
   <-> (exists category,
          validate_category (get policy_row "category" (PStr "Infrastructure"))
            = Ok category) /\
       Forall countable rules) /\
  ((exists log policy (existing' : gset string),
       Optum.create_policy policy_row rules (Some existing)
         = Logged log (Ok (policy, existing')))
   <-> (exists category,
          validate_category (get policy_row "category" (PStr "Infrastructure"))
            = Ok category) /\
       not_finite (candidate policy_row) = false /\
       Forall countable rules).
Proof.
  split; split.
  - intros (log & doc & E).
    apply policymaker_create_policy_document in E as (c & rs & Hc & Hrs & _).
    split; [eauto|].
    assert (Hall : Forall (fun r => exists rule,
                      result_of (Policymaker.create_rule r c) = Ok rule) rules)
      by (apply map_logged_succeeds; eauto).
    eapply Forall_impl; [exact Hall|]. intros r. apply policymaker_rule_countable.
  - intros [[c Hc] Hall].
    assert (Hrs : exists log rs,
              map_logged (fun r => Policymaker.create_rule r c) rules
                = Logged log (Ok rs)).
    { apply map_logged_succeeds. eapply Forall_impl; [exact Hall|].
      intros r. apply policymaker_rule_countable. }
    destruct Hrs as (log & rs & Hrs).
    unfold Policymaker.create_policy. rewrite Hc, bind_lift_Ok.
    eexists _, _. eapply bind_Ok_intro; [exact Hrs|reflexivity].
  - intros (log & policy & existing' & E).
    apply optum_create_policy_document in E as (c & sn & rs & Hc & Hrs & _ & Hsn).
    split; [eauto|]. split.
    + unfold numeric in Hsn. destruct (candidate policy_row) as [| | |[| |]|];
        try reflexivity; destruct Hsn as (n & r & Hn & _); discriminate.
    + assert (Hall : Forall (fun r => exists rule,
                        result_of (Optum.create_rule r c) = Ok rule) rules)
        by (apply map_logged_succeeds; eauto).
      eapply Forall_impl; [exact Hall|]. intros r. apply optum_rule_countable.
  - intros ([c Hc] & Hfin & Hall).
    assert (Hrs : exists log rs,
              map_logged (fun r => Optum.create_rule r c) rules
                = Logged log (Ok rs)).
    { apply map_logged_succeeds. eapply Forall_impl; [exact Hall|].
      intros r. apply optum_rule_countable. }
    destruct Hrs as (log & rs & Hrs).
    unfold Optum.create_policy. cbn [default]. unfold id.
    rewrite Hc, bind_lift_Ok. unfold candidate in Hfin.
    set (cell := get policy_row "sequence_number" (PInt 0)) in *.
    assert (Hsn : exists sn (ex : gset string),
              (if Py.is_number cell
               then n ← lift (Py.int cell);
                    n ← lift (Optum.next_unused existing n);
                    mret (PInt n, {[ Py.str (PInt n) ]} ∪ existing)
               else mret (cell, existing))
              = Logged [] (Ok (sn, ex))).
    { destruct (Py.is_number cell) eqn:Hnum; [|eauto].
      assert (Hn : exists n, Py.int cell = Ok n).
      { destruct cell as [| | |[| |]|]; try discriminate; cbn; eauto. }
      destruct Hn as [n ->]. rewrite bind_lift_Ok.
      destruct (next_unused_total existing n) as [r ->]. rewrite bind_lift_Ok.
      eauto. }
    destruct Hsn as (sn & ex & ->).
    eexists _, _, _. eapply bind_Ok_intro; [reflexivity|].
    cbn beta iota. eapply bind_Ok_intro; [exact Hrs|reflexivity].
Qed.

End Succeeds.

(** ** What the set of used numbers holds *)

Section Recorded.
Context `{FloatRepr}.

(** One policy: the set gains the sequence number of a numeric header,
    which was not in it, and nothing else. *)
Lemma create_single_policy_recorded h rules (existing existing' : gset string)
    log policy :
  Optum.create_single_policy h rules (Some existing)
    = Logged log (Ok (policy, existing')) ->
  if numeric h then
    exists s : string,
      policy_sequence_number policy = Some (Scalar (PStr s)) /\
      (s ∉ existing) /\ existing' = {[ s ]} ∪ existing
  else existing' = existing.
Proof.
  intros E. destruct (numeric h) eqn:Hnum.
  - apply create_single_policy_numeric in E
      as (n & r & _ & _ & _ & Hout & Hsn & ->); [|exact Hnum].
    exists (pretty r). auto.
  - unfold Optum.create_single_policy in E.
    apply optum_create_policy_Ok in E as (c & rs & body & _ & _ & _ & _ & _ & Hseq).
    rewrite Hnum in Hseq. apply Hseq.
Qed.

(** X6.  The set of used sequence numbers over the loop of [main]: at
    the end it holds what it held at the start and the sequence numbers
    of the policies whose header cell is a number, nothing else; it has
    grown by exactly one element for each such policy. *)
Theorem recorded_sequence_numbers pairs (existing existing' : gset string)
    log policies :
  Optum.main_loop pairs existing = Logged log (Ok (policies, existing')) ->
  size existing' =
    (size existing + length (List.filter (fun h => numeric h.1) pairs))%nat /\
  forall s : string,
    s ∈ existing' <->
    s ∈ existing \/
    exists i h p,
      pairs !! i = Some h /\ policies !! i = Some p /\ numeric h.1 = true /\
      policy_sequence_number p = Some (Scalar (PStr s)).
Proof.
  revert existing log policies.
  induction pairs as [|[h rules] pairs IH]; cbn [Optum.main_loop];
    intros existing log policies E.
  - injection E as <- <- <-. split; [cbn; lia|].
    intros s. split; [auto|]. intros [Hs|(i & h & p & Hh & _)]; [exact Hs|].
    rewrite lookup_nil in Hh. discriminate.
  - apply bind_Ok in E as ([p ex1] & l1 & l2 & Ep & E & ->).
    apply bind_Ok in E as ([ps ex2] & l3 & l4 & Eps & E & ->).
    injection E as <- <- <-.
    apply IH in Eps as [Hsize Hmem].
    apply create_single_policy_recorded in Ep.
    cbn [List.filter fst]. destruct (numeric h) eqn:Hnum.
    + destruct Ep as (s0 & Hs0 & Hout & ->). split.
      * rewrite Hsize, size_union, size_singleton by set_solver. cbn [length]. lia.
      * intros s. rewrite Hmem. split.
        -- intros [Hs|(i & h' & p' & Hh & Hp & Hn & Hsn)].
           ++ apply elem_of_union in Hs as [Hs|Hs]; [|auto].
              apply elem_of_singleton in Hs as ->.
              right. exists 0%nat, (h, rules), p. auto.
           ++ right. exists (S i), h', p'. auto.
        -- intros [Hs|([|i] & h' & p' & Hh & Hp & Hn & Hsn)].
           ++ left. set_solver.
           ++ cbn in Hh, Hp. injection Hh as <-. injection Hp as <-.
              rewrite Hs0 in Hsn. injection Hsn as <-. left. set_solver.
           ++ right. exists i, h', p'. auto.
    + subst ex1. split; [rewrite Hsize; lia|].
      intros s. rewrite Hmem. split.
      * intros [Hs|(i & h' & p' & Hh & Hp & Hn & Hsn)]; [auto|].
        right. exists (S i), h', p'. auto.
      * intros [Hs|([|i] & h' & p' & Hh & Hp & Hn & Hsn)]; [auto| |].
        -- cbn in Hh. injection Hh as <-. cbn in Hn. congruence.
        -- right. exists i, h', p'. auto.
Qed.

End Recorded.

Lemma recorded_sequence_numbers_witness :
  size ({[ "5"; "6" ]} : gset string) =
    (size (∅ : gset string) +
     length (List.filter (fun h : row * list row => numeric h.1)
       [({[ "policy_display_name" := PStr "web"; "sequence_number" := PInt 5 ]}, []);
        ({[ "policy_display_name" := PStr "db"; "sequence_number" := PStr "7" ]}, []);
        ({[ "policy_display_name" := PStr "app"; "sequence_number" := PInt 5 ]}, [])]))%nat /\
  forall s : string,
    s ∈ ({[ "5"; "6" ]} : gset string) <->
    s ∈ (∅ : gset string) \/
    exists i h p,
      ([({[ "policy_display_name" := PStr "web"; "sequence_number" := PInt 5 ]}, []);
        ({[ "policy_display_name" := PStr "db"; "sequence_number" := PStr "7" ]}, []);
        ({[ "policy_display_name" := PStr "app"; "sequence_number" := PInt 5 ]}, [])]
         : list (row * list row)) !! i = Some h /\
      [optum_policy (H := fraction_repr)
         {[ "policy_display_name" := PStr "web"; "sequence_number" := PInt 5 ]}
         "Infrastructure" "5" [];
       optum_policy (H := fraction_repr)
         {[ "policy_display_name" := PStr "db"; "sequence_number" := PStr "7" ]}
         "Infrastructure" "7" [];
       optum_policy (H := fraction_repr)
         {[ "policy_display_name" := PStr "app"; "sequence_number" := PInt 5 ]}
         "Infrastructure" "6" []] !! i = Some p /\
      numeric h.1 = true /\
      policy_sequence_number p = Some (Scalar (PStr s)).
Proof.
  apply (@recorded_sequence_numbers fraction_repr _ ∅ {[ "5"; "6" ]} []).
  vm_compute. reflexivity.
Defined.

(** ** The shape of a rule *)

Section RuleShape.
Context `{FloatRepr}.

(** X7.  Every rule [create_rule] returns has the same sixteen fields,
    each once, in the order of the script that built it.  Of these
    [description], [log_label] and [notes] are always the empty string,
    the four flags are booleans, the four lists are lists of text,
    [sequence_number] is an integer and [display_name] is text;
    [action], [direction] and [ip_version] are the cells as they stand,
    with [ALLOW], [IN_OUT] and [IPV4_IPV6] where the column is missing. *)
Theorem rule_shape rule_row category rule keys :
  (result_of (Policymaker.create_rule rule_row category) = Ok rule /\
   keys = ["action"; "description"; "destination_groups"; "destinations_excluded";
           "direction"; "disabled"; "display_name"; "ip_version"; "log_label";
           "logged"; "notes"; "sequence_number"; "services"; "source_groups";
           "sources_excluded"; "scope"]) \/
  (result_of (Optum.create_rule rule_row category) = Ok rule /\
   keys = ["display_name"; "action"; "sequence_number"; "description";
           "source_groups"; "sources_excluded"; "destination_groups";
           "destinations_excluded"; "services"; "scope"; "disabled"; "logged";
           "direction"; "ip_version"; "log_label"; "notes"]) ->
  map fst rule = keys /\
  NoDup keys /\
  (forall k, k ∈ ["description"; "log_label"; "notes"] ->
             dict_get rule k = Some (Scalar (PStr ""))) /\
  (forall k, k ∈ ["disabled"; "logged"; "sources_excluded"; "destinations_excluded"] ->
             exists b, dict_get rule k = Some (Scalar (PBool b))) /\
  (forall k, k ∈ ["source_groups"; "destination_groups"; "services"; "scope"] ->
             exists l, dict_get rule k = Some (str_list l)) /\
  (exists n, dict_get rule "sequence_number" = Some (Scalar (PInt n))) /\
  (exists s, dict_get rule "display_name" = Some (Scalar (PStr s))) /\
  dict_get rule "action" = Some (Scalar (get rule_row "action" (PStr "ALLOW"))) /\
  dict_get rule "direction" = Some (Scalar (get rule_row "direction" (PStr "IN_OUT"))) /\
  dict_get rule "ip_version"
    = Some (Scalar (get rule_row "ip_version" (PStr "IPV4_IPV6"))).
Proof.
  intros [[E ->]|[E ->]].
  - apply policymaker_create_rule_Ok in E as (n & _ & ->).
    split; [reflexivity|].
    split; [apply (bool_decide_unpack _); vm_compute; exact I|].
    repeat split; eauto.
    + intros k Hk. repeat (apply elem_of_cons in Hk as [->|Hk]; [reflexivity|]).
      apply elem_of_nil in Hk as [].
    + intros k Hk. unfold flag.
      repeat (apply elem_of_cons in Hk as [->|Hk]; [eexists; reflexivity|]).
      apply elem_of_nil in Hk as [].
    + intros k Hk.
      repeat (apply elem_of_cons in Hk as [->|Hk]; [eexists; reflexivity|]).
      apply elem_of_nil in Hk as [].
  - apply optum_create_rule_Ok in E as (n & _ & ->).
    split; [reflexivity|].
    split; [apply (bool_decide_unpack _); vm_compute; exact I|].
    repeat split; eauto.
    + intros k Hk. repeat (apply elem_of_cons in Hk as [->|Hk]; [reflexivity|]).
      apply elem_of_nil in Hk as [].
    + intros k Hk. unfold flag.
      repeat (apply elem_of_cons in Hk as [->|Hk]; [eexists; reflexivity|]).
      apply elem_of_nil in Hk as [].
    + intros k Hk.
      repeat (apply elem_of_cons in Hk as [->|Hk]; [eexists; reflexivity|]).
      apply elem_of_nil in Hk as [].
Qed.

End RuleShape.

Lemma rule_shape_witness :
  map fst (optum_rule (H := fraction_repr)
             {[ "rule_display_name" := PStr "r1"; "logged" := PStr "true" ]}
             "Environment" 0)
    = ["display_name"; "action"; "sequence_number"; "description";
       "source_groups"; "sources_excluded"; "destination_groups";
       "destinations_excluded"; "services"; "scope"; "disabled"; "logged";
       "direction"; "ip_version"; "log_label"; "notes"] /\
  NoDup ["display_name"; "action"; "sequence_number"; "description";
         "source_groups"; "sources_excluded"; "destination_groups";
         "destinations_excluded"; "services"; "scope"; "disabled"; "logged";
         "direction"; "ip_version"; "log_label"; "notes"] /\
  (forall k, k ∈ ["description"; "log_label"; "notes"] ->
     dict_get (optum_rule (H := fraction_repr)
                 {[ "rule_display_name" := PStr "r1"; "logged" := PStr "true" ]}
                 "Environment" 0) k = Some (Scalar (PStr ""))) /\
  (forall k, k ∈ ["disabled"; "logged"; "sources_excluded"; "destinations_excluded"] ->
     exists b,
       dict_get (optum_rule (H := fraction_repr)
                   {[ "rule_display_name" := PStr "r1"; "logged" := PStr "true" ]}
                   "Environment" 0) k = Some (Scalar (PBool b))) /\
  (forall k, k ∈ ["source_groups"; "destination_groups"; "services"; "scope"] ->
     exists l,
       dict_get (optum_rule (H := fraction_repr)
                   {[ "rule_display_name" := PStr "r1"; "logged" := PStr "true" ]}
                   "Environment" 0) k = Some (str_list l)) /\
  (exists n,
     dict_get (optum_rule (H := fraction_repr)
                 {[ "rule_display_name" := PStr "r1"; "logged" := PStr "true" ]}
                 "Environment" 0) "sequence_number" = Some (Scalar (PInt n))) /\
  (exists s,
     dict_get (optum_rule (H := fraction_repr)
                 {[ "rule_display_name" := PStr "r1"; "logged" := PStr "true" ]}
                 "Environment" 0) "display_name" = Some (Scalar (PStr s))) /\
  dict_get (optum_rule (H := fraction_repr)
              {[ "rule_display_name" := PStr "r1"; "logged" := PStr "true" ]}
              "Environment" 0) "action"
    = Some (Scalar (get {[ "rule_display_name" := PStr "r1"; "logged" := PStr "true" ]}
                      "action" (PStr "ALLOW"))) /\
  dict_get (optum_rule (H := fraction_repr)
              {[ "rule_display_name" := PStr "r1"; "logged" := PStr "true" ]}
              "Environment" 0) "direction"
    = Some (Scalar (get {[ "rule_display_name" := PStr "r1"; "logged" := PStr "true" ]}
                      "direction" (PStr "IN_OUT"))) /\
  dict_get (optum_rule (H := fraction_repr)
              {[ "rule_display_name" := PStr "r1"; "logged" := PStr "true" ]}
              "Environment" 0) "ip_version"
    = Some (Scalar (get {[ "rule_display_name" := PStr "r1"; "logged" := PStr "true" ]}
                      "ip_version" (PStr "IPV4_IPV6"))).
Proof.
  apply (@rule_shape fraction_repr
           {[ "rule_display_name" := PStr "r1"; "logged" := PStr "true" ]}
           "Environment").
  right. split; [vm_compute; reflexivity|reflexivity].
Defined.

(** ** The two policy makers, side by side *)

Lemma group_refs_agree category v :
  category = "Infrastructure" \/ category = "Environment" ->
  group_refs Policymaker.construct_variable_reference category v =
  group_refs Optum.construct_variable_reference category v.
Proof.
  intros Hc. unfold group_refs. destruct v as [| | | |s]; try reflexivity.
  destruct (_ || _); [reflexivity|]. apply map_ext. intros g.
  destruct Hc as [->| ->]; reflexivity.
Qed.

Section SideBySide.
Context `{FloatRepr}.

(** X8.  For a policy of category Infrastructure or Environment the two
    policy makers make the same rule of a row, up to the order of the
    fields, but for two of them: [display_name], which they read from
    different columns, and [services], which they resolve differently. *)
Theorem variants_agree rule_row category rule_p rule_o :
  category = "Infrastructure" \/ category = "Environment" ->
  result_of (Policymaker.create_rule rule_row category) = Ok rule_p ->
  result_of (Optum.create_rule rule_row category) = Ok rule_o ->
  forall k, k ≠ "display_name" -> k ≠ "services" ->
            dict_get rule_p k = dict_get rule_o k.
Proof.
  intros Hc Ep Eo k Hname Hservices.
  apply policymaker_create_rule_Ok in Ep as (n & Hn & ->).
  apply optum_create_rule_Ok in Eo as (n' & Hn' & ->).
  rewrite Hn in Hn'. injection Hn' as <-.
  unfold policymaker_rule, optum_rule. rewrite !(group_refs_agree _ _ Hc).
  cbn [dict_get].
  repeat match goal with
         | |- context [String.eqb ?key k] =>
             destruct (String.eqb key k) eqn:?;
             [match goal with
              | E : String.eqb _ k = true |- _ =>
                  apply String.eqb_eq in E; subst k;
                  first [reflexivity | contradiction]
              end|]
         end.
  reflexivity.
Qed.

End SideBySide.

Lemma variants_agree_witness :
  dict_get (policymaker_rule (H := fraction_repr)
              {[ "source_groups" := PStr "web, db"; "logged" := PStr "TRUE" ]}
              "Environment" 0) "source_groups"
  = dict_get (optum_rule (H := fraction_repr)
                {[ "source_groups" := PStr "web, db"; "logged" := PStr "TRUE" ]}
                "Environment" 0) "source_groups".
Proof.
  apply (@variants_agree fraction_repr
           {[ "source_groups" := PStr "web, db"; "logged" := PStr "TRUE" ]}
           "Environment").
  - right. reflexivity.
  - vm_compute. reflexivity.
  - vm_compute. reflexivity.
  - discriminate.
  - discriminate.
Defined.

(** ** Policies gathered in one document *)

Lemma dict_set_keys d key v k :
  k ∈ map fst (dict_set d key v) <-> k ∈ map fst d \/ k = key.
Proof.
  induction d as [|[k' w] d IH]; cbn [dict_set map fst].
  - rewrite elem_of_cons, elem_of_nil. tauto.
  - destruct (String.eqb k' key) eqn:Hk; cbn [map fst].
    + apply String.eqb_eq in Hk as ->. rewrite !elem_of_cons. tauto.
    + rewrite !elem_of_cons, IH. tauto.
Qed.

Lemma dict_set_NoDup d key v :
  NoDup (map fst d) -> NoDup (map fst (dict_set d key v)).
Proof.
  induction d as [|[k' w] d IH]; cbn [dict_set map fst]; intros Hd.
  - apply NoDup_singleton.
  - destruct (String.eqb k' key) eqn:Hk; cbn [map fst]; [exact Hd|].
    apply NoDup_cons in Hd as [Hout Hd]. apply NoDup_cons. split; [|auto].
    rewrite dict_set_keys. intros [Hin| ->]; [contradiction|].
    rewrite String.eqb_refl in Hk. discriminate.
Qed.

Section Combined.
Context `{FloatRepr}.

Lemma combined_loop_Ok pairs acc log policies :
  Optum.combined_loop pairs acc = Logged log (Ok policies) ->
  (NoDup (map fst acc) -> NoDup (map fst policies)) /\
  (forall k, k ∈ map fst policies <->
             k ∈ map fst acc \/
             exists h, h ∈ pairs /\ k = Py.str (optum_name h.1)) /\
  (forall k, (forall h, h ∈ pairs -> Py.str (optum_name h.1) ≠ k) ->
             dict_get policies k = dict_get acc k) /\
  (forall i h,
      pairs !! i = Some h ->
      (forall j h', (i < j)%nat -> pairs !! j = Some h' ->
                    Py.str (optum_name h'.1) ≠ Py.str (optum_name h.1)) ->
      exists log' (existing' : gset string) body,
        Optum.create_policy h.1 h.2 None
          = Logged log'
              (Ok (PyDict [("nsxt_policy_security_policy",
                            PyDict [(Py.str (optum_name h.1), PyDict body)])],
                   existing')) /\
        dict_get policies (Py.str (optum_name h.1)) = Some (PyDict body)).
Proof.
  revert acc log policies.
  induction pairs as [|[h rules] pairs IH]; cbn [Optum.combined_loop];
    intros acc log policies E.
  - injection E as <- <-. split; [auto|]. split; [|split].
    + intros k. split; [auto|]. intros [Hk|(h & Hh & _)]; [exact Hk|].
      apply elem_of_nil in Hh as [].
    + reflexivity.
    + intros i h Hh. rewrite lookup_nil in Hh. discriminate.
  - apply bind_Ok in E as ([policy ex] & l1 & l2 & Ep & E & ->).
    pose proof Ep as Ep'.
    apply (optum_create_policy_document h rules ∅) in Ep'
      as (c & sn & rs & _ & _ & -> & _).
    unfold optum_policy in E, Ep. cbn [dict_get String.eqb Ascii.eqb Bool.eqb] in E.
    unfold dict_update in E. cbn [fold_left fst snd] in E.
    apply IH in E as (Hnd & Hkeys & Hget & Hentry).
    split; [|split; [|split]].
    + intros Hacc. apply Hnd, dict_set_NoDup, Hacc.
    + intros k. rewrite Hkeys, dict_set_keys. split.
      * intros [[Hk| ->]|(h' & Hh' & ->)]; [auto| |].
        -- right. exists (h, rules). split; [left|reflexivity].
        -- right. exists h'. split; [right; exact Hh'|reflexivity].
      * intros [Hk|(h' & Hh' & ->)]; [auto|].
        apply elem_of_cons in Hh' as [->|Hh']; [auto|].
        right. exists h'. auto.
    + intros k Hk. rewrite Hget.
      * rewrite dict_get_set.
        destruct (String.eqb _ k) eqn:Ek; [|reflexivity].
        apply String.eqb_eq in Ek. exfalso.
        apply (Hk (h, rules)); [left|exact Ek].
      * intros h' Hh'. apply Hk. right. exact Hh'.
    + intros [|i] h' Hh' Hlater; cbn in Hh'.
      * injection Hh' as <-. cbn [fst snd]. eexists _, _, _.
        split; [exact Ep|]. rewrite Hget.
        -- rewrite dict_get_set, String.eqb_refl. reflexivity.
        -- intros h' Hh'. apply list_elem_of_lookup in Hh' as [j Hj].
           apply (Hlater (S j) h'); [lia|exact Hj].
      * apply (Hentry i h' Hh'). intros j h'' Hij Hj.
        apply (Hlater (S j) h''); [lia|exact Hj].
Qed.

End Combined.

Section CombinedTheorem.
Context `{FloatRepr}.

(** X9.  [create_combined_policies] gathers the policies of all sheets
    under their names, a name once: a policy stands under the name of
    every sheet, and the last sheet of a name is the one that stays.
    What stays is the policy [create_policy] makes of that sheet on its
    own, with no set of used numbers behind it: a header whose cell is a
    number carries that number, whatever the other sheets carry.  Here
    sequence numbers are not made distinct. *)
Theorem combined_policies pairs log doc :
  Optum.create_combined_policies pairs = Logged log (Ok doc) ->
  exists policies,
    doc = PyDict [("resource", PyList [PyDict
            [("nsxt_policy_security_policy", PyDict policies)]])] /\
    NoDup (map fst policies) /\
    (forall k, k ∈ map fst policies <->
               exists h, h ∈ pairs /\ k = Py.str (optum_name h.1)) /\
    forall i h,
      pairs !! i = Some h ->
      (forall j h', (i < j)%nat -> pairs !! j = Some h' ->
                    Py.str (optum_name h'.1) ≠ Py.str (optum_name h.1)) ->
      exists log' (existing' : gset string) body,
        Optum.create_policy h.1 h.2 None
          = Logged log'
              (Ok (PyDict [("nsxt_policy_security_policy",
                            PyDict [(Py.str (optum_name h.1), PyDict body)])],
                   existing')) /\
        dict_get policies (Py.str (optum_name h.1)) = Some (PyDict body) /\
        (numeric h.1 = true ->
         exists n, Py.int (candidate h.1) = Ok n /\
                   dict_get body "sequence_number"
                     = Some (Scalar (PStr (pretty n)))).
Proof.
  unfold Optum.create_combined_policies. intros E.
  apply bind_Ok in E as (policies & l1 & l2 & Eloop & E & ->).
  injection E as <- <-. exists policies.
  apply combined_loop_Ok in Eloop as (Hnd & Hkeys & _ & Hentry).
  split; [reflexivity|]. split; [apply Hnd, NoDup_nil_2|]. split.
  - intros k. rewrite Hkeys. cbn [map]. rewrite elem_of_nil. tauto.
  - intros i h Hh Hlater.
    destruct (Hentry i h Hh Hlater) as (log' & ex' & body & Ep & Hget).
    exists log', ex', body. split; [exact Ep|]. split; [exact Hget|].
    intros Hnum.
    apply (optum_create_policy_Ok h.1 h.2 ∅) in Ep
      as (c & rs & body' & _ & _ & Hbody & _ & _ & Hseq).
    cbn in Hbody. injection Hbody as <-.
    rewrite Hnum in Hseq. destruct Hseq as (n & r & Hn & Hr & Hsn & _).
    exists n. split; [exact Hn|].
    apply next_unused_Ok in Hr as (Hle & _ & Hbelow).
    assert (r = n) as ->; [|exact Hsn].
    destruct (decide (r = n)) as [|Hne]; [assumption|].
    exfalso. apply (not_elem_of_empty (C := gset string) (pretty n)).
    apply Hbelow. lia.
Qed.

End CombinedTheorem.

Lemma combined_policies_witness :
  exists policies,
    PyDict [("resource", PyList [PyDict
      [("nsxt_policy_security_policy", PyDict
         [("web", PyDict
            [("nsx_id", Scalar (PStr ""));
             ("display_name", Scalar (PStr "web"));
             ("category", Scalar (PStr "Application"));
             ("comments", Scalar (PStr ""));
             ("description", Scalar (PStr ""));
             ("domain", Scalar (PStr "default"));
             ("locked", Scalar (PBool false));
             ("sequence_number", Scalar (PStr "5"));
             ("rule", PyList [])]);
          ("db", PyDict
            [("nsx_id", Scalar (PStr ""));
             ("display_name", Scalar (PStr "db"));
             ("category", Scalar (PStr "Application"));
             ("comments", Scalar (PStr ""));
             ("description", Scalar (PStr ""));
             ("domain", Scalar (PStr "default"));
             ("locked", Scalar (PBool false));
             ("sequence_number", Scalar (PStr "5"));
             ("rule", PyList [])])])]])]
    = PyDict [("resource", PyList [PyDict
        [("nsxt_policy_security_policy", PyDict policies)]])] /\
    NoDup (map fst policies) /\
    (forall k, k ∈ map fst policies <->
       exists h : row * list row,
         h ∈ [({[ "policy_display_name" := PStr "web";
                  "category" := PStr "application";
                  "sequence_number" := PInt 5 ]}, []);
              ({[ "policy_display_name" := PStr "db";
                  "category" := PStr "application";
                  "sequence_number" := PInt 5 ]}, [])] /\
         k = Py.str (H := fraction_repr) (optum_name h.1)) /\
    forall i (h : row * list row),
      [({[ "policy_display_name" := PStr "web"; "category" := PStr "application";
           "sequence_number" := PInt 5 ]}, []);
       ({[ "policy_display_name" := PStr "db"; "category" := PStr "application";
           "sequence_number" := PInt 5 ]}, [])] !! i = Some h ->
      (forall j (h' : row * list row), (i < j)%nat ->
         [({[ "policy_display_name" := PStr "web"; "category" := PStr "application";
              "sequence_number" := PInt 5 ]}, []);
          ({[ "policy_display_name" := PStr "db"; "category" := PStr "application";
              "sequence_number" := PInt 5 ]}, [])] !! j = Some h' ->
         Py.str (H := fraction_repr) (optum_name h'.1)
           ≠ Py.str (H := fraction_repr) (optum_name h.1)) ->
      exists log' (existing' : gset string) body,
        Optum.create_policy (H := fraction_repr) h.1 h.2 None
          = Logged log'
              (Ok (PyDict [("nsxt_policy_security_policy",
                            PyDict [(Py.str (H := fraction_repr) (optum_name h.1),
                                     PyDict body)])],
                   existing')) /\
        dict_get policies (Py.str (H := fraction_repr) (optum_name h.1))
          = Some (PyDict body) /\
        (numeric h.1 = true ->
         exists n, Py.int (candidate h.1) = Ok n /\
                   dict_get body "sequence_number"
                     = Some (Scalar (PStr (pretty n)))).
Proof.
  apply (@combined_policies fraction_repr
           [({[ "policy_display_name" := PStr "web"; "category" := PStr "application";
                "sequence_number" := PInt 5 ]}, []);
            ({[ "policy_display_name" := PStr "db"; "category" := PStr "application";
                "sequence_number" := PInt 5 ]}, [])] []).
  vm_compute. reflexivity.
Defined.

(** ** The question before a file is overwritten *)

Lemma response_yes line :
  existsb (String.eqb (PyStr.lower (PyStr.strip line))) ["yes"; "y"; ""]
  = says_yes line.
Proof.
  unfold says_yes, says. rewrite !equal_ignoring_case_lower.
  cbn [existsb]. rewrite orb_false_r, orb_assoc. reflexivity.
Qed.

Lemma response_no line :
  existsb (String.eqb (PyStr.lower (PyStr.strip line))) ["no"; "n"]
  = says_no line.
Proof.
  unfold says_no, says. rewrite !equal_ignoring_case_lower.
  cbn [existsb]. rewrite orb_false_r. reflexivity.
Qed.

Lemma confirm_loop_answer filepath before line after shown :
  Forall (fun l => says_yes l = false /\ says_no l = false) before ->
  says_yes line || says_no line = true ->
  confirm_loop filepath (before ++ line :: after) shown =
  (Some (says_yes line),
   Console after (shown ++ asked_again filepath before
                  ++ [overwrite_prompt filepath])%list).
Proof.
  intros Hbefore Hline. revert shown.
  induction Hbefore as [|l before [Hy Hn] _ IH]; intros shown;
    cbn [app confirm_loop]; rewrite response_yes, response_no.
  - destruct (says_yes line); [reflexivity|].
    cbn in Hline. rewrite Hline. reflexivity.
  - rewrite Hy, Hn, IH. unfold asked_again. cbn [flat_map app].
    rewrite <- !app_assoc. reflexivity.
Qed.

Lemma confirm_loop_no_answer filepath lines shown :
  Forall (fun l => says_yes l = false /\ says_no l = false) lines ->
  confirm_loop filepath lines shown =
  (None, Console [] (shown ++ asked_again filepath lines
                     ++ [overwrite_prompt filepath])%list).
Proof.
  intros Hlines. revert shown.
  induction Hlines as [|l lines [Hy Hn] _ IH]; intros shown;
    cbn [confirm_loop]; [reflexivity|].
  rewrite response_yes, response_no, Hy, Hn, IH.
  unfold asked_again. cbn [flat_map app]. rewrite <- !app_assoc. reflexivity.
Qed.

(** X10.  [check_and_confirm_overwrite], the same in both policy
    makers.  For a file that does not exist it answers yes, reads
    nothing and prints nothing.  For one that exists, the answer is that
    of the first line typed that says yes or no, trimmed and whatever
    the case: yes for [yes], [y] and for the Enter key alone, no for
    [no] and [n].  The lines before it are read and dropped, each asked
    for again; the lines after it are left unread.  When no line typed
    says either, all are read and [input] ends in [EOFError]. *)
Theorem confirm_overwrite filepath c :
  check_and_confirm_overwrite false filepath c = (Some true, c) /\
  (forall before line after,
      typed c = (before ++ line :: after)%list ->
      Forall (fun l => says_yes l = false /\ says_no l = false) before ->
      says_yes line || says_no line = true ->
      check_and_confirm_overwrite true filepath c =
      (Some (says_yes line),
       Console after (printed c ++ asked_again filepath before
                      ++ [overwrite_prompt filepath])%list)) /\
  (Forall (fun l => says_yes l = false /\ says_no l = false) (typed c) ->
   check_and_confirm_overwrite true filepath c =
   (None, Console [] (printed c ++ asked_again filepath (typed c)
                      ++ [overwrite_prompt filepath])%list)).
Proof.
  split; [reflexivity|]. split.
  - intros before line after Ht Hbefore Hline.
    unfold check_and_confirm_overwrite. rewrite Ht.
    apply confirm_loop_answer; assumption.
  - intros Hlines. apply confirm_loop_no_answer, Hlines.
Qed.

Lemma confirm_overwrite_witness :
  check_and_confirm_overwrite true "output/web.tf.json"
    (Console ["maybe"; "  "; "no"] []) =
  (Some (says_yes "  "),
   Console ["no"]
     ([] ++ asked_again "output/web.tf.json" ["maybe"]
      ++ [overwrite_prompt "output/web.tf.json"])%list).
Proof.
  apply (proj1 (proj2 (confirm_overwrite "output/web.tf.json"
                         (Console ["maybe"; "  "; "no"] [])))
           ["maybe"] "  " ["no"]).
  - reflexivity.
  - repeat constructor.
  - reflexivity.
Defined.

(** ** What [json.dumps] writes *)

Lemma json_escape_char_printable c :
  forallb printable (list_ascii_of_string (Ipset.json_escape_char c)) = true.
Proof. destruct c as [[] [] [] [] [] [] [] []]; vm_compute; reflexivity. Qed.

Lemma printable_app s t :
  forallb printable (list_ascii_of_string (s ++ t)) =
  forallb printable (list_ascii_of_string s)
  && forallb printable (list_ascii_of_string t).
Proof.
  induction s as [|c s IH]; [reflexivity|].
  change (String c s ++ t) with (String c (s ++ t)).
  cbn [list_ascii_of_string forallb]. rewrite IH, andb_assoc. reflexivity.
Qed.

Lemma json_escape_printable s :
  forallb printable (list_ascii_of_string (Ipset.json_escape s)) = true.
Proof.
  induction s as [|c s IH]; [reflexivity|].
  cbn [Ipset.json_escape]. rewrite printable_app, json_escape_char_printable, IH.
  reflexivity.
Qed.

Lemma json_dumps_str_printable s :
  forallb printable (list_ascii_of_string (Ipset.json_dumps_str s)) = true.
Proof.
  unfold Ipset.json_dumps_str. rewrite !printable_app, json_escape_printable.
  reflexivity.
Qed.

(** X11.  Whatever the addresses hold, what [json.dumps] writes for
    them is printable ASCII, from the space to the tilde: every other
    character, a line break included, is written as an escape, so the
    list stays on its line of the file. *)
Theorem json_dumps_printable ip_addresses :
  forallb printable (list_ascii_of_string (Ipset.json_dumps ip_addresses)) = true.
Proof.
  unfold Ipset.json_dumps. rewrite !printable_app.
  change (forallb printable (list_ascii_of_string "[")) with true.
  change (forallb printable (list_ascii_of_string "]")) with true.
  rewrite andb_true_r. cbn [andb].
  induction ip_addresses as [|x l IH]; [reflexivity|].
  cbn [map PyStr.join]. destruct (map Ipset.json_dumps_str l) as [|y r] eqn:El.
  - apply json_dumps_str_printable.
  - rewrite !printable_app, json_dumps_str_printable, IH. reflexivity.
Qed.

(** ** Addresses, once cleaned *)

Lemma split_no_sep sep s :
  Forall (fun e => count_char sep e = 0%nat) (PyStr.split sep s).
Proof.
  induction s as [|a s IH]; cbn [PyStr.split].
  - repeat constructor.
  - destruct (Ascii.eqb a sep) eqn:Ea.
    + constructor; [reflexivity|exact IH].
    + destruct (PyStr.split sep s) as [|h t]; cbn [count_char].
      * repeat constructor. cbn [count_char]. rewrite Ea. reflexivity.
      * apply Forall_cons in IH as [Hh Ht].
        constructor; [|exact Ht]. cbn [count_char]. rewrite Ea, Hh. reflexivity.
Qed.

Lemma split_one sep x :
  count_char sep x = 0%nat -> PyStr.split sep x = [x].
Proof.
  induction x as [|a x IH]; [reflexivity|]. cbn [count_char PyStr.split].
  destruct (Ascii.eqb a sep); [discriminate|]. cbn [Nat.add]. intros Hx.
  rewrite (IH Hx). reflexivity.
Qed.

Lemma split_more sep x rest :
  count_char sep x = 0%nat ->
  PyStr.split sep (x ++ String sep rest) = x :: PyStr.split sep rest.
Proof.
  induction x as [|a x IH].
  - intros _. change ("" ++ String sep rest) with (String sep rest).
    cbn [PyStr.split]. rewrite Ascii.eqb_refl. reflexivity.
  - cbn [count_char]. change (String a x ++ String sep rest)
      with (String a (x ++ String sep rest)). cbn [PyStr.split].
    destruct (Ascii.eqb a sep); [discriminate|]. cbn [Nat.add]. intros Hx.
    rewrite (IH Hx). reflexivity.
Qed.

Lemma split_join sep l :
  l ≠ [] -> Forall (fun e => count_char sep e = 0%nat) l ->
  PyStr.split sep (PyStr.join (String sep EmptyString) l) = l.
Proof.
  induction l as [|x l IH]; [congruence|]. intros _ Hl.
  apply Forall_cons in Hl as [Hx Hl]. destruct l as [|y l].
  - cbn [PyStr.join]. apply split_one, Hx.
  - change (PyStr.join (String sep "") (x :: y :: l))
      with (x ++ String sep "" ++ PyStr.join (String sep "") (y :: l)).
    change (String sep "" ++ ?r) with (String sep r).
    rewrite (split_more _ _ _ Hx), IH by (congruence || assumption). reflexivity.
Qed.

Lemma lstrip_count sp c s :
  count_char c s = 0%nat -> count_char c (PyStr.lstrip_with sp s) = 0%nat.
Proof.
  induction s as [|a s IH]; [reflexivity|]. cbn [PyStr.lstrip_with].
  destruct (sp a); [|auto]. cbn [count_char]. intros Hs. apply IH. lia.
Qed.

Lemma rstrip_count sp c s :
  count_char c s = 0%nat -> count_char c (PyStr.rstrip_with sp s) = 0%nat.
Proof.
  induction s as [|a s IH]; [reflexivity|]. cbn [PyStr.rstrip_with count_char].
  intros Hs. assert (Ha : (if Ascii.eqb a c then 1%nat else 0%nat) = 0%nat) by lia.
  assert (Hr : count_char c (PyStr.rstrip_with sp s) = 0%nat) by (apply IH; lia).
  destruct (PyStr.rstrip_with sp s) as [|b r].
  - destruct (sp a); [reflexivity|]. cbn [count_char]. lia.
  - cbn [count_char] in *. lia.
Qed.

Lemma rstrip_rstrip sp s :
  PyStr.rstrip_with sp (PyStr.rstrip_with sp s) = PyStr.rstrip_with sp s.
Proof.
  induction s as [|a s IH]; [reflexivity|]. cbn [PyStr.rstrip_with].
  destruct (PyStr.rstrip_with sp s) as [|b r] eqn:Er.
  - destruct (sp a) eqn:Ea; [reflexivity|].
    cbn [PyStr.rstrip_with]. rewrite Ea. reflexivity.
  - cbn [PyStr.rstrip_with] in *. rewrite IH. reflexivity.
Qed.

(** What is left of [lstrip] does not start with a blank, and [rstrip]
    keeps the start. *)
Lemma lstrip_rstrip sp s :
  PyStr.lstrip_with sp (PyStr.rstrip_with sp (PyStr.lstrip_with sp s))
  = PyStr.rstrip_with sp (PyStr.lstrip_with sp s).
Proof.
  induction s as [|a s IH]; [reflexivity|]. cbn [PyStr.lstrip_with].
  destruct (sp a) eqn:Ea; [exact IH|]. cbn [PyStr.rstrip_with].
  destruct (PyStr.rstrip_with sp s); rewrite ?Ea; cbn [PyStr.lstrip_with];
    rewrite Ea; reflexivity.
Qed.

Lemma strip_strip s : PyStr.strip (PyStr.strip s) = PyStr.strip s.
Proof.
  unfold PyStr.strip, PyStr.strip_with. rewrite lstrip_rstrip.
  apply rstrip_rstrip.
Qed.

Lemma strip_count c s :
  count_char c s = 0%nat -> count_char c (PyStr.strip s) = 0%nat.
Proof.
  intros Hs. unfold PyStr.strip, PyStr.strip_with.
  apply rstrip_count, lstrip_count, Hs.
Qed.

(** X12.  The addresses [clean_ip_addresses] returns are in normal form:
    none is empty, none has a blank at either end or a comma in it.
    Written back with commas between them and cleaned again they are
    the same addresses. *)
Theorem clean_ip_addresses_normal csv ips :
  Ipset.clean_ip_addresses csv = Ok ips ->
  Forall (fun ip => ip ≠ "" /\ PyStr.strip ip = ip /\ count_char "," ip = 0%nat) ips /\
  Ipset.clean_ip_addresses (PStr (PyStr.join "," ips)) = Ok ips.
Proof.
  intros E.
  assert (Hnormal : Forall (fun ip => ip ≠ "" /\ PyStr.strip ip = ip /\
                                      count_char "," ip = 0%nat) ips).
  { unfold Ipset.clean_ip_addresses in E.
    destruct (Py.isna csv); [injection E as <-; constructor|].
    destruct csv as [| | | |s]; try discriminate. injection E as <-.
    apply Forall_forall. intros ip Hip.
    apply list_elem_of_filter in Hip as [Hne Hip].
    apply list_elem_of_fmap in Hip as (e & -> & He).
    split; [exact Hne|]. split; [apply strip_strip|].
    apply strip_count.
    pose proof (split_no_sep "," s) as Hall.
    rewrite Forall_forall in Hall. apply Hall, He. }
  split; [exact Hnormal|].
  unfold Ipset.clean_ip_addresses. cbn [Py.isna]. f_equal.
  destruct ips as [|ip ips]; [reflexivity|].
  change "," with (String ","%char EmptyString) at 1.
  rewrite split_join.
  - clear E. induction Hnormal as [|x l (Hne & Hstrip & _) _ IH]; [reflexivity|].
    cbn [map]. rewrite Hstrip, filter_cons_True by exact Hne.
    f_equal. exact IH.
  - discriminate.
  - eapply Forall_impl; [exact Hnormal|]. intros x (_ & _ & Hx). exact Hx.
Qed.

Lemma clean_ip_addresses_normal_witness :
  Forall (fun ip => ip ≠ "" /\ PyStr.strip ip = ip /\ count_char "," ip = 0%nat)
         ["10.0.0.1"; "10.0.0.2"] /\
  Ipset.clean_ip_addresses (PStr (PyStr.join "," ["10.0.0.1"; "10.0.0.2"]))
    = Ok ["10.0.0.1"; "10.0.0.2"].
Proof.
  apply (clean_ip_addresses_normal (PStr " 10.0.0.1 ,, 10.0.0.2,")).
  reflexivity.
Defined.

(** ** A group named in several rows *)

Lemma eqb_text k g : Py.eqb k (PStr g) = true -> k = PStr g.
Proof.
  destruct k as [| | | |s]; try discriminate.
  unfold Py.eqb. cbn. intros E. apply String.eqb_eq in E as ->. reflexivity.
Qed.

Lemma text_eqb k g : Py.eqb (PStr g) k = true -> k = PStr g.
Proof.
  destruct k as [| | | |s]; try discriminate.
  unfold Py.eqb. cbn. intros E. apply String.eqb_eq in E as ->. reflexivity.
Qed.

Lemma groups_set_forallb (P : pyval -> bool) d key v :
  forallb (fun e => P e.1) d = true -> P key = true ->
  forallb (fun e => P e.1) (Ipset.groups_set d key v) = true.
Proof.
  intros Hd Hkey. induction d as [|[k w] d IH]; cbn [Ipset.groups_set forallb fst].
  - rewrite Hkey. reflexivity.
  - cbn [forallb fst] in Hd. apply andb_true_iff in Hd as [Hk Hd].
    destruct (Py.eqb k key); cbn [forallb fst]; rewrite Hk; [exact Hd|].
    apply IH, Hd.
Qed.

Lemma groups_set_distinct d key v :
  distinct_keys d = true -> distinct_keys (Ipset.groups_set d key v) = true.
Proof.
  induction d as [|[k w] d IH]; cbn [Ipset.groups_set distinct_keys]; [reflexivity|].
  intros Hd. apply andb_true_iff in Hd as [Hk Hd].
  destruct (Py.eqb k key) eqn:Ek; cbn [distinct_keys].
  - rewrite Hk. exact Hd.
  - rewrite (IH Hd), andb_true_r.
    apply (groups_set_forallb (fun k' => negb (Py.eqb k k'))); [exact Hk|].
    rewrite Ek. reflexivity.
Qed.

Lemma groups_get_set_same d g v :
  groups_get (Ipset.groups_set d (PStr g) v) (PStr g) = Some v.
Proof.
  induction d as [|[k w] d IH]; cbn [Ipset.groups_set groups_get].
  - unfold Py.eqb. cbn. rewrite String.eqb_refl. reflexivity.
  - destruct (Py.eqb k (PStr g)) eqn:Ek; cbn [groups_get]; rewrite Ek;
      [reflexivity|exact IH].
Qed.

Lemma groups_get_set_other d key g v :
  Py.eqb key (PStr g) = false ->
  groups_get (Ipset.groups_set d key v) (PStr g) = groups_get d (PStr g).
Proof.
  intros Hkey. induction d as [|[k w] d IH]; cbn [Ipset.groups_set groups_get].
  - rewrite Hkey. reflexivity.
  - destruct (Py.eqb k key) eqn:Ek; cbn [groups_get]; [|rewrite IH; reflexivity].
    destruct (Py.eqb k (PStr g)) eqn:Eg; [|reflexivity].
    apply eqb_text in Eg as ->. apply text_eqb in Ek as ->.
    unfold Py.eqb in Hkey. cbn in Hkey. rewrite String.eqb_refl in Hkey.
    discriminate.
Qed.

Lemma collect_groups_distinct rows d d' :
  Ipset.collect_groups rows d = Ok d' ->
  distinct_keys d = true -> distinct_keys d' = true.
Proof.
  revert d. induction rows as [|r rows IH]; cbn [Ipset.collect_groups]; intros d E Hd.
  - injection E as <-. exact Hd.
  - destruct (Ipset.getitem r "group_name") as [g| |]; cbn in E; try discriminate.
    destruct (Py.isna g); [exact (IH _ E Hd)|].
    destruct (Ipset.getitem r "csv") as [csv| |]; cbn in E; try discriminate.
    destruct (Ipset.clean_ip_addresses csv) as [ips| |]; cbn in E; try discriminate.
    destruct (Py.truthy_list ips); [|exact (IH _ E Hd)].
    apply (IH _ E), groups_set_distinct, Hd.
Qed.

Lemma collect_groups_keeps g rows d d' :
  Ipset.collect_groups rows d = Ok d' ->
  Forall (fun r => named g r = true -> contributes_nothing r = true) rows ->
  groups_get d' (PStr g) = groups_get d (PStr g).
Proof.
  revert d. induction rows as [|r rows IH]; intros d E Hrows.
  - injection E as <-. reflexivity.
  - apply Forall_cons in Hrows as [Hr Hrows].
    destruct (contributes_nothing r) eqn:Hnothing.
    { rewrite collect_groups_skip in E by exact Hnothing. exact (IH _ E Hrows). }
    cbn [Ipset.collect_groups] in E. unfold Ipset.getitem in E.
    unfold named in Hr.
    destruct (r !! "group_name") as [k|]; cbn in E; [|discriminate].
    destruct (Py.isna k); [exact (IH _ E Hrows)|].
    destruct (r !! "csv") as [csv|]; cbn in E; [|discriminate].
    destruct (Ipset.clean_ip_addresses csv) as [ips| |]; cbn in E; try discriminate.
    destruct (Py.truthy_list ips); [|exact (IH _ E Hrows)].
    rewrite (IH _ E Hrows). apply groups_get_set_other.
    destruct (Py.eqb k (PStr g)) eqn:Ek; [|reflexivity].
    apply eqb_text in Ek as ->. rewrite String.eqb_refl in Hr.
    discriminate (Hr eq_refl).
Qed.

(** X13.  The groups [convert_xlsx_to_hcl] collects stand each under its
    own name: no two keys are equal.  A group named in several rows is
    not the union of their addresses: it has the addresses of the last
    of its rows that has any. *)
Theorem groups_by_name rows d :
  Ipset.collect_groups rows [] = Ok d ->
  distinct_keys d = true /\
  forall before r after g csv,
    rows = (before ++ r :: after)%list ->
    r !! "group_name" = Some (PStr g) ->
    r !! "csv" = Some (PStr csv) ->
    cleaned_addresses csv ≠ [] ->
    Forall (fun r' => named g r' = true -> contributes_nothing r' = true) after ->
    groups_get d (PStr g) = Some (cleaned_addresses csv).
Proof.
  intros E. split; [exact (collect_groups_distinct _ _ _ E eq_refl)|].
  intros before r after g csv -> Hname Hcsv Hne Hafter.
  rewrite collect_groups_app in E.
  destruct (Ipset.collect_groups before []) as [d1| |]; cbn in E; try discriminate.
  unfold Ipset.getitem in E. rewrite Hname, Hcsv in E. cbn in E.
  fold (cleaned_addresses csv) in E.
  destruct (cleaned_addresses csv) as [|ip ips] eqn:Eips; [congruence|].
  cbn [Py.truthy_list] in E.
  rewrite (collect_groups_keeps g _ _ _ E Hafter). apply groups_get_set_same.
Qed.

Lemma groups_by_name_witness :
  distinct_keys [(PStr "web", ["10.0.0.9"]); (PStr "db", ["10.0.1.1"])] = true /\
  forall (before : list row) (r : row) (after : list row) g csv,
    [ {[ "group_name" := PStr "web"; "csv" := PStr "10.0.0.1, 10.0.0.2" ]};
      {[ "group_name" := PStr "db"; "csv" := PStr "10.0.1.1" ]};
      {[ "group_name" := PStr "web"; "csv" := PStr "10.0.0.9" ]};
      {[ "group_name" := PStr "web"; "csv" := PStr " , " ]} ]
      = (before ++ r :: after)%list ->
    r !! "group_name" = Some (PStr g) ->
    r !! "csv" = Some (PStr csv) ->
    cleaned_addresses csv ≠ [] ->
    Forall (fun r' => named g r' = true -> contributes_nothing r' = true) after ->
    groups_get [(PStr "web", ["10.0.0.9"]); (PStr "db", ["10.0.1.1"])] (PStr g)
      = Some (cleaned_addresses csv).
Proof.
  apply (groups_by_name
           [ {[ "group_name" := PStr "web"; "csv" := PStr "10.0.0.1, 10.0.0.2" ]};
             {[ "group_name" := PStr "db"; "csv" := PStr "10.0.1.1" ]};
             {[ "group_name" := PStr "web"; "csv" := PStr "10.0.0.9" ]};
             {[ "group_name" := PStr "web"; "csv" := PStr " , " ]} ]).
  vm_compute. reflexivity.
Defined.

(** ** Sheets that are converted *)

Lemma eqb_is_str a b : Py.eqb a b = true -> Py.is_str a = Py.is_str b.
Proof. destruct a, b; try reflexivity; discriminate. Qed.

Lemma groups_set_text_keys d key v :
  text_keys (Ipset.groups_set d key v) = text_keys d && Py.is_str key.
Proof.
  unfold text_keys.
  induction d as [|[k w] d IH]; cbn [Ipset.groups_set forallb fst].
  - apply andb_true_r.
  - destruct (Py.eqb k key) eqn:Ek; cbn [forallb fst].
    + rewrite <- (eqb_is_str _ _ Ek).
      destruct (Py.is_str k), (forallb _ d); reflexivity.
    + rewrite IH. apply andb_assoc.
Qed.

Lemma truthy_cleaned s :
  Py.truthy_list (cleaned_addresses s) = negb (no_address (PStr s)).
Proof.
  unfold cleaned_addresses, no_address.
  induction (PyStr.split "," s) as [|e l IH]; [reflexivity|].
  cbn [map forallb]. destruct (String.eqb (PyStr.strip e) "") eqn:Ee.
  - apply String.eqb_eq in Ee. rewrite filter_cons_False by (intros Hne; auto).
    exact IH.
  - apply String.eqb_neq in Ee. rewrite filter_cons_True by exact Ee. reflexivity.
Qed.

Lemma collect_groups_text rows d :
  match Ipset.collect_groups rows d with
  | Ok d' => text_keys d' = text_keys d && forallb acceptable rows
  | Raise _ => forallb acceptable rows = false
  | OutOfFuel => False
  end.
Proof.
  revert d. induction rows as [|r rows IH]; intros d;
    cbn [Ipset.collect_groups forallb].
  - symmetry. apply andb_true_r.
  - set (rest := forallb acceptable rows) in *. unfold acceptable, Ipset.getitem.
    destruct (r !! "group_name") as [g|]; cbn [mbind outcome_bind]; [|reflexivity].
    destruct (Py.isna g) eqn:Hg; cbn [orb andb]; [apply IH|].
    destruct (r !! "csv") as [csv|]; cbn [mbind outcome_bind]; [|reflexivity].
    destruct csv as [| | |[| |]|s]; cbn; try reflexivity; try apply IH.
    fold (cleaned_addresses s). rewrite truthy_cleaned.
    change (forallb _ (PyStr.split "," s)) with (no_address (PStr s)).
    destruct (no_address (PStr s)); cbn [negb orb]; [apply IH|].
    specialize (IH (Ipset.groups_set d g (cleaned_addresses s))).
    destruct (Ipset.collect_groups rows _) as [d'| |]; [| |exact IH].
    + rewrite IH, groups_set_text_keys, andb_assoc. reflexivity.
    + rewrite IH. apply andb_false_r.
Qed.

Section Accepted.
Context `{FloatRepr}.

Lemma locals_entries_accepts items locals_block :
  match Ipset.locals_entries items locals_block with
  | Ok _ => text_keys items = true
  | Raise _ => text_keys items = false
  | OutOfFuel => False
  end.
Proof.
  revert locals_block. unfold text_keys.
  induction items as [|[k v] items IH]; intros locals_block;
    cbn [Ipset.locals_entries forallb fst]; [reflexivity|].
  destruct k as [| | | |s]; cbn; try reflexivity. apply IH.
Qed.

(** X14.  Which sheets [convert_xlsx_to_hcl] converts.  It writes the
    file exactly when every row has a [group_name] cell and, where that
    is not empty, a [csv] cell that is empty or text, with a name that
    is text where the [csv] cell holds an address.  For any other sheet
    the program ends with status 1, and in no other way. *)
Theorem convert_xlsx_to_hcl_accepts rows :
  if forallb acceptable rows
  then exists text, Ipset.convert_xlsx_to_hcl rows = Ok text
  else Ipset.convert_xlsx_to_hcl rows = Raise (Exn SystemExit "1").
Proof.
  unfold Ipset.convert_xlsx_to_hcl, Ipset.generate_hcl_locals.
  pose proof (collect_groups_text rows []) as Hcollect.
  destruct (Ipset.collect_groups rows []) as [d| |]; cbn [mbind outcome_bind];
    [|rewrite Hcollect; reflexivity|contradiction].
  cbn [text_keys forallb andb] in Hcollect. rewrite <- Hcollect.
  pose proof (locals_entries_accepts d ["locals {"; "  ip_sets = {"]) as Hlocals.
  destruct (Ipset.locals_entries d _) as [lines| |]; cbn [mbind outcome_bind];
    [| |contradiction]; rewrite Hlocals; [eauto|reflexivity].
Qed.

End Accepted.

(** ** The file of a policy *)

Section PolicyFile.
Context `{FloatRepr}.

(** X15.  The document [write_policy_to_file] writes for a policy that
    [create_policy] has built: the subscript finds its key, and the
    document holds that one policy, fields and name, under
    [resource], as the documents of [policymaker.py] do.  For a policy
    built without a set of used numbers it is the very document
    [create_combined_policies] makes of that sheet alone. *)
Theorem policy_file policy_row rules (existing existing' : gset string) log policy :
  Optum.create_policy policy_row rules (Some existing)
    = Logged log (Ok (policy, existing')) ->
  exists doc,
    Optum.formatted_policy policy = Ok doc /\
    document_key doc = Some (Py.str (optum_name policy_row)) /\
    document_key doc = policy_key policy /\
    document_body doc = policy_body policy /\
    (existing = ∅ ->
     Optum.create_combined_policies [(policy_row, rules)] = Logged log (Ok doc)).
Proof.
  intros E. pose proof E as E'.
  apply optum_create_policy_document in E' as (c & sn & rs & _ & _ & -> & _).
  eexists. split; [reflexivity|]. split; [reflexivity|].
  split; [reflexivity|]. split; [reflexivity|]. intros ->.
  unfold Optum.create_combined_policies. cbn [Optum.combined_loop].
  change (Optum.create_policy policy_row rules None)
    with (Optum.create_policy policy_row rules (Some ∅)).
  rewrite E. unfold mbind, logged_bind. cbn. rewrite !app_nil_r. reflexivity.
Qed.

End PolicyFile.

Lemma policy_file_witness :
  exists doc,
    Optum.formatted_policy
      (optum_policy (H := fraction_repr)
         {[ "policy_display_name" := PStr "web-frontend";
            "sequence_number" := PInt 3 ]} "Infrastructure" "3" []) = Ok doc /\
    document_key doc
      = Some (Py.str (H := fraction_repr)
                (optum_name {[ "policy_display_name" := PStr "web-frontend";
                               "sequence_number" := PInt 3 ]})) /\
    document_key doc
      = policy_key
          (optum_policy (H := fraction_repr)
             {[ "policy_display_name" := PStr "web-frontend";
                "sequence_number" := PInt 3 ]} "Infrastructure" "3" []) /\
    document_body doc
      = policy_body
          (optum_policy (H := fraction_repr)
             {[ "policy_display_name" := PStr "web-frontend";
                "sequence_number" := PInt 3 ]} "Infrastructure" "3" []) /\
    ((∅ : gset string) = ∅ ->
     Optum.create_combined_policies (H := fraction_repr)
       [({[ "policy_display_name" := PStr "web-frontend";
            "sequence_number" := PInt 3 ]}, [])] = Logged [] (Ok doc)).
Proof.
  apply (@policy_file fraction_repr
           {[ "policy_display_name" := PStr "web-frontend";
              "sequence_number" := PInt 3 ]} [] ∅ {[ "3" ]}).
  vm_compute. reflexivity.
Defined.
